(** * SQL-Tutorial-2: relational model, query library and bot handler

    A shallow embedding of

    - [Part9. SQLAlchemy. Async/models.py]  (the four tables and their
      referential rules),
    - [Part8. SQLAlchemy. Making requests/main.py]  (the synchronous query
      library and its driver),
    - [Part9. SQLAlchemy. Async/main.py]  (the asynchronous join), and
    - [Part10. Integration to aiogram/.../handlers/user.py]  (the start
      handler),

    over an explicit model of the database: tables are lists of rows in
    insertion order, a session is a transaction over a committed store, and
    every statement sent to the database is recorded in a trace. *)

From Stdlib Require Import ZArith List String Ascii Bool Lia Permutation.
From Stdlib Require Import DecimalString.
Import ListNotations.

Open Scope Z_scope.
Open Scope list_scope.

(* ------------------------------------------------------------------ *)
(** * Values: timestamps and Python's [str] *)
(* ------------------------------------------------------------------ *)

(** A naive [datetime.datetime], as a TIMESTAMP column is read back. *)
Record datetime := mkDatetime {
  year : nat; month : nat; day : nat;
  hour : nat; minute : nat; second : nat; microsecond : nat
}.

(** [datetime.date(y, m, d)] stored into a TIMESTAMP column: midnight. *)
Definition date (y m d : nat) : datetime := mkDatetime y m d 0 0 0 0.

Definition digits (n : nat) : string := NilEmpty.string_of_uint (Nat.to_uint n).

Fixpoint zeros (k : nat) : string :=
  match k with
  | O => EmptyString
  | S k' => String "0"%char (zeros k')
  end.

(** ["%0<w>d" % n] *)
Definition zfill (w n : nat) : string :=
  let s := digits n in (zeros (w - String.length s) ++ s)%string.

(** [str(dt)], that is [dt.isoformat(sep=' ')]. *)
Definition str_datetime (t : datetime) : string :=
  (zfill 4 (year t) ++ "-" ++ zfill 2 (month t) ++ "-" ++ zfill 2 (day t)
   ++ " " ++ zfill 2 (hour t) ++ ":" ++ zfill 2 (minute t) ++ ":"
   ++ zfill 2 (second t)
   ++ match microsecond t with
      | O => ""
      | us => "." ++ zfill 6 us
      end)%string.

(** [str(x)] for a value that may be [None]. *)
Definition str_opt {A} (str : A -> string) (x : option A) : string :=
  match x with
  | Some a => str a
  | None => "None"%string
  end.

(** [needle in hay] *)
Definition contains (needle hay : string) : Prop :=
  exists pre post, hay = (pre ++ needle ++ post)%string.

(* ------------------------------------------------------------------ *)
(** * models.py: the four tables *)
(* ------------------------------------------------------------------ *)

Module User.
Record t := mk {
  telegram_id : Z;                  (* BIGINT, primary key *)
  full_name : string;               (* VARCHAR(255), nullable=False *)
  username : option string;         (* VARCHAR(255) *)
  language_code : string;           (* VARCHAR(10), nullable=False *)
  created_at : option datetime;     (* TIMESTAMP, server_default=now() *)
  referrer_id : option Z            (* BIGINT, FK users.telegram_id *)
}.
End User.

Module Order.
Record t := mk {
  order_id : Z;                     (* Integer, primary key, autoincrement *)
  user_id : Z;                      (* BIGINT, FK users.telegram_id, not null *)
  created_at : option datetime
}.
End Order.

Module Product.
Record t := mk {
  product_id : Z;                   (* Integer, primary key, autoincrement *)
  title : string;                   (* VARCHAR(255), nullable=False *)
  description : option string;      (* VARCHAR(3000), nullable=True *)
  created_at : option datetime
}.
End Product.

Module OrderProduct.
Record t := mk {
  order_id : Z;                     (* Integer, FK orders.order_id, pk *)
  product_id : Z;                   (* Integer, FK products.product_id, pk *)
  quantity : Z                      (* Integer, nullable=False *)
}.
End OrderProduct.

(** The [ondelete=] argument of a [ForeignKey]. *)
Inductive ondelete := SET_NULL | CASCADE | RESTRICT.

(** The referential rules, one per [ForeignKey] of models.py. *)
Record foreign_keys := mkForeignKeys {
  users_referrer_id : ondelete;
  orders_user_id : ondelete;
  order_products_order_id : ondelete;
  order_products_product_id : ondelete
}.

Definition models : foreign_keys := {|
  users_referrer_id := SET_NULL;
  orders_user_id := CASCADE;
  order_products_order_id := CASCADE;
  order_products_product_id := RESTRICT
|}.

(** The stored rows, each table in insertion order. *)
Record db := mkDb {
  users : list User.t;
  orders : list Order.t;
  products : list Product.t;
  order_products : list OrderProduct.t
}.

Definition empty_db : db := mkDb [] [] [] [].

(* ------------------------------------------------------------------ *)
(** * Exceptions and the session *)
(* ------------------------------------------------------------------ *)

Inductive exn :=
| IntegrityError      (* not-null, primary-key or foreign-key violation *)
| DataError           (* value out of range or too long for its column *)
| StatementError      (* a bound parameter has no value *)
| AttributeError.     (* attribute access on None *)

Inductive outcome (A : Type) :=
| Returned (a : A)
| Raised (e : exn).
Arguments Returned {A} a.
Arguments Raised {A} e.

(** A row of the three referrer joins: the labels [user] and [referrer]. *)
Record UserReferrerRow := mkUR { user : option string; referrer : option string }.

(** A row of [select(Order.order_id, User.full_name)]. *)
Record UserOrderRow := mkUO { uo_order_id : Z; uo_full_name : string }.

(** A row of [select(Order.order_id, Product.title, User.full_name)]. *)
Record UserProductRow := mkUP { up_order_id : Z; up_title : string; up_full_name : string }.

(** The dicts given to [create_new_products]. *)
Record product_info := mkInfo { info_title : string; info_description : option string }.

(** The dicts given to [add_products_to_order]. *)
Record product_data := mkData { data_product_id : Z; data_quantity : Z }.

(** A column of an INSERT that has a server default: left out of the
    statement, or given a value. *)
Inductive supplied (A : Type) :=
| Default
| Value (a : option A).
Arguments Default {A}.
Arguments Value {A} a.

(** [server_default=func.now()] *)
Definition server_default (t : datetime) (x : supplied datetime) : option datetime :=
  match x with
  | Default => Some t
  | Value a => a
  end.

(** The column values of an INSERT INTO users; [None] is SQL NULL. *)
Record user_values := mkUserValues {
  v_telegram_id : Z;
  v_full_name : option string;
  v_username : option string;
  v_language_code : option string;
  v_created_at : supplied datetime;
  v_referrer_id : option Z
}.

(** What a run sends to the database, prints, or replies. *)
Inductive event :=
| SelectUserById (telegram_id : Z)
| InsertUser (v : user_values)
| SelectUsersWithReferrer
| SelectAllUsersAndSomeReferrers
| SelectSomeUsersAndAllReferrers
| InsertOrder (user_id : Z)
| SelectUsersOrders
| InsertProducts (infos : list product_info)
| InsertOrderProducts (order_id : Z) (data : list product_data)
| SelectAllUsersProducts
| Commit
| Print (line : string)
| PrintUserReferrer (row : UserReferrerRow)
| PrintUserOrder (row : UserOrderRow)
| PrintProductIds (ids : list Z)
| PrintUserProduct (row : UserProductRow)
| PrintNameOrder (full_name : string) (order_id : Z)
| Reply (text : string).

(** The database server: the committed rows, and the two sequences behind
    the autoincrement keys.  Sequences live outside transactions: a value
    once drawn is never handed out again, rollback or not. *)
Record server := mkServer {
  tables : db;
  orders_order_id_seq : Z;
  products_product_id_seq : Z
}.

(** A session: the committed rows, the rows as this transaction sees them,
    the sequences, the objects already loaded (identity map), the
    transaction's [now()], and the trace so far. *)
Record session := mkSession {
  persisted : db;
  current : db;
  order_seq : Z;
  product_seq : Z;
  identity_map : list (Z * User.t);
  clock : datetime;
  trace : list event
}.

Definition M (A : Type) : Type := session -> outcome A * session.

Definition ret {A} (a : A) : M A := fun s => (Returned a, s).

Definition bind {A B} (c : M A) (k : A -> M B) : M B :=
  fun s =>
    match c s with
    | (Returned a, s') => k a s'
    | (Raised e, s') => (Raised e, s')
    end.

Definition raise {A} (e : exn) : M A := fun s => (Raised e, s).

Declare Scope session_scope.
Delimit Scope session_scope with session.
Notation "x <- c ;; k" := (bind c (fun x => k))
  (at level 100, c at next level, right associativity) : session_scope.
Notation "c ;; k" := (bind c (fun _ => k))
  (at level 100, right associativity) : session_scope.
Open Scope session_scope.

Definition emit (e : event) : M unit :=
  fun s => (Returned tt,
            mkSession (persisted s) (current s) (order_seq s) (product_seq s)
                      (identity_map s) (clock s) (trace s ++ [e])).

Definition get_current : M db := fun s => (Returned (current s), s).

Definition set_current (d : db) : M unit :=
  fun s => (Returned tt,
            mkSession (persisted s) d (order_seq s) (product_seq s)
                      (identity_map s) (clock s) (trace s)).

Definition now : M datetime := fun s => (Returned (clock s), s).

(** [for x in xs: body(x)] *)
Fixpoint for_each {A} (xs : list A) (body : A -> M unit) : M unit :=
  match xs with
  | [] => ret tt
  | x :: xs' => body x ;; for_each xs' body
  end.

(** [sessionmaker(bind=engine)()] *)
Definition open_session (t : datetime) (srv : server) : session :=
  mkSession (tables srv) (tables srv) (orders_order_id_seq srv)
            (products_product_id_seq srv) [] t [].

(** [session.close()], also what leaving the [with] block does: whatever
    was not committed is rolled back. *)
Definition close_session (s : session) : server :=
  mkServer (persisted s) (order_seq s) (product_seq s).

(** [session.commit()]: the transaction's rows become the committed ones,
    and every loaded object is expired. *)
Definition commit : M unit :=
  fun s => (Returned tt,
            mkSession (current s) (current s) (order_seq s) (product_seq s)
                      [] (clock s) (trace s ++ [Commit])).

(* ------------------------------------------------------------------ *)
(** * Column types and constraints *)
(* ------------------------------------------------------------------ *)

(** BIGINT and Integer. *)
Definition in_int64 (z : Z) : bool := (- 2 ^ 63 <=? z) && (z <? 2 ^ 63).
Definition in_int32 (z : Z) : bool := (- 2 ^ 31 <=? z) && (z <? 2 ^ 31).

Definition bigint (z : Z) : outcome Z :=
  if in_int64 z then Returned z else Raised DataError.

Definition integer (z : Z) : outcome Z :=
  if in_int32 z then Returned z else Raised DataError.

Fixpoint all_spaces (s : string) : bool :=
  match s with
  | EmptyString => true
  | String c s' => Ascii.eqb c " "%char && all_spaces s'
  end.

(** A Python [str] is a sequence of characters; here it is held as its
    UTF-8 bytes, the form in which it is sent to the database.  A byte
    [10xxxxxx] continues the character before it, every other byte starts
    one. *)
Definition continuation (c : ascii) : bool :=
  match c with
  | Ascii _ _ _ _ _ _ false true => true
  | _ => false
  end.

(** [len(s)], and the length PostgreSQL's [char_length] gives. *)
Fixpoint characters (s : string) : nat :=
  match s with
  | EmptyString => 0
  | String c s' => if continuation c then characters s' else S (characters s')
  end.

Fixpoint skip_continuation (s : string) : string :=
  match s with
  | String c s' => if continuation c then skip_continuation s' else s
  | EmptyString => EmptyString
  end.

Fixpoint this_character (s : string) : string :=
  match s with
  | String c s' => if continuation c then String c (this_character s') else EmptyString
  | EmptyString => EmptyString
  end.

(** What is left of [s] after its first [n] characters, and these. *)
Fixpoint drop_characters (n : nat) (s : string) : string :=
  match n, s with
  | O, _ => s
  | S n', String _ s' => drop_characters n' (skip_continuation s')
  | S _, EmptyString => EmptyString
  end.

Fixpoint take_characters (n : nat) (s : string) : string :=
  match n, s with
  | O, _ => EmptyString
  | S n', String c s' =>
      String c (this_character s' ++ take_characters n' (skip_continuation s'))
  | S _, EmptyString => EmptyString
  end.

(** VARCHAR(n) holds up to [n] characters: a longer string is refused,
    unless what exceeds [n] characters is spaces only, which are cut
    off. *)
Definition varchar (n : nat) (s : string) : outcome string :=
  if (characters s <=? n)%nat then Returned s
  else if all_spaces (drop_characters n s) then Returned (take_characters n s)
  else Raised DataError.

(** A nullable column: NULL passes every type check. *)
Definition nullable {A} (check : A -> outcome A) (x : option A) : outcome (option A) :=
  match x with
  | None => Returned None
  | Some a => match check a with
              | Returned a' => Returned (Some a')
              | Raised e => Raised e
              end
  end.

(** [nullable=False] *)
Definition not_null {A} (x : option A) : outcome A :=
  match x with
  | Some a => Returned a
  | None => Raised IntegrityError
  end.

Definition obind {A B} (x : outcome A) (k : A -> outcome B) : outcome B :=
  match x with
  | Returned a => k a
  | Raised e => Raised e
  end.

Notation "'let?' x ':=' c 'in' k" := (obind c (fun x => k))
  (at level 10, x name, c at level 100, k at level 200).

Definition require (b : bool) (e : exn) : outcome unit :=
  if b then Returned tt else Raised e.

Definition has_user (id : Z) (d : db) : bool :=
  existsb (fun u => User.telegram_id u =? id) (users d).

Definition has_order (id : Z) (d : db) : bool :=
  existsb (fun o => Order.order_id o =? id) (orders d).

Definition has_product (id : Z) (d : db) : bool :=
  existsb (fun p => Product.product_id p =? id) (products d).

Definition has_order_product (oid pid : Z) (d : db) : bool :=
  existsb (fun op => (OrderProduct.order_id op =? oid)
                     && (OrderProduct.product_id op =? pid)) (order_products d).

(** INSERT INTO users: one row.  Values are coerced to their column types,
    then not-null, the primary key and the foreign key are checked; a
    row may name itself as its referrer.  [t] is the transaction's
    [now()]. *)
Definition insert_user (t : datetime) (v : user_values) (d : db) : outcome db :=
  let? id := bigint (v_telegram_id v) in
  let? fn := nullable (varchar 255) (v_full_name v) in
  let? un := nullable (varchar 255) (v_username v) in
  let? lc := nullable (varchar 10) (v_language_code v) in
  let? rf := nullable bigint (v_referrer_id v) in
  let? fn := not_null fn in
  let? lc := not_null lc in
  let? _ := require (negb (has_user id d)) IntegrityError in
  let? _ := require (match rf with
                     | None => true
                     | Some r => has_user r d || (r =? id)
                     end) IntegrityError in
  Returned (mkDb (users d ++ [User.mk id fn un lc (server_default t (v_created_at v)) rf])
                 (orders d) (products d) (order_products d)).

(** INSERT INTO orders: one row with the key [id] drawn from the sequence
    and [created_at] left to its server default. *)
Definition insert_order (t : datetime) (id uid : Z) (d : db) : outcome db :=
  let? id := integer id in
  let? uid := bigint uid in
  let? _ := require (negb (has_order id d)) IntegrityError in
  let? _ := require (has_user uid d) IntegrityError in
  Returned (mkDb (users d) (orders d ++ [Order.mk id uid (Some t)])
                 (products d) (order_products d)).

(** INSERT INTO products: one row with the key [id] drawn from the
    sequence and [created_at] left to its server default. *)
Definition insert_product (t : datetime) (id : Z) (title : option string)
    (description : option string) (d : db) : outcome db :=
  let? id := integer id in
  let? ti := nullable (varchar 255) title in
  let? de := nullable (varchar 3000) description in
  let? ti := not_null ti in
  let? _ := require (negb (has_product id d)) IntegrityError in
  Returned (mkDb (users d) (orders d)
                 (products d ++ [Product.mk id ti de (Some t)])
                 (order_products d)).

(** INSERT INTO order_products: one row. *)
Definition insert_order_product (oid pid qty : Z) (d : db) : outcome db :=
  let? oid := integer oid in
  let? pid := integer pid in
  let? qty := integer qty in
  let? _ := require (negb (has_order_product oid pid d)) IntegrityError in
  let? _ := require (has_order oid d) IntegrityError in
  let? _ := require (has_product pid d) IntegrityError in
  Returned (mkDb (users d) (orders d) (products d)
                 (order_products d ++ [OrderProduct.mk oid pid qty])).

(* ------------------------------------------------------------------ *)
(** * Joins *)
(* ------------------------------------------------------------------ *)

(** [a JOIN b ON on].  No select of the sources asks for an order, and
    the server may return the rows of a join in any; they are listed here
    in one of them, and what is proved of a result is proved of its rows
    as a collection. *)
Definition inner_join {A B} (on : A -> B -> bool) (l : list A) (r : list B)
  : list (A * B) :=
  flat_map (fun a => map (pair a) (filter (on a) r)) l.

(** [a LEFT OUTER JOIN b ON on] *)
Definition left_outer_join {A B} (on : A -> B -> bool) (l : list A) (r : list B)
  : list (A * option B) :=
  flat_map (fun a => match filter (on a) r with
                     | [] => [(a, None)]
                     | ms => map (fun b => (a, Some b)) ms
                     end) l.

(** [Referrer.telegram_id == User.referrer_id]; NULL equals nothing. *)
Definition referrer_of (u r : User.t) : bool :=
  match User.referrer_id u with
  | Some k => User.telegram_id r =? k
  | None => false
  end.

(** FROM users JOIN users AS referrer ON referrer.telegram_id = users.referrer_id *)
Definition users_join_referrer (d : db) : list (User.t * User.t) :=
  inner_join referrer_of (users d) (users d).

(** FROM users LEFT OUTER JOIN users AS referrer ON ... *)
Definition users_outerjoin_referrer (d : db) : list (User.t * option User.t) :=
  left_outer_join referrer_of (users d) (users d).

(** FROM users AS referrer LEFT OUTER JOIN users ON ... *)
Definition referrer_outerjoin_users (d : db) : list (User.t * option User.t) :=
  left_outer_join (fun r u => referrer_of u r) (users d) (users d).

Definition query_users_with_referrer (d : db) : list UserReferrerRow :=
  map (fun '(u, r) => mkUR (Some (User.full_name u)) (Some (User.full_name r)))
      (users_join_referrer d).

Definition query_all_users_and_some_referrers (d : db) : list UserReferrerRow :=
  map (fun '(u, r) => mkUR (Some (User.full_name u)) (option_map User.full_name r))
      (users_outerjoin_referrer d).

Definition query_some_users_and_all_referrers (d : db) : list UserReferrerRow :=
  map (fun '(r, u) => mkUR (option_map User.full_name u) (Some (User.full_name r)))
      (referrer_outerjoin_users d).

(** FROM orders JOIN users ON users.telegram_id = orders.user_id, the ON
    clause being the one foreign key between the two tables. *)
Definition query_users_orders (d : db) : list UserOrderRow :=
  map (fun '(o, u) => mkUO (Order.order_id o) (User.full_name u))
      (inner_join (fun o u => User.telegram_id u =? Order.user_id o)
                  (orders d) (users d)).

(** FROM order_products JOIN products ON ... JOIN orders ON ... JOIN users ON ... *)
Definition query_all_users_products (d : db) : list UserProductRow :=
  map (fun '(((op, p), o), u) =>
         mkUP (Order.order_id o) (Product.title p) (User.full_name u))
      (inner_join (fun '((_, _), o) u => User.telegram_id u =? Order.user_id o)
         (inner_join (fun '(op, _) o => Order.order_id o =? OrderProduct.order_id op)
            (inner_join (fun op p => Product.product_id p =? OrderProduct.product_id op)
               (order_products d) (products d))
            (orders d))
         (users d)).

(* ------------------------------------------------------------------ *)
(** * Statements inside a session *)
(* ------------------------------------------------------------------ *)

(** A statement that the server refuses leaves the transaction aborted:
    the server takes no further statement in it, and what it had written
    and not committed is gone when the session is rolled back or closed.
    Sequence values that were drawn are not given back. *)
Definition abort (s : session) : session :=
  mkSession (persisted s) (persisted s) (order_seq s) (product_seq s)
            (identity_map s) (clock s) (trace s).

(** A value is bound to a column type by the server. *)
Definition check {A} (x : outcome A) : M A :=
  fun s =>
    match x with
    | Returned a => (Returned a, s)
    | Raised e => (Raised e, abort s)
    end.

(** Run one row operation on the transaction's rows. *)
Definition lift (f : db -> outcome db) : M unit :=
  fun s =>
    match f (current s) with
    | Returned d => set_current d s
    | Raised e => (Raised e, abort s)
    end.

(** [nextval('orders_order_id_seq')].  The sequence of an Integer key
    is an integer sequence: past [2 ^ 31 - 1] it gives no value, the
    statement is refused and the sequence stays where it is.  The field
    holds the value that comes next. *)
Definition nextval_orders : M Z :=
  fun s =>
    if order_seq s <? 2 ^ 31 then
      (Returned (order_seq s),
       mkSession (persisted s) (current s) (order_seq s + 1) (product_seq s)
                 (identity_map s) (clock s) (trace s))
    else (Raised DataError, abort s).

(** [nextval('products_product_id_seq')] *)
Definition nextval_products : M Z :=
  fun s =>
    if product_seq s <? 2 ^ 31 then
      (Returned (product_seq s),
       mkSession (persisted s) (current s) (order_seq s) (product_seq s + 1)
                 (identity_map s) (clock s) (trace s))
    else (Raised DataError, abort s).

(** One statement sent to the server: when the server refuses it, at
    whichever of its rows, the transaction is aborted. *)
Definition statement {A} (c : M A) : M A :=
  fun s =>
    match c s with
    | (Returned a, s') => (Returned a, s')
    | (Raised e, s') => (Raised e, abort s')
    end.

Definition run {A} (body : M A) (t : datetime) (srv : server)
  : outcome A * server * list event :=
  let '(r, s) := body (open_session t srv) in
  (r, close_session s, trace s).

(* ------------------------------------------------------------------ *)
(** * Part8. SQLAlchemy. Making requests/main.py *)
(* ------------------------------------------------------------------ *)

Module Part8.

Definition create_user (telegram_id : Z) (full_name : string)
    (username : option string) (language_code : string)
    (created_at : option datetime) (referrer_id : option Z) : M unit :=
  let stmt := mkUserValues telegram_id (Some full_name) username
                           (Some language_code) (Value created_at) referrer_id in
  emit (InsertUser stmt) ;;
  t <- now ;;
  lift (insert_user t stmt).

Definition select_users_with_referrer : M (list UserReferrerRow) :=
  emit SelectUsersWithReferrer ;;
  d <- get_current ;;
  ret (query_users_with_referrer d).

Definition select_all_users_and_some_referrers : M (list UserReferrerRow) :=
  emit SelectAllUsersAndSomeReferrers ;;
  d <- get_current ;;
  ret (query_all_users_and_some_referrers d).

Definition select_some_users_and_all_referrers : M (list UserReferrerRow) :=
  emit SelectSomeUsersAndAllReferrers ;;
  d <- get_current ;;
  ret (query_some_users_and_all_referrers d).

(** [insert(Order).values(user_id=user_id).returning(Order.order_id)]:
    the parameter is bound to BIGINT before the row's key is drawn; the
    key is drawn before the row is checked against the constraints. *)
Definition create_new_order_for_user (user_id : Z) : M Z :=
  emit (InsertOrder user_id) ;;
  statement (
    user_id <- check (bigint user_id) ;;
    id <- nextval_orders ;;
    t <- now ;;
    lift (insert_order t id user_id) ;;
    ret id).

Definition show_users_orders : M (list UserOrderRow) :=
  emit SelectUsersOrders ;;
  d <- get_current ;;
  ret (query_users_orders d).

(** The rows of [VALUES (...), (...), ...], each with its returned key.
    The values of a row are bound to their column types before the key of
    the row is drawn. *)
Fixpoint insert_product_rows (products_info : list product_info) : M (list Z) :=
  match products_info with
  | [] => ret []
  | info :: rest =>
      check (varchar 255 (info_title info)) ;;
      check (nullable (varchar 3000) (info_description info)) ;;
      id <- nextval_products ;;
      t <- now ;;
      lift (insert_product t id (Some (info_title info)) (info_description info)) ;;
      ids <- insert_product_rows rest ;;
      ret (id :: ids)
  end.

(** [insert(Product).values(products_info).returning(Product.product_id)].
    [values] takes a list for a multi-row VALUES only when it has a first
    element; given the empty list it sets no column at all, and the
    statement is INSERT INTO products DEFAULT VALUES. *)
Definition create_new_products (products_info : list product_info) : M (list Z) :=
  emit (InsertProducts products_info) ;;
  match products_info with
  | [] =>
      statement (
        id <- nextval_products ;;
        t <- now ;;
        lift (insert_product t id None None) ;;
        ret [id])
  | _ => statement (insert_product_rows products_info)
  end.

(** [session.execute(stmt, product_data)]: the statement once per element;
    with no element it is run once with no parameters, and the two
    [bindparam]s have no value. *)
Definition add_products_to_order (order_id : Z) (data : list product_data) : M unit :=
  emit (InsertOrderProducts order_id data) ;;
  match data with
  | [] => raise StatementError
  | _ =>
      statement (
        for_each data (fun p =>
          lift (insert_order_product order_id (data_product_id p) (data_quantity p))))
  end.

Definition show_all_users_products : M (list UserProductRow) :=
  emit SelectAllUsersProducts ;;
  d <- get_current ;;
  ret (query_all_users_products d).

Definition print (line : string) : M unit := emit (Print line).

(** The body of the [with session_pool() as session:] block. *)
Definition main_body : M unit :=
  (* 1. *)
  create_user 1 "John Doe" (Some "johnny"%string) "en" (Some (date 2020 1 1)) None ;;
  (* 2. *)
  create_user 2 "Jane Doe" (Some "jane"%string) "en" (Some (date 2020 1 2)) (Some 1) ;;
  (* 3. *)
  users_with_referrer <- select_users_with_referrer ;;
  print "Users with referrer:" ;;
  for_each users_with_referrer (fun row => emit (PrintUserReferrer row)) ;;
  print "" ;;
  (* 4. *)
  all_users_and_referrers <- select_all_users_and_some_referrers ;;
  print "All users and their referrers:" ;;
  for_each all_users_and_referrers (fun row => emit (PrintUserReferrer row)) ;;
  (* 5. *)
  some_users_and_all_referrers <- select_some_users_and_all_referrers ;;
  print "" ;;
  print "Some users and all their referrers:" ;;
  for_each some_users_and_all_referrers (fun row => emit (PrintUserReferrer row)) ;;
  print "" ;;
  (* 6. *)
  order_id <- create_new_order_for_user 1 ;;
  (* 7. *)
  users_orders <- show_users_orders ;;
  print "Users orders:" ;;
  for_each users_orders (fun row => emit (PrintUserOrder row)) ;;
  print "" ;;
  (* 8. *)
  product_ids <- create_new_products
    [ mkInfo "Product 1" (Some "Description 1"%string);
      mkInfo "Product 2" (Some "Description 2"%string);
      mkInfo "Product 3" (Some "Description 3"%string) ] ;;
  emit (PrintProductIds product_ids) ;;
  print "" ;;
  (* 9. *)
  add_products_to_order order_id
    (map (fun product_id => mkData product_id 1) product_ids) ;;
  (* 10. *)
  users_products <- show_all_users_products ;;
  print "Users products:" ;;
  for_each users_products (fun row => emit (PrintUserProduct row)).

(** [main()]: the session is opened, the body runs, and leaving the [with]
    block closes the session. *)
Definition main (t : datetime) (srv : server) : outcome unit * server * list event :=
  run main_body t srv.

End Part8.

(* ------------------------------------------------------------------ *)
(** * Part9. SQLAlchemy. Async/main.py *)
(* ------------------------------------------------------------------ *)

Module Part9.

(** The body of the [async with session_pool() as session:] block; its
    value is [orders]. *)
Definition main_body : M (list UserOrderRow) :=
  emit SelectUsersOrders ;;
  d <- get_current ;;
  let orders := query_users_orders d in
  commit ;;
  ret orders.

(** [main()]: the rows are printed once the session is closed. *)
Definition main (t : datetime) (srv : server) : outcome unit * server * list event :=
  match run main_body t srv with
  | (Returned orders, srv', tr) =>
      (Returned tt, srv',
       tr ++ map (fun order => PrintNameOrder (uo_full_name order) (uo_order_id order))
                 orders)
  | (Raised e, srv', tr) => (Raised e, srv', tr)
  end.

End Part9.

(* ------------------------------------------------------------------ *)
(** * Part10. Integration to aiogram: tgbot/handlers/user.py *)
(* ------------------------------------------------------------------ *)

Module Part10.

(** [message.from_user], with the attributes the handler reads. *)
Record from_user_t := mkFromUser {
  id : Z;
  full_name : string;
  username : option string;
  language_code : option string
}.

Record Message := mkMessage { from_user : from_user_t }.

Fixpoint lookup (k : Z) (m : list (Z * User.t)) : option User.t :=
  match m with
  | [] => None
  | (k', u) :: m' => if k' =? k then Some u else lookup k m'
  end.

(** [session.get(User, ident)]: an object already loaded in this session
    is returned as it is and no SQL is sent; otherwise the row is selected
    by primary key and, when found, kept in the identity map. *)
Definition session_get (ident : Z) : M (option User.t) :=
  fun s =>
    match lookup ident (identity_map s) with
    | Some u => (Returned (Some u), s)
    | None =>
        let tr := trace s ++ [SelectUserById ident] in
        if in_int64 ident then
          match find (fun u => User.telegram_id u =? ident) (users (current s)) with
          | Some u =>
              (Returned (Some u),
               mkSession (persisted s) (current s) (order_seq s) (product_seq s)
                         ((ident, u) :: identity_map s) (clock s) tr)
          | None =>
              (Returned None,
               mkSession (persisted s) (current s) (order_seq s) (product_seq s)
                         (identity_map s) (clock s) tr)
          end
        else
          (Raised DataError,
           abort (mkSession (persisted s) (current s) (order_seq s) (product_seq s)
                            (identity_map s) (clock s) tr))
    end.

(** Modelled from the spec: [create_user] of
    tgbot/infrastucture/database/functions/users.py, which is not among the
    sources.  It inserts one users row with the sender identifier as primary
    key, the display name, the handle and the language preference; the
    creation time is left to the column's server default and the referrer to
    no-value; it does not commit.  The bot's own User model
    (tgbot/infrastucture/database/models/users.py) is not among the sources
    either; the spec has it compatible with models.py, whose users table is
    used here, so a missing language code violates its not-null
    constraint. *)
Definition create_user (telegram_id : Z) (full_name : string)
    (username : option string) (language_code : option string) : M unit :=
  let stmt := mkUserValues telegram_id (Some full_name) username
                           language_code Default None in
  emit (InsertUser stmt) ;;
  t <- now ;;
  lift (insert_user t stmt).

Definition newline : string := String (ascii_of_nat 10) EmptyString.

(** The f-string [user_info]. *)
Definition user_info (user : User.t) : string :=
  (User.full_name user ++ " (@" ++ str_opt (fun s => s) (User.username user) ++ ")."
   ++ newline
   ++ "Language: " ++ User.language_code user ++ "." ++ newline
   ++ "Created at: " ++ str_opt str_datetime (User.created_at user) ++ ".")%string.

Definition reply_text (user : User.t) : string :=
  ("Hello, user. " ++ newline ++ "Your info is here: " ++ newline ++ newline
   ++ user_info user)%string.

Definition user_start (message : Message) : M unit :=
  user <- session_get (id (from_user message)) ;;
  match user with
  | None =>
      create_user (id (from_user message))
                  (full_name (from_user message))
                  (username (from_user message))
                  (language_code (from_user message)) ;;
      commit
  | Some _ => ret tt
  end ;;
  user <- session_get (id (from_user message)) ;;
  match user with
  | None => raise AttributeError
  | Some user => emit (Reply (reply_text user))
  end.

(** One delivery of the start command: the handler runs in a session of
    its own, which is closed when the handler is done. *)
Definition start (t : datetime) (message : Message) (srv : server)
  : outcome unit * server * list event :=
  run (user_start message) t srv.

End Part10.

(* ------------------------------------------------------------------ *)
(** * Deleting under the declared referential rules *)
(* ------------------------------------------------------------------ *)

Definition mem (z : Z) (l : list Z) : bool := existsb (Z.eqb z) l.

Definition refers_to (gone : list Z) (u : User.t) : bool :=
  match User.referrer_id u with
  | Some k => mem k gone
  | None => false
  end.

(** ON DELETE SET NULL on users.referrer_id *)
Definition clear_referrer (gone : list Z) (u : User.t) : User.t :=
  if refers_to gone u
  then User.mk (User.telegram_id u) (User.full_name u) (User.username u)
               (User.language_code u) (User.created_at u) None
  else u.

(** DELETE FROM order_products for the orders [oids], as a referential
    action of deleting those orders. *)
Definition on_delete_orders (fk : foreign_keys) (oids : list Z) (d : db)
  : outcome (list OrderProduct.t) :=
  let hit := fun op => mem (OrderProduct.order_id op) oids in
  match order_products_order_id fk with
  | CASCADE => Returned (filter (fun op => negb (hit op)) (order_products d))
  | RESTRICT | SET_NULL =>
      (* order_id is part of the primary key: it cannot be set to NULL *)
      if existsb hit (order_products d) then Raised IntegrityError
      else Returned (order_products d)
  end.

(** DELETE FROM orders WHERE [which] *)
Definition delete_orders (fk : foreign_keys) (which : Order.t -> bool) (d : db)
  : outcome db :=
  let gone := filter which (orders d) in
  let? ops := on_delete_orders fk (map Order.order_id gone) d in
  Returned (mkDb (users d) (filter (fun o => negb (which o)) (orders d))
                 (products d) ops).

(** DELETE FROM products WHERE product_id = [pid] *)
Definition delete_product (fk : foreign_keys) (pid : Z) (d : db) : outcome db :=
  if negb (has_product pid d) then Returned d
  else
    let hit := fun op => OrderProduct.product_id op =? pid in
    let? ops :=
      match order_products_product_id fk with
      | CASCADE => Returned (filter (fun op => negb (hit op)) (order_products d))
      | RESTRICT | SET_NULL =>
          if existsb hit (order_products d) then Raised IntegrityError
          else Returned (order_products d)
      end in
    Returned (mkDb (users d) (orders d)
                   (filter (fun p => negb (Product.product_id p =? pid)) (products d))
                   ops).

(** The users that go when [ids] go: under CASCADE on the self-reference,
    whoever was referred by them, and so on. *)
Definition cascade_users (fk : foreign_keys) (ids : list Z) (d : db) : list Z :=
  match users_referrer_id fk with
  | CASCADE =>
      Nat.iter (List.length (users d))
        (fun gone =>
           gone ++ map User.telegram_id
                       (filter (fun u => refers_to gone u
                                         && negb (mem (User.telegram_id u) gone))
                               (users d)))
        ids
  | SET_NULL | RESTRICT => ids
  end.

(** DELETE FROM users WHERE telegram_id = [uid] *)
Definition delete_user (fk : foreign_keys) (uid : Z) (d : db) : outcome db :=
  if negb (has_user uid d) then Returned d
  else
    let gone := cascade_users fk [uid] d in
    let remaining :=
      filter (fun u => negb (mem (User.telegram_id u) gone)) (users d) in
    let? us :=
      match users_referrer_id fk with
      | SET_NULL => Returned (map (clear_referrer gone) remaining)
      | CASCADE => Returned remaining
      | RESTRICT =>
          if existsb (refers_to gone) remaining then Raised IntegrityError
          else Returned remaining
      end in
    let theirs := fun o => mem (Order.user_id o) gone in
    match orders_user_id fk with
    | CASCADE =>
        delete_orders fk theirs (mkDb us (orders d) (products d) (order_products d))
    | RESTRICT | SET_NULL =>
        (* user_id is not nullable *)
        if existsb theirs (orders d) then Raised IntegrityError
        else Returned (mkDb us (orders d) (products d) (order_products d))
    end.

(* ------------------------------------------------------------------ *)
(** * Well-formed stores *)
(* ------------------------------------------------------------------ *)

(** What the constraints of models.py and the sequences guarantee of every
    store: keys are unique, references resolve, and the sequences are ahead
    of every key handed out. *)
Record well_formed (srv : server) : Prop := mkWf {
  wf_users_pk : NoDup (map User.telegram_id (users (tables srv)));
  wf_orders_pk : NoDup (map Order.order_id (orders (tables srv)));
  wf_products_pk : NoDup (map Product.product_id (products (tables srv)));
  wf_referrer_fk : forall u k,
      In u (users (tables srv)) -> User.referrer_id u = Some k ->
      has_user k (tables srv) = true;
  wf_order_user_fk : forall o,
      In o (orders (tables srv)) -> has_user (Order.user_id o) (tables srv) = true;
  wf_order_products_pk : forall op,
      In op (order_products (tables srv)) ->
      filter (fun op' => (OrderProduct.order_id op' =? OrderProduct.order_id op)
                         && (OrderProduct.product_id op' =? OrderProduct.product_id op))
             (order_products (tables srv)) = [op];
  wf_order_products_order_fk : forall op,
      In op (order_products (tables srv)) ->
      has_order (OrderProduct.order_id op) (tables srv) = true;
  wf_order_products_product_fk : forall op,
      In op (order_products (tables srv)) ->
      has_product (OrderProduct.product_id op) (tables srv) = true;
  wf_orders_seq : forall o,
      In o (orders (tables srv)) -> Order.order_id o < orders_order_id_seq srv;
  wf_products_seq : forall p,
      In p (products (tables srv)) -> Product.product_id p < products_product_id_seq srv
}.

Definition fresh_server : server := mkServer empty_db 1 1.

(* ------------------------------------------------------------------ *)
(** * Scenarios and measures used by the properties *)
(* ------------------------------------------------------------------ *)

(** The users table holds user 1, John Doe, with no referrer, and user 2,
    Jane Doe, referred by user 1, and nobody else; every other column and
    every other table is left free. *)
Definition john_and_jane (d : db) : Prop :=
  exists u1 u2,
    Permutation [u1; u2] (users d) /\
    User.telegram_id u1 = 1 /\ User.full_name u1 = "John Doe"%string /\
    User.referrer_id u1 = None /\
    User.telegram_id u2 = 2 /\ User.full_name u2 = "Jane Doe"%string /\
    User.referrer_id u2 = Some 1.

(** The foreign key of users.referrer_id holds. *)
Definition referrers_exist (d : db) : Prop :=
  forall u k, In u (users d) -> User.referrer_id u = Some k -> has_user k d = true.

Definition is_insert (e : event) : bool :=
  match e with
  | InsertUser _ | InsertOrder _ | InsertProducts _ | InsertOrderProducts _ _ => true
  | _ => false
  end.

Definition is_commit (e : event) : bool :=
  match e with Commit => true | _ => false end.

Definition is_select (e : event) : bool :=
  match e with
  | SelectUserById _ | SelectUsersWithReferrer | SelectAllUsersAndSomeReferrers
  | SelectSomeUsersAndAllReferrers | SelectUsersOrders | SelectAllUsersProducts => true
  | _ => false
  end.

Definition is_reply (e : event) : bool :=
  match e with Reply _ => true | _ => false end.

Definition is_statement (e : event) : bool := is_insert e || is_select e || is_commit e.

Definition count (p : event -> bool) (tr : list event) : nat :=
  List.length (filter p tr).

(** The users rows stored under one identifier. *)
Definition rows_of (ident : Z) (d : db) : list User.t :=
  filter (fun u => User.telegram_id u =? ident) (users d).

(** A sender whose values the users columns take as they are. *)
Definition storable (u : Part10.from_user_t) : Prop :=
  (characters (Part10.full_name u) <= 255)%nat /\
  (forall h, Part10.username u = Some h -> (characters h <= 255)%nat) /\
  (exists l, Part10.language_code u = Some l /\ (characters l <= 10)%nat).

(** A product record whose values the products columns take as they are. *)
Definition fits (info : product_info) : Prop :=
  (characters (info_title info) <= 255)%nat /\
  (forall de, info_description info = Some de -> (characters de <= 3000)%nat).

(** The keys a sequence standing at [from] hands out next. *)
Fixpoint nextvals (from : Z) (n : nat) : list Z :=
  match n with
  | O => []
  | S n' => from :: nextvals (from + 1) n'
  end.

(** The rows the driver inserts. *)
Definition john : User.t :=
  User.mk 1 "John Doe" (Some "johnny"%string) "en" (Some (date 2020 1 1)) None.

Definition jane : User.t :=
  User.mk 2 "Jane Doe" (Some "jane"%string) "en" (Some (date 2020 1 2)) (Some 1).

Definition two_users : db := mkDb [john; jane] [] [] [].

Definition three_products : list product_info :=
  [ mkInfo "Product 1" (Some "Description 1"%string);
    mkInfo "Product 2" (Some "Description 2"%string);
    mkInfo "Product 3" (Some "Description 3"%string) ].

(** The products rows that a multi-row insert of [infos] writes when the
    sequence stands at [from]. *)
Fixpoint product_rows (t : datetime) (from : Z) (infos : list product_info)
  : list Product.t :=
  match infos with
  | [] => []
  | info :: rest =>
      Product.mk from (info_title info) (info_description info) (Some t)
      :: product_rows t (from + 1) rest
  end.

(** A store on which the driver meets no constraint: users 1 and 2 are not
    taken, and the sequences have an order key and three product keys left
    within Integer. *)
Record main_ready (srv : server) : Prop := mkReady {
  ready_wf : well_formed srv;
  ready_user_1 : has_user 1 (tables srv) = false;
  ready_user_2 : has_user 2 (tables srv) = false;
  ready_orders_seq : - 2 ^ 31 <= orders_order_id_seq srv < 2 ^ 31;
  ready_products_seq :
    - 2 ^ 31 <= products_product_id_seq srv /\ products_product_id_seq srv + 3 <= 2 ^ 31
}.

(** The rows of the driver's transaction after each of its writes. *)
Definition after_users (d : db) : db :=
  mkDb (users d ++ [john; jane]) (orders d) (products d) (order_products d).

Definition after_order (t : datetime) (srv : server) : db :=
  mkDb (users (tables srv) ++ [john; jane])
       (orders (tables srv) ++ [Order.mk (orders_order_id_seq srv) 1 (Some t)])
       (products (tables srv)) (order_products (tables srv)).

Definition after_order_products (t : datetime) (srv : server) : db :=
  mkDb (users (tables srv) ++ [john; jane])
       (orders (tables srv) ++ [Order.mk (orders_order_id_seq srv) 1 (Some t)])
       (products (tables srv)
        ++ product_rows t (products_product_id_seq srv) three_products)
       (order_products (tables srv)
        ++ map (fun product_id =>
                  OrderProduct.mk (orders_order_id_seq srv) product_id 1)
               (nextvals (products_product_id_seq srv) 3)).

(** What the driver sends and prints, start to end, on a ready store. *)
Definition demonstration (t : datetime) (srv : server) : list event :=
  [ InsertUser (mkUserValues 1 (Some "John Doe"%string) (Some "johnny"%string)
                             (Some "en"%string) (Value (Some (date 2020 1 1))) None);
    InsertUser (mkUserValues 2 (Some "Jane Doe"%string) (Some "jane"%string)
                             (Some "en"%string) (Value (Some (date 2020 1 2))) (Some 1));
    SelectUsersWithReferrer;
    Print "Users with referrer:" ]
  ++ map PrintUserReferrer (query_users_with_referrer (after_users (tables srv)))
  ++ [ Print ""; SelectAllUsersAndSomeReferrers;
       Print "All users and their referrers:" ]
  ++ map PrintUserReferrer
         (query_all_users_and_some_referrers (after_users (tables srv)))
  ++ [ SelectSomeUsersAndAllReferrers; Print "";
       Print "Some users and all their referrers:" ]
  ++ map PrintUserReferrer
         (query_some_users_and_all_referrers (after_users (tables srv)))
  ++ [ Print ""; InsertOrder 1; SelectUsersOrders; Print "Users orders:" ]
  ++ map PrintUserOrder (query_users_orders (after_order t srv))
  ++ [ Print ""; InsertProducts three_products;
       PrintProductIds (nextvals (products_product_id_seq srv) 3); Print "";
       InsertOrderProducts (orders_order_id_seq srv)
         (map (fun product_id => mkData product_id 1)
              (nextvals (products_product_id_seq srv) 3));
       SelectAllUsersProducts; Print "Users products:" ]
  ++ map PrintUserProduct (query_all_users_products (after_order_products t srv)).

(** What the driver sends and prints when its five selects return the
    given rows. *)
Definition report (srv : server)
    (with_referrer all_users all_referrers : list UserReferrerRow)
    (users_orders : list UserOrderRow) (users_products : list UserProductRow)
  : list event :=
  [ InsertUser (mkUserValues 1 (Some "John Doe"%string) (Some "johnny"%string)
                             (Some "en"%string) (Value (Some (date 2020 1 1))) None);
    InsertUser (mkUserValues 2 (Some "Jane Doe"%string) (Some "jane"%string)
                             (Some "en"%string) (Value (Some (date 2020 1 2))) (Some 1));
    SelectUsersWithReferrer;
    Print "Users with referrer:" ]
  ++ map PrintUserReferrer with_referrer
  ++ [ Print ""; SelectAllUsersAndSomeReferrers;
       Print "All users and their referrers:" ]
  ++ map PrintUserReferrer all_users
  ++ [ SelectSomeUsersAndAllReferrers; Print "";
       Print "Some users and all their referrers:" ]
  ++ map PrintUserReferrer all_referrers
  ++ [ Print ""; InsertOrder 1; SelectUsersOrders; Print "Users orders:" ]
  ++ map PrintUserOrder users_orders
  ++ [ Print ""; InsertProducts three_products;
       PrintProductIds (nextvals (products_product_id_seq srv) 3); Print "";
       InsertOrderProducts (orders_order_id_seq srv)
         (map (fun product_id => mkData product_id 1)
              (nextvals (products_product_id_seq srv) 3));
       SelectAllUsersProducts; Print "Users products:" ]
  ++ map PrintUserProduct users_products.

(** A third user, referred by John as Jane is. *)
Definition jack : User.t :=
  User.mk 3 "Jack Doe" (Some "jack"%string) "en" (Some (date 2020 1 3)) (Some 1).

Definition three_users : db := mkDb [john; jane; jack] [] [] [].

(** The statements of the driver, in the order of the source, on a store
    whose sequences stand at the given values. *)
Definition script (srv : server) : list event :=
  [ InsertUser (mkUserValues 1 (Some "John Doe"%string) (Some "johnny"%string)
                             (Some "en"%string) (Value (Some (date 2020 1 1))) None);
    InsertUser (mkUserValues 2 (Some "Jane Doe"%string) (Some "jane"%string)
                             (Some "en"%string) (Value (Some (date 2020 1 2))) (Some 1));
    SelectUsersWithReferrer;
    SelectAllUsersAndSomeReferrers;
    SelectSomeUsersAndAllReferrers;
    InsertOrder 1;
    SelectUsersOrders;
    InsertProducts [ mkInfo "Product 1" (Some "Description 1"%string);
                     mkInfo "Product 2" (Some "Description 2"%string);
                     mkInfo "Product 3" (Some "Description 3"%string) ];
    InsertOrderProducts (orders_order_id_seq srv)
      [ mkData (products_product_id_seq srv) 1;
        mkData (products_product_id_seq srv + 1) 1;
        mkData (products_product_id_seq srv + 1 + 1) 1 ];
    SelectAllUsersProducts ].

(** A sender with a language code, and the same sender without. *)
Definition ann : Part10.Message :=
  Part10.mkMessage (Part10.mkFromUser 42 "Ann Lee" (Some "ann"%string) (Some "en"%string)).

Definition ann_without_language : Part10.Message :=
  Part10.mkMessage (Part10.mkFromUser 42 "Ann Lee" (Some "ann"%string) None).

(** A computation that leaves the committed rows alone and sends no
    commit, whether it returns or raises. *)
Definition quiet {A} (c : M A) : Prop :=
  forall s, persisted (snd (c s)) = persisted s /\
            count is_commit (trace (snd (c s))) = count is_commit (trace s).

(** The store as a session sees it: the rows of its transaction and the
    sequences; and the store as it is committed. *)
Definition view (s : session) : server :=
  mkServer (current s) (order_seq s) (product_seq s).

Definition stored (s : session) : server :=
  mkServer (persisted s) (order_seq s) (product_seq s).

(** A computation that keeps the constraints, in the transaction and in
    what is committed, and never moves a sequence back; whether it returns
    or raises. *)
Definition sound {A} (c : M A) : Prop :=
  forall s,
    well_formed (view s) -> well_formed (stored s) ->
    well_formed (view (snd (c s))) /\ well_formed (stored (snd (c s))) /\
    order_seq s <= order_seq (snd (c s)) /\
    product_seq s <= product_seq (snd (c s)).

(** The rows a bound-parameter insert of [data] writes for one order. *)
Definition order_product_rows (order_id : Z) (data : list product_data)
  : list OrderProduct.t :=
  map (fun pd => OrderProduct.mk order_id (data_product_id pd) (data_quantity pd)) data.


(** Six Cyrillic letters, twelve bytes of UTF-8. *)
Definition six_letters : string :=
  string_of_list_ascii
    (map ascii_of_nat [208; 159; 209; 128; 208; 184; 208; 178; 208; 181; 209; 130]%nat).

Fixpoint copies (n : nat) (s : string) : string :=
  match n with
  | O => EmptyString
  | S n' => (s ++ copies n' s)%string
  end.

(** A sender whose display name has 204 letters, 408 bytes of UTF-8. *)
Definition anya : Part10.Message :=
  Part10.mkMessage
    (Part10.mkFromUser 43 (copies 34 six_letters) (Some "anya"%string)
                       (Some "ru"%string)).

(** A small store: John, Jane whom he referred, one order of John's with
    one of the two products on it. *)
Definition small_shop : server :=
  mkServer (mkDb [john; jane]
                 [Order.mk 1 1 None]
                 [Product.mk 1 "Tea" None None; Product.mk 2 "Cup" None None]
                 [OrderProduct.mk 1 1 2])
           2 3.

(* ------------------------------------------------------------------ *)
(** * Lists and joins *)
(* ------------------------------------------------------------------ *)

Section Joins.
Context {A B : Type}.
Variable on : A -> B -> bool.

Lemma in_inner_join (l : list A) (r : list B) a b :
  In (a, b) (inner_join on l r) <-> In a l /\ In b r /\ on a b = true.
Proof.
  unfold inner_join. rewrite in_flat_map. split.
  - intros (x & Hx & Hin). apply in_map_iff in Hin.
    destruct Hin as (y & Heq & Hy). inversion Heq; subst.
    apply filter_In in Hy. tauto.
  - intros (Ha & Hb & Hon). exists a. split; [assumption|].
    apply in_map, filter_In. tauto.
Qed.

Lemma in_left_outer_join_some (l : list A) (r : list B) a b :
  In (a, Some b) (left_outer_join on l r) <-> In a l /\ In b r /\ on a b = true.
Proof.
  unfold left_outer_join. rewrite in_flat_map. split.
  - intros (x & Hx & Hin). destruct (filter (on x) r) as [|m ms] eqn:E.
    + destruct Hin as [Heq|[]]. discriminate.
    + apply in_map_iff in Hin. destruct Hin as (y & Heq & Hy).
      inversion Heq; subst. rewrite <- E in Hy. apply filter_In in Hy. tauto.
  - intros (Ha & Hb & Hon). exists a. split; [assumption|].
    assert (Hin : In b (filter (on a) r)) by (apply filter_In; tauto).
    destruct (filter (on a) r) as [|m ms]; [destruct Hin|].
    apply (in_map (fun b0 => (a, Some b0))). assumption.
Qed.

Lemma in_left_outer_join_none (l : list A) (r : list B) a :
  In (a, None) (left_outer_join on l r) <->
  In a l /\ forall b, In b r -> on a b = false.
Proof.
  unfold left_outer_join. rewrite in_flat_map. split.
  - intros (x & Hx & Hin). destruct (filter (on x) r) as [|m ms] eqn:E.
    + destruct Hin as [Heq|[]]. inversion Heq; subst. split; [assumption|].
      intros b Hb. destruct (on a b) eqn:Hon; [|reflexivity].
      assert (Hin : In b (filter (on a) r)) by (apply filter_In; tauto).
      rewrite E in Hin. destruct Hin.
    + apply in_map_iff in Hin. destruct Hin as (y & Heq & _). discriminate.
  - intros (Ha & Hnone). exists a. split; [assumption|].
    destruct (filter (on a) r) as [|m ms] eqn:E; [left; reflexivity|].
    assert (Hin : In m (filter (on a) r)) by (rewrite E; left; reflexivity).
    apply filter_In in Hin. destruct Hin as [Hm Hon].
    rewrite (Hnone m Hm) in Hon. discriminate.
Qed.

(** The left side of an outer join is kept whole. *)
Lemma left_outer_join_keeps_left (l : list A) (r : list B) a :
  In a l -> exists ob, In (a, ob) (left_outer_join on l r).
Proof.
  intros Ha. destruct (existsb (on a) r) eqn:E.
  - apply existsb_exists in E. destruct E as (b & Hb & Hon).
    exists (Some b). apply in_left_outer_join_some. tauto.
  - exists None. apply in_left_outer_join_none. split; [assumption|].
    intros b Hb. destruct (on a b) eqn:Hon; [|reflexivity].
    assert (existsb (on a) r = true) by (apply existsb_exists; eauto).
    congruence.
Qed.

End Joins.

Lemma has_user_exists id d :
  has_user id d = true <-> exists u, In u (users d) /\ User.telegram_id u = id.
Proof.
  unfold has_user. rewrite existsb_exists. split; intros (u & Hu & He); exists u.
  - apply Z.eqb_eq in He. tauto.
  - rewrite He, Z.eqb_refl. tauto.
Qed.

Lemma filter_none {R : Type} (f : R -> bool) (l : list R) :
  (forall z, In z l -> f z = false) -> filter f l = [].
Proof.
  induction l as [|y l IH]; intros H; [reflexivity|].
  simpl. rewrite (H y (or_introl eq_refl)). apply IH.
  intros z Hz. apply H. right. assumption.
Qed.

Lemma filter_map_none {A} (p : event -> bool) (f : A -> event) l :
  (forall x, p (f x) = false) -> filter p (map f l) = [].
Proof.
  intros H. apply filter_none. intros z Hz. apply in_map_iff in Hz.
  destruct Hz as (x & <- & _). apply H.
Qed.

(** A key that is unique finds its row and nothing else. *)
Lemma filter_unique_key {R : Type} (key : R -> Z) (l : list R) (x : R) :
  NoDup (map key l) -> In x l ->
  filter (fun y => key y =? key x) l = [x].
Proof.
  induction l as [|y l IH]; intros Hnd Hin; [destruct Hin|].
  simpl in *. inversion Hnd as [|? ? Hnotin Hnd']; subst.
  destruct Hin as [->|Hin].
  - rewrite Z.eqb_refl. f_equal.
    apply filter_none.
    intros z Hz. apply Z.eqb_neq. intros Heq. apply Hnotin.
    rewrite <- Heq. apply in_map. assumption.
  - destruct (key y =? key x) eqn:E.
    + apply Z.eqb_eq in E. exfalso. apply Hnotin. rewrite E. apply in_map. assumption.
    + apply IH; assumption.
Qed.

(* ------------------------------------------------------------------ *)
(** * The three referrer joins *)
(* ------------------------------------------------------------------ *)

Lemma referrer_of_spec u r :
  referrer_of u r = true <-> User.referrer_id u = Some (User.telegram_id r).
Proof.
  unfold referrer_of. destruct (User.referrer_id u) as [k|].
  - rewrite Z.eqb_eq. split; [intros ->; reflexivity | intros [= ->]; reflexivity].
  - split; discriminate.
Qed.

Lemma john_and_jane_users d :
  john_and_jane d ->
  exists u1 u2,
    (users d = [u1; u2] \/ users d = [u2; u1]) /\
    User.telegram_id u1 = 1 /\ User.full_name u1 = "John Doe"%string /\
    User.referrer_id u1 = None /\
    User.telegram_id u2 = 2 /\ User.full_name u2 = "Jane Doe"%string /\
    User.referrer_id u2 = Some 1.
Proof.
  intros (u1 & u2 & Hperm & H). exists u1, u2. split; [|exact H].
  apply Permutation_length_2_inv in Hperm. exact Hperm.
Qed.

Ltac scenario H :=
  apply john_and_jane_users in H;
  destruct H as ([? ? ? ? ? ?] & [? ? ? ? ? ?] & Hus & H1 & H2 & H3 & H4 & H5 & H6);
  simpl in H1, H2, H3, H4, H5, H6; subst.

(** C3.  [select_users_with_referrer] is the inner join of users with
    their referrers: a row is returned exactly for a user and a stored user
    that the first one's [referrer_id] names, so only users whose referrer
    exists are returned.  In any database state that contains a user with
    no referrer and a second user referred by the first, the row of the
    second user next to the first is returned, and the first user is on the
    [user] side of no row.  When these two are user 1 (John Doe) and user 2
    (Jane Doe) and the users table holds no one else, with any values in
    their other columns and any rows in the other tables, the result is the
    single row user = "Jane Doe", referrer = "John Doe", and "John Doe" is
    not a value of its [user] column. *)
Theorem select_users_with_referrer_inner_join (s : session) :
  exists rows,
    fst (Part8.select_users_with_referrer s) = Returned rows /\
    (forall row, In row rows <->
       exists u r, In u (users (current s)) /\ In r (users (current s)) /\
                   User.referrer_id u = Some (User.telegram_id r) /\
                   row = mkUR (Some (User.full_name u)) (Some (User.full_name r))) /\
    (forall u1 u2,
        In u1 (users (current s)) -> In u2 (users (current s)) ->
        User.referrer_id u1 = None ->
        User.referrer_id u2 = Some (User.telegram_id u1) ->
        In (u2, u1) (users_join_referrer (current s)) /\
        In (mkUR (Some (User.full_name u2)) (Some (User.full_name u1))) rows /\
        forall r, ~ In (u1, r) (users_join_referrer (current s))) /\
    (john_and_jane (current s) ->
     rows = [mkUR (Some "Jane Doe"%string) (Some "John Doe"%string)] /\
     forall row, In row rows -> user row <> Some "John Doe"%string).
Proof.
  exists (query_users_with_referrer (current s)). split; [reflexivity|].
  split; [| split].
  - intros row. unfold query_users_with_referrer, users_join_referrer.
    rewrite in_map_iff. split.
    + intros ([u r] & Hrow & Hin). apply in_inner_join in Hin.
      destruct Hin as (Hu & Hr & Hon). apply referrer_of_spec in Hon.
      exists u, r. auto.
    + intros (u & r & Hu & Hr & Href & ->). exists (u, r). split; [reflexivity|].
      apply in_inner_join. rewrite referrer_of_spec. auto.
  - intros u1 u2 Hu1 Hu2 Hnone Href.
    assert (Hin : In (u2, u1) (users_join_referrer (current s))).
    { apply in_inner_join. rewrite referrer_of_spec. auto. }
    split; [exact Hin|]. split.
    + unfold query_users_with_referrer. apply in_map_iff.
      exists (u2, u1). split; [reflexivity | exact Hin].
    + intros r Hr. apply in_inner_join in Hr. destruct Hr as (_ & _ & Hon).
      apply referrer_of_spec in Hon. congruence.
  - intros H.
    assert (Hq : query_users_with_referrer (current s)
                 = [mkUR (Some "Jane Doe"%string) (Some "John Doe"%string)]).
    { scenario H. unfold query_users_with_referrer, users_join_referrer.
      destruct Hus as [-> | ->]; reflexivity. }
    rewrite Hq. split; [reflexivity|].
    intros row [<- | []]. discriminate.
Qed.

Lemma two_users_john_and_jane : john_and_jane two_users.
Proof.
  eexists _, _. split; [apply Permutation_refl|].
  repeat split; reflexivity.
Qed.

Lemma select_users_with_referrer_inner_join_witness :
  john_and_jane (current (open_session (date 2020 1 3) (mkServer two_users 1 1))) /\
  fst (Part8.select_users_with_referrer
         (open_session (date 2020 1 3) (mkServer two_users 1 1)))
  = Returned [mkUR (Some "Jane Doe"%string) (Some "John Doe"%string)].
Proof.
  split; [exact two_users_john_and_jane|].
  destruct (select_users_with_referrer_inner_join
              (open_session (date 2020 1 3) (mkServer two_users 1 1)))
    as (rows & Hrun & _ & _ & Hscenario).
  destruct (Hscenario two_users_john_and_jane) as [<- _].
  exact Hrun.
Defined.

(** C3, as stated: a state that contains user 1 with no referrer and
    user 2 whose referrer is user 1, and a third user whom user 1 referred
    as well.  The select returns two rows, not one. *)
Lemma select_users_with_referrer_third_user :
  In john (users three_users) /\ User.referrer_id john = None /\
  In jane (users three_users) /\
  User.referrer_id jane = Some (User.telegram_id john) /\
  exists rows,
    fst (Part8.select_users_with_referrer
           (open_session (date 2020 1 4) (mkServer three_users 1 1)))
    = Returned rows /\
    List.length rows = 2%nat /\
    In (mkUR (Some "Jack Doe"%string) (Some "John Doe"%string)) rows.
Proof.
  split; [left; reflexivity|]. split; [reflexivity|].
  split; [right; left; reflexivity|]. split; [reflexivity|].
  eexists. split; [reflexivity|]. split; [reflexivity|].
  right. left. reflexivity.
Qed.

(** C4.  [select_all_users_and_some_referrers] is the left outer join of
    users with their referrers.  In any database state that contains a
    user with no referrer and a second user referred by the first, it
    returns a row for the first with the referrer absent and a row for the
    second with the first as referrer.  When these two are user 1 (John
    Doe) and user 2 (Jane Doe) and the users table holds no one else, with
    any values in their other columns and any rows in the other tables,
    these are the two rows it returns: John Doe with the referrer absent,
    and Jane Doe with referrer "John Doe". *)
Theorem select_all_users_and_some_referrers_left_join (s : session) :
  exists rows,
    fst (Part8.select_all_users_and_some_referrers s) = Returned rows /\
    (forall u1 u2,
        In u1 (users (current s)) -> In u2 (users (current s)) ->
        User.referrer_id u1 = None ->
        User.referrer_id u2 = Some (User.telegram_id u1) ->
        In (u1, None) (users_outerjoin_referrer (current s)) /\
        In (u2, Some u1) (users_outerjoin_referrer (current s)) /\
        In (mkUR (Some (User.full_name u1)) None) rows /\
        In (mkUR (Some (User.full_name u2)) (Some (User.full_name u1))) rows) /\
    (john_and_jane (current s) ->
     List.length rows = 2%nat /\
     Permutation [mkUR (Some "John Doe"%string) None;
                  mkUR (Some "Jane Doe"%string) (Some "John Doe"%string)] rows).
Proof.
  exists (query_all_users_and_some_referrers (current s)).
  split; [reflexivity|]. split.
  - intros u1 u2 Hu1 Hu2 Hnone Href.
    assert (H1 : In (u1, None) (users_outerjoin_referrer (current s))).
    { apply in_left_outer_join_none. split; [exact Hu1|].
      intros r _. unfold referrer_of. rewrite Hnone. reflexivity. }
    assert (H2 : In (u2, Some u1) (users_outerjoin_referrer (current s))).
    { apply in_left_outer_join_some. rewrite referrer_of_spec. auto. }
    split; [exact H1|]. split; [exact H2|].
    unfold query_all_users_and_some_referrers. split; apply in_map_iff.
    + exists (u1, None). split; [reflexivity | exact H1].
    + exists (u2, Some u1). split; [reflexivity | exact H2].
  - intros H. scenario H.
    unfold query_all_users_and_some_referrers, users_outerjoin_referrer.
    destruct Hus as [-> | ->]; cbn.
    + split; [reflexivity | apply Permutation_refl].
    + split; [reflexivity | apply perm_swap].
Qed.

Lemma select_all_users_and_some_referrers_left_join_witness :
  john_and_jane (current (open_session (date 2020 1 3) (mkServer two_users 1 1))) /\
  exists rows,
    fst (Part8.select_all_users_and_some_referrers
           (open_session (date 2020 1 3) (mkServer two_users 1 1))) = Returned rows /\
    List.length rows = 2%nat.
Proof.
  split; [exact two_users_john_and_jane|].
  destruct (select_all_users_and_some_referrers_left_join
              (open_session (date 2020 1 3) (mkServer two_users 1 1)))
    as (rows & Hrun & _ & Hscenario).
  destruct (Hscenario two_users_john_and_jane) as [Hlen _].
  exists rows. split; assumption.
Defined.

(** C4, as stated: in the state that contains user 1, user 2 and a third
    user whom user 1 referred as well, the select returns three rows, not
    two. *)
Lemma select_all_users_and_some_referrers_third_user :
  In john (users three_users) /\ User.referrer_id john = None /\
  In jane (users three_users) /\
  User.referrer_id jane = Some (User.telegram_id john) /\
  exists rows,
    fst (Part8.select_all_users_and_some_referrers
           (open_session (date 2020 1 4) (mkServer three_users 1 1)))
    = Returned rows /\
    List.length rows = 3%nat /\
    In (mkUR (Some "Jack Doe"%string) (Some "John Doe"%string)) rows.
Proof.
  split; [left; reflexivity|]. split; [reflexivity|].
  split; [right; left; reflexivity|]. split; [reflexivity|].
  eexists. split; [reflexivity|]. split; [reflexivity|].
  right. right. left. reflexivity.
Qed.

(** C5.  [select_some_users_and_all_referrers] is a left outer join with
    the referrer alias on the left.  Every stored row appears in it as a
    referrer at least once, so every identifier that a user's [referrer_id]
    names has a row, next to that user, as the foreign key makes the named
    row exist; a row that no user's [referrer_id] points to appears with
    the user column absent, and only so. *)
Theorem select_some_users_and_all_referrers_keeps_referrers (s : session) :
  exists rows,
    fst (Part8.select_some_users_and_all_referrers s) = Returned rows /\
    rows = map (fun '(r, u) => mkUR (option_map User.full_name u)
                                    (Some (User.full_name r)))
               (referrer_outerjoin_users (current s)) /\
    (forall r, In r (users (current s)) ->
       (exists u, In (r, u) (referrer_outerjoin_users (current s))) /\
       (exists row, In row rows /\ referrer row = Some (User.full_name r))) /\
    (referrers_exist (current s) ->
     forall u k, In u (users (current s)) -> User.referrer_id u = Some k ->
       exists r, In r (users (current s)) /\ User.telegram_id r = k /\
                 In (r, Some u) (referrer_outerjoin_users (current s)) /\
                 In (mkUR (Some (User.full_name u)) (Some (User.full_name r))) rows) /\
    (forall r, In r (users (current s)) ->
       (forall u, In u (users (current s)) ->
                  User.referrer_id u <> Some (User.telegram_id r)) ->
       In (r, None) (referrer_outerjoin_users (current s)) /\
       In (mkUR None (Some (User.full_name r))) rows /\
       forall u, In (r, u) (referrer_outerjoin_users (current s)) -> u = None).
Proof.
  eexists. split; [reflexivity|]. split; [reflexivity|].
  unfold referrer_outerjoin_users. repeat split.
  - apply left_outer_join_keeps_left. assumption.
  - destruct (left_outer_join_keeps_left (fun r0 u => referrer_of u r0)
                (users (current s)) (users (current s)) r H) as (ou & Hin).
    eexists. split.
    + apply in_map_iff. exists (r, ou). split; [reflexivity | exact Hin].
    + reflexivity.
  - intros Hfk u k Hu Href.
    destruct (proj1 (has_user_exists k (current s)) (Hfk u k Hu Href))
      as (r & Hr & Hk).
    assert (Hin : In (r, Some u)
                     (left_outer_join (fun r0 u0 => referrer_of u0 r0)
                        (users (current s)) (users (current s)))).
    { apply in_left_outer_join_some. rewrite referrer_of_spec, Hk. auto. }
    exists r. repeat split; try assumption.
    apply in_map_iff. exists (r, Some u). split; [reflexivity | exact Hin].
  - apply in_left_outer_join_none. split; [assumption|].
    intros u Hu. destruct (referrer_of u r) eqn:E; [|reflexivity].
    apply referrer_of_spec in E. exfalso. exact (H0 u Hu E).
  - apply in_map_iff. exists (r, None). split; [reflexivity|].
    apply in_left_outer_join_none. split; [assumption|].
    intros u Hu. destruct (referrer_of u r) eqn:E; [|reflexivity].
    apply referrer_of_spec in E. exfalso. exact (H0 u Hu E).
  - intros [u|] Hin; [|reflexivity].
    apply in_left_outer_join_some in Hin. destruct Hin as (_ & Hu & Hon).
    apply referrer_of_spec in Hon. exfalso. exact (H0 u Hu Hon).
Qed.

Lemma two_users_referrers_exist : referrers_exist two_users.
Proof.
  intros u k [<- | [<- | []]]; simpl; [discriminate | intros [= <-]; reflexivity].
Qed.

Lemma select_some_users_and_all_referrers_keeps_referrers_witness :
  referrers_exist (current (open_session (date 2020 1 3) (mkServer two_users 1 1))) /\
  In jane (users two_users) /\ User.referrer_id jane = Some 1 /\
  exists rows,
    fst (Part8.select_some_users_and_all_referrers
           (open_session (date 2020 1 3) (mkServer two_users 1 1))) = Returned rows /\
    exists r, User.telegram_id r = 1 /\
              In (mkUR (Some "Jane Doe"%string) (Some (User.full_name r))) rows.
Proof.
  split; [exact two_users_referrers_exist|].
  split; [right; left; reflexivity|]. split; [reflexivity|].
  destruct (select_some_users_and_all_referrers_keeps_referrers
              (open_session (date 2020 1 3) (mkServer two_users 1 1)))
    as (rows & Hrun & _ & _ & Hfk & _).
  exists rows. split; [exact Hrun|].
  destruct (Hfk two_users_referrers_exist jane 1 (or_intror (or_introl eq_refl)) eq_refl)
    as (r & _ & Hid & _ & Hrow).
  exists r. split; [exact Hid | exact Hrow].
Defined.

(* ------------------------------------------------------------------ *)
(** * Running statements *)
(* ------------------------------------------------------------------ *)

Lemma bind_returned {A B} (c : M A) (k : A -> M B) s a s' :
  c s = (Returned a, s') -> bind c k s = k a s'.
Proof. intros H. unfold bind. rewrite H. reflexivity. Qed.

Lemma bind_raised {A B} (c : M A) (k : A -> M B) s e s' :
  c s = (Raised e, s') -> bind c k s = (Raised e, s').
Proof. intros H. unfold bind. rewrite H. reflexivity. Qed.

Lemma statement_returned {A} (c : M A) s a s' :
  c s = (Returned a, s') -> statement c s = (Returned a, s').
Proof. intros H. unfold statement. rewrite H. reflexivity. Qed.

Lemma for_each_emit {A} (f : A -> event) rows p c o q i k tr :
  for_each rows (fun row => emit (f row)) (mkSession p c o q i k tr)
  = (Returned tt, mkSession p c o q i k (tr ++ map f rows)).
Proof.
  revert tr. induction rows as [|row rows IH]; intros tr; simpl.
  - rewrite app_nil_r. reflexivity.
  - unfold bind, emit at 1. simpl. rewrite IH, <- app_assoc. reflexivity.
Qed.

Lemma varchar_fits n s : (characters s <= n)%nat -> varchar n s = Returned s.
Proof.
  intros H. unfold varchar. apply Nat.leb_le in H. rewrite H. reflexivity.
Qed.

Example varchar_counts_characters :
  varchar 6 six_letters = Returned six_letters /\
  varchar 6 (six_letters ++ "  ") = Returned six_letters /\
  varchar 5 six_letters = Raised DataError.
Proof. repeat split; reflexivity. Qed.

Lemma nullable_varchar_fits n x :
  (forall s, x = Some s -> (characters s <= n)%nat) ->
  nullable (varchar n) x = Returned x.
Proof.
  intros H. destruct x as [s|]; [|reflexivity].
  simpl. rewrite varchar_fits by (apply H; reflexivity). reflexivity.
Qed.

Lemma in_int32_iff z : in_int32 z = true <-> - 2 ^ 31 <= z < 2 ^ 31.
Proof. unfold in_int32. rewrite andb_true_iff, Z.leb_le, Z.ltb_lt. tauto. Qed.

Lemma in_int64_iff z : in_int64 z = true <-> - 2 ^ 63 <= z < 2 ^ 63.
Proof. unfold in_int64. rewrite andb_true_iff, Z.leb_le, Z.ltb_lt. tauto. Qed.

Lemma has_product_fresh id d :
  (forall p, In p (products d) -> Product.product_id p < id) ->
  has_product id d = false.
Proof.
  intros H. unfold has_product. destruct (existsb _ _) eqn:E; [|reflexivity].
  apply existsb_exists in E. destruct E as (p & Hp & He).
  apply Z.eqb_eq in He. specialize (H p Hp). lia.
Qed.

Lemma has_order_fresh id d :
  (forall o, In o (orders d) -> Order.order_id o < id) ->
  has_order id d = false.
Proof.
  intros H. unfold has_order. destruct (existsb _ _) eqn:E; [|reflexivity].
  apply existsb_exists in E. destruct E as (o & Ho & He).
  apply Z.eqb_eq in He. specialize (H o Ho). lia.
Qed.

Lemma insert_user_returns t id fn un lc ca rf d :
  in_int64 id = true ->
  (characters fn <= 255)%nat ->
  (forall h, un = Some h -> (characters h <= 255)%nat) ->
  (characters lc <= 10)%nat ->
  match rf with
  | None => True
  | Some r => in_int64 r = true /\ (has_user r d = true \/ r = id)
  end ->
  has_user id d = false ->
  insert_user t (mkUserValues id (Some fn) un (Some lc) ca rf) d
  = Returned (mkDb (users d ++ [User.mk id fn un lc (server_default t ca) rf])
                   (orders d) (products d) (order_products d)).
Proof.
  intros Hid Hfn Hun Hlc Hrf Hnew. unfold insert_user, bigint. simpl.
  rewrite Hid. simpl. rewrite (varchar_fits _ _ Hfn). simpl.
  rewrite (nullable_varchar_fits _ _ Hun). simpl.
  rewrite (varchar_fits _ _ Hlc). simpl.
  destruct rf as [r|]; simpl.
  - destruct Hrf as [Hr Hex]. rewrite Hr. simpl. rewrite Hnew. simpl.
    destruct Hex as [-> | ->]; simpl; [reflexivity|].
    rewrite Z.eqb_refl, orb_true_r. reflexivity.
  - rewrite Hnew. reflexivity.
Qed.

Lemma insert_order_returns t id uid d :
  in_int32 id = true -> in_int64 uid = true ->
  has_order id d = false -> has_user uid d = true ->
  insert_order t id uid d
  = Returned (mkDb (users d) (orders d ++ [Order.mk id uid (Some t)])
                   (products d) (order_products d)).
Proof.
  intros Hid Huid Hnew Hfk. unfold insert_order, integer, bigint.
  rewrite Hid. simpl. rewrite Huid. simpl. rewrite Hnew. simpl.
  rewrite Hfk. reflexivity.
Qed.

Lemma insert_product_returns t id info d :
  in_int32 id = true -> fits info -> has_product id d = false ->
  insert_product t id (Some (info_title info)) (info_description info) d
  = Returned (mkDb (users d) (orders d)
                   (products d ++ [Product.mk id (info_title info)
                                              (info_description info) (Some t)])
                   (order_products d)).
Proof.
  intros Hid [Hti Hde] Hnew. unfold insert_product, integer.
  rewrite Hid. simpl. rewrite (varchar_fits _ _ Hti). simpl.
  rewrite (nullable_varchar_fits _ _ Hde). simpl. rewrite Hnew. reflexivity.
Qed.

Lemma insert_order_product_returns oid pid qty d :
  in_int32 oid = true -> in_int32 pid = true -> in_int32 qty = true ->
  has_order_product oid pid d = false ->
  has_order oid d = true -> has_product pid d = true ->
  insert_order_product oid pid qty d
  = Returned (mkDb (users d) (orders d) (products d)
                   (order_products d ++ [OrderProduct.mk oid pid qty])).
Proof.
  intros Ho Hp Hq Hnew Hfo Hfp. unfold insert_order_product, integer.
  rewrite Ho. simpl. rewrite Hp. simpl. rewrite Hq. simpl.
  rewrite Hnew. simpl. rewrite Hfo. simpl. rewrite Hfp. reflexivity.
Qed.

Lemma create_user_returns id fn un lc ca rf p c c' o q i k tr :
  insert_user k (mkUserValues id (Some fn) un (Some lc) (Value ca) rf) c
  = Returned c' ->
  Part8.create_user id fn un lc ca rf (mkSession p c o q i k tr)
  = (Returned tt,
     mkSession p c' o q i k
               (tr ++ [InsertUser (mkUserValues id (Some fn) un (Some lc)
                                                (Value ca) rf)])).
Proof.
  intros H. unfold Part8.create_user, bind, emit, now, lift, set_current.
  cbn [persisted current order_seq product_seq identity_map clock trace].
  rewrite H. reflexivity.
Qed.

Lemma create_new_order_for_user_returns uid p c c' o q i k tr :
  insert_order k o uid c = Returned c' ->
  Part8.create_new_order_for_user uid (mkSession p c o q i k tr)
  = (Returned o, mkSession p c' (o + 1) q i k (tr ++ [InsertOrder uid])).
Proof.
  intros H.
  assert (Ho : in_int32 o = true).
  { unfold insert_order, integer in H. destruct (in_int32 o); [reflexivity|discriminate]. }
  assert (Hu : bigint uid = Returned uid).
  { unfold insert_order, integer in H. rewrite Ho in H. cbn [obind] in H.
    unfold bigint in *. destruct (in_int64 uid); [reflexivity|discriminate]. }
  assert (Hlt : (o <? 2 ^ 31) = true) by (apply in_int32_iff in Ho; apply Z.ltb_lt; lia).
  unfold Part8.create_new_order_for_user, statement, bind, emit, lift, set_current,
    nextval_orders, now, ret, check.
  cbn [persisted current order_seq product_seq identity_map clock trace].
  rewrite Hu.
  cbn [persisted current order_seq product_seq identity_map clock trace].
  rewrite Hlt.
  cbn [persisted current order_seq product_seq identity_map clock trace].
  rewrite H. reflexivity.
Qed.

Lemma insert_product_rows_returns infos :
  forall p c o q i k tr,
    Forall fits infos ->
    (forall x, In x (products c) -> Product.product_id x < q) ->
    - 2 ^ 31 <= q -> q + Z.of_nat (List.length infos) <= 2 ^ 31 ->
    Part8.insert_product_rows infos (mkSession p c o q i k tr)
    = (Returned (nextvals q (List.length infos)),
       mkSession p (mkDb (users c) (orders c)
                         (products c ++ product_rows k q infos)
                         (order_products c))
                 o (q + Z.of_nat (List.length infos)) i k tr).
Proof.
  induction infos as [|info rest IH]; intros p c o q i k tr Hfit Hfresh Hlo Hhi.
  - simpl. unfold ret. rewrite app_nil_r, Z.add_0_r. destruct c; reflexivity.
  - inversion Hfit as [|? ? Hinfo Hrest]; subst.
    cbn [Part8.insert_product_rows List.length nextvals product_rows].
    cbn [List.length] in Hhi. rewrite Nat2Z.inj_succ in Hhi |- *.
    assert (Hlt : (q <? 2 ^ 31) = true) by (apply Z.ltb_lt; lia).
    pose proof Hinfo as [Hti Hde].
    unfold bind at 1. unfold check at 1. rewrite (varchar_fits 255 _ Hti).
    unfold bind at 1. unfold check at 1. rewrite (nullable_varchar_fits 3000 _ Hde).
    unfold bind at 1. unfold nextval_products at 1. cbn [product_seq persisted current order_seq identity_map clock trace].
    rewrite Hlt.
    unfold bind at 1. unfold now at 1. cbn [clock].
    unfold bind at 1. unfold lift at 1. cbn [current].
    rewrite insert_product_returns;
      [| apply in_int32_iff; lia | assumption | apply has_product_fresh; assumption].
    unfold set_current. cbn [persisted current order_seq product_seq identity_map clock trace].
    unfold bind at 1.
    rewrite IH; [| assumption | | lia | simpl; lia].
    + unfold ret. simpl. rewrite <- app_assoc. simpl.
      replace (q + Z.succ (Z.of_nat (List.length rest)))
        with (q + 1 + Z.of_nat (List.length rest)) by lia.
      reflexivity.
    + simpl. intros x Hx. apply in_app_or in Hx. destruct Hx as [Hx | [<- | []]].
      * specialize (Hfresh x Hx). lia.
      * simpl. lia.
Qed.

Lemma create_new_products_returns infos p c o q i k tr :
  infos <> [] ->
  Forall fits infos ->
  (forall x, In x (products c) -> Product.product_id x < q) ->
  - 2 ^ 31 <= q -> q + Z.of_nat (List.length infos) <= 2 ^ 31 ->
  Part8.create_new_products infos (mkSession p c o q i k tr)
  = (Returned (nextvals q (List.length infos)),
     mkSession p (mkDb (users c) (orders c)
                       (products c ++ product_rows k q infos)
                       (order_products c))
               o (q + Z.of_nat (List.length infos)) i k
               (tr ++ [InsertProducts infos])).
Proof.
  intros Hne Hfit Hfresh Hlo Hhi.
  unfold Part8.create_new_products. unfold bind at 1. unfold emit at 1.
  cbn [persisted current order_seq product_seq identity_map clock trace].
  destruct infos as [|info rest]; [congruence|].
  apply statement_returned.
  apply insert_product_rows_returns; assumption.
Qed.

Lemma for_each_insert_order_product oid data :
  forall p c o q i k tr,
    in_int32 oid = true ->
    NoDup (map data_product_id data) ->
    (forall pd, In pd data ->
       in_int32 (data_product_id pd) = true /\ in_int32 (data_quantity pd) = true /\
       has_product (data_product_id pd) c = true /\
       has_order_product oid (data_product_id pd) c = false) ->
    has_order oid c = true ->
    for_each data
      (fun pd => lift (insert_order_product oid (data_product_id pd) (data_quantity pd)))
      (mkSession p c o q i k tr)
    = (Returned tt,
       mkSession p (mkDb (users c) (orders c) (products c)
                         (order_products c
                          ++ map (fun pd => OrderProduct.mk oid (data_product_id pd)
                                                            (data_quantity pd)) data))
                 o q i k tr).
Proof.
  induction data as [|pd rest IH]; intros p c o q i k tr Hoid Hnd Hall Hord.
  - simpl. unfold ret. rewrite app_nil_r. destruct c; reflexivity.
  - cbn [for_each map]. inversion Hnd as [|? ? Hnotin Hnd']; subst.
    destruct (Hall pd (or_introl eq_refl)) as (Hp & Hq & Hprod & Hnew).
    unfold bind at 1. unfold lift at 1. cbn [current].
    rewrite insert_order_product_returns by assumption.
    unfold set_current. cbn [persisted current order_seq product_seq identity_map clock trace].
    rewrite IH; try assumption.
    + simpl. rewrite <- app_assoc. reflexivity.
    + intros pd' Hin. destruct (Hall pd' (or_intror Hin)) as (Hp' & Hq' & Hprod' & Hnew').
      repeat split; try assumption.
      unfold has_order_product in *. simpl. rewrite existsb_app, Hnew'. simpl.
      rewrite Z.eqb_refl. simpl.
      destruct (data_product_id pd =? data_product_id pd') eqn:E; [|reflexivity].
      apply Z.eqb_eq in E. exfalso. apply Hnotin. rewrite E. apply in_map. assumption.
Qed.

Lemma add_products_to_order_returns oid data p c o q i k tr :
  data <> [] ->
  in_int32 oid = true ->
  NoDup (map data_product_id data) ->
  (forall pd, In pd data ->
     in_int32 (data_product_id pd) = true /\ in_int32 (data_quantity pd) = true /\
     has_product (data_product_id pd) c = true /\
     has_order_product oid (data_product_id pd) c = false) ->
  has_order oid c = true ->
  Part8.add_products_to_order oid data (mkSession p c o q i k tr)
  = (Returned tt,
     mkSession p (mkDb (users c) (orders c) (products c)
                       (order_products c
                        ++ map (fun pd => OrderProduct.mk oid (data_product_id pd)
                                                          (data_quantity pd)) data))
               o q i k (tr ++ [InsertOrderProducts oid data])).
Proof.
  intros Hne Hoid Hnd Hall Hord.
  unfold Part8.add_products_to_order. unfold bind at 1. unfold emit at 1.
  cbn [persisted current order_seq product_seq identity_map clock trace].
  destruct data as [|pd rest]; [congruence|].
  apply statement_returned.
  apply for_each_insert_order_product; assumption.
Qed.

Lemma in_nextvals n : forall q id, In id (nextvals q n) <-> q <= id < q + Z.of_nat n.
Proof.
  induction n as [|n IH]; intros q id.
  - simpl. lia.
  - cbn [nextvals]. rewrite Nat2Z.inj_succ. simpl. rewrite IH. lia.
Qed.

Lemma nextvals_NoDup n : forall q, NoDup (nextvals q n).
Proof.
  induction n as [|n IH]; intros q; simpl; constructor.
  - rewrite in_nextvals. lia.
  - apply IH.
Qed.

Lemma nextvals_length n q : List.length (nextvals q n) = n.
Proof. revert q. induction n as [|n IH]; intros q; simpl; [|rewrite IH]; reflexivity. Qed.

Lemma product_rows_keys t infos :
  forall q, map Product.product_id (product_rows t q infos)
            = nextvals q (List.length infos).
Proof.
  induction infos as [|info rest IH]; intros q; simpl; [|rewrite IH]; reflexivity.
Qed.

Lemma product_rows_combine t infos :
  forall q, product_rows t q infos
            = map (fun '(id, info) =>
                     Product.mk id (info_title info) (info_description info) (Some t))
                  (combine (nextvals q (List.length infos)) infos).
Proof.
  induction infos as [|info rest IH]; intros q; simpl; [|rewrite IH]; reflexivity.
Qed.

Lemma inner_join_unique {A B} (on : A -> B -> bool) (b : A -> B) l r :
  (forall a, In a l -> filter (on a) r = [b a]) ->
  inner_join on l r = map (fun a => (a, b a)) l.
Proof.
  unfold inner_join. induction l as [|a l IH]; intros H; [reflexivity|].
  simpl. rewrite (H a (or_introl eq_refl)). simpl. f_equal.
  apply IH. intros a' Ha'. apply H. right. assumption.
Qed.

(** The rows just written by a multi-row insert are each found by their
    key, in the order of the keys. *)
Lemma join_new_products oid t infos :
  forall q old,
    (forall x, In x old -> Product.product_id x < q) ->
    inner_join (fun op p => Product.product_id p =? OrderProduct.product_id op)
      (map (fun pd => OrderProduct.mk oid (data_product_id pd) (data_quantity pd))
           (map (fun product_id => mkData product_id 1)
                (nextvals q (List.length infos))))
      (old ++ product_rows t q infos)
    = map (fun '(id, info) =>
             (OrderProduct.mk oid id 1,
              Product.mk id (info_title info) (info_description info) (Some t)))
          (combine (nextvals q (List.length infos)) infos).
Proof.
  induction infos as [|info rest IH]; intros q old Hold; [reflexivity|].
  cbn [List.length nextvals product_rows map combine].
  unfold inner_join in *. cbn [flat_map].
  replace (old ++ Product.mk q (info_title info) (info_description info) (Some t)
               :: product_rows t (q + 1) rest)
    with ((old ++ [Product.mk q (info_title info) (info_description info) (Some t)])
            ++ product_rows t (q + 1) rest)
    by (rewrite <- app_assoc; reflexivity).
  rewrite IH.
  - rewrite !filter_app. cbn [data_product_id OrderProduct.product_id].
    rewrite (filter_none _ old).
    + rewrite (filter_none _ (product_rows t (q + 1) rest)).
      * simpl. rewrite Z.eqb_refl. reflexivity.
      * intros z Hz. apply Z.eqb_neq.
        assert (Hk : In (Product.product_id z)
                        (map Product.product_id (product_rows t (q + 1) rest)))
          by (apply in_map; assumption).
        rewrite product_rows_keys, in_nextvals in Hk. lia.
    + intros z Hz. apply Z.eqb_neq. specialize (Hold z Hz). lia.
  - intros x Hx. apply in_app_or in Hx. destruct Hx as [Hx | [<- | []]].
    + specialize (Hold x Hx). lia.
    + simpl. lia.
Qed.

Lemma map_combine_nextvals {C} (g : product_info -> C) infos :
  forall q, map (fun '(id, info) => g info)
                (combine (nextvals q (List.length infos)) infos)
            = map g infos.
Proof.
  induction infos as [|info rest IH]; intros q; simpl; [|rewrite IH]; reflexivity.
Qed.

(* ------------------------------------------------------------------ *)
(** * The driver on a ready store *)
(* ------------------------------------------------------------------ *)

Lemma has_user_rows id us1 us2 os ps ops :
  has_user id (mkDb (us1 ++ us2) os ps ops)
  = has_user id (mkDb us1 os ps ops) || existsb (fun u => User.telegram_id u =? id) us2.
Proof. unfold has_user. simpl. apply existsb_app. Qed.

Lemma emit_returns e p c o q i k tr :
  emit e (mkSession p c o q i k tr)
  = (Returned tt, mkSession p c o q i k (tr ++ [e])).
Proof. reflexivity. Qed.

Lemma select_users_with_referrer_returns p c o q i k tr :
  Part8.select_users_with_referrer (mkSession p c o q i k tr)
  = (Returned (query_users_with_referrer c),
     mkSession p c o q i k (tr ++ [SelectUsersWithReferrer])).
Proof. reflexivity. Qed.

Lemma select_all_users_and_some_referrers_returns p c o q i k tr :
  Part8.select_all_users_and_some_referrers (mkSession p c o q i k tr)
  = (Returned (query_all_users_and_some_referrers c),
     mkSession p c o q i k (tr ++ [SelectAllUsersAndSomeReferrers])).
Proof. reflexivity. Qed.

Lemma select_some_users_and_all_referrers_returns p c o q i k tr :
  Part8.select_some_users_and_all_referrers (mkSession p c o q i k tr)
  = (Returned (query_some_users_and_all_referrers c),
     mkSession p c o q i k (tr ++ [SelectSomeUsersAndAllReferrers])).
Proof. reflexivity. Qed.

Lemma show_users_orders_returns p c o q i k tr :
  Part8.show_users_orders (mkSession p c o q i k tr)
  = (Returned (query_users_orders c),
     mkSession p c o q i k (tr ++ [SelectUsersOrders])).
Proof. reflexivity. Qed.

Lemma show_all_users_products_returns p c o q i k tr :
  Part8.show_all_users_products (mkSession p c o q i k tr)
  = (Returned (query_all_users_products c),
     mkSession p c o q i k (tr ++ [SelectAllUsersProducts])).
Proof. reflexivity. Qed.

Ltac step lem := erewrite bind_returned; [| lem]; cbv beta.

Ltac rows := cbn [users orders products order_products server_default].

Lemma three_products_fit : Forall fits three_products.
Proof.
  unfold three_products.
  repeat (apply Forall_cons;
          [split; [simpl; lia | intros de [= <-]; simpl; lia] |]).
  apply Forall_nil.
Qed.

Lemma main_runs t srv :
  main_ready srv ->
  Part8.main t srv
  = (Returned tt,
     mkServer (tables srv) (orders_order_id_seq srv + 1)
              (products_product_id_seq srv + 3),
     demonstration t srv).
Proof.
  intros [Hwf H1 H2 Ho Hp]. destruct Hwf as [_ _ _ _ _ _ Hopfk _ Hoseq Hpseq].
  destruct srv as [[us os ps ops] oseq pseq].
  cbn [tables orders_order_id_seq products_product_id_seq] in *.
  assert (Hnoord : has_order oseq (mkDb us os ps ops) = false)
    by (apply has_order_fresh; exact Hoseq).
  unfold Part8.main, run, open_session, Part8.main_body, Part8.print.
  cbn [tables orders_order_id_seq products_product_id_seq].
  (* 1. and 2. *)
  step ltac:(apply create_user_returns; apply insert_user_returns;
             [ reflexivity | simpl; lia | intros h [= <-]; simpl; lia | simpl; lia
             | exact I | exact H1 ]).
  rows.
  step ltac:(apply create_user_returns; apply insert_user_returns;
             [ reflexivity | simpl; lia | intros h [= <-]; simpl; lia | simpl; lia
             | split; [reflexivity | left; rewrite has_user_rows; apply orb_true_r]
             | rewrite has_user_rows, H2; reflexivity ]).
  rows.
  (* 3. to 5. *)
  step ltac:(apply select_users_with_referrer_returns).
  step ltac:(apply emit_returns).
  step ltac:(apply for_each_emit).
  step ltac:(apply emit_returns).
  step ltac:(apply select_all_users_and_some_referrers_returns).
  step ltac:(apply emit_returns).
  step ltac:(apply for_each_emit).
  step ltac:(apply select_some_users_and_all_referrers_returns).
  step ltac:(apply emit_returns).
  step ltac:(apply emit_returns).
  step ltac:(apply for_each_emit).
  step ltac:(apply emit_returns).
  (* 6. *)
  step ltac:(apply create_new_order_for_user_returns; apply insert_order_returns;
             [ apply in_int32_iff; lia | reflexivity | exact Hnoord
             | rewrite has_user_rows, has_user_rows; apply orb_true_iff; left;
               apply orb_true_r ]).
  rows.
  (* 7. *)
  step ltac:(apply show_users_orders_returns).
  step ltac:(apply emit_returns).
  step ltac:(apply for_each_emit).
  step ltac:(apply emit_returns).
  (* 8. *)
  step ltac:(apply (create_new_products_returns three_products);
             [ discriminate | exact three_products_fit | exact Hpseq
             | lia | cbn [List.length three_products]; lia ]).
  rows.
  step ltac:(apply emit_returns).
  step ltac:(apply emit_returns).
  (* 9. *)
  erewrite bind_returned; cycle 1.
  { apply add_products_to_order_returns.
    - discriminate.
    - apply in_int32_iff. lia.
    - rewrite map_map. cbn [data_product_id]. rewrite map_id. apply nextvals_NoDup.
    - intros pd Hpd. apply in_map_iff in Hpd. destruct Hpd as (pid & <- & Hpid).
      apply in_nextvals in Hpid. cbn [data_product_id data_quantity].
      repeat split.
      + apply in_int32_iff. simpl in Hpid. lia.
      + unfold has_product. rows. rewrite existsb_app. apply orb_true_iff. right.
        apply existsb_exists.
        assert (Hk : In pid (map Product.product_id
                                 (product_rows t pseq three_products)))
          by (rewrite product_rows_keys; apply in_nextvals; exact Hpid).
        apply in_map_iff in Hk. destruct Hk as (x & Hx & Hin).
        exists x. split; [exact Hin | apply Z.eqb_eq; exact Hx].
      + unfold has_order_product. rows.
        destruct (existsb _ ops) eqn:E; [|reflexivity].
        apply existsb_exists in E. destruct E as (op & Hop & He).
        apply andb_true_iff in He. destruct He as [He _]. apply Z.eqb_eq in He.
        specialize (Hopfk op Hop). rewrite He in Hopfk. congruence.
    - unfold has_order. rows. rewrite existsb_app. simpl. rewrite Z.eqb_refl.
      apply orb_true_iff. right. reflexivity. }
  cbv beta. rows.
  (* 10. *)
  step ltac:(apply show_all_users_products_returns).
  step ltac:(apply emit_returns).
  rewrite for_each_emit. cbn [close_session persisted order_seq product_seq trace].
  unfold demonstration, after_users, after_order, after_order_products.
  cbn [tables orders_order_id_seq products_product_id_seq users orders products
       order_products List.length three_products].
  rewrite <- !app_assoc. rewrite map_map. reflexivity.
Qed.

(* ------------------------------------------------------------------ *)
(** * The driver on any store *)
(* ------------------------------------------------------------------ *)

(** Whether the database takes a statement or refuses it, the statement
    has been sent. *)
Lemma create_user_sends id fn un lc ca rf p c o q i k tr :
  exists r c',
    Part8.create_user id fn un lc ca rf (mkSession p c o q i k tr)
    = (r, mkSession p c' o q i k
                    (tr ++ [InsertUser (mkUserValues id (Some fn) un (Some lc)
                                                     (Value ca) rf)])).
Proof.
  unfold Part8.create_user, bind, emit, now, lift, set_current, abort.
  cbn [persisted current order_seq product_seq identity_map clock trace].
  destruct (insert_user k _ c) as [c'|e]; eexists; eexists; reflexivity.
Qed.

Lemma create_new_order_for_user_sends uid p c o q i k tr :
  exists r c' o',
    Part8.create_new_order_for_user uid (mkSession p c o q i k tr)
    = (r, mkSession p c' o' q i k (tr ++ [InsertOrder uid])) /\
    forall a, r = Returned a -> a = o /\ o' = o + 1.
Proof.
  unfold Part8.create_new_order_for_user, statement, bind, emit, now, lift,
    set_current, nextval_orders, ret, check, abort.
  cbn [persisted current order_seq product_seq identity_map clock trace].
  destruct (bigint uid) as [uid'|e];
    cbn [persisted current order_seq product_seq identity_map clock trace];
    [| do 3 eexists; split; [reflexivity | discriminate]].
  destruct (o <? 2 ^ 31);
    cbn [persisted current order_seq product_seq identity_map clock trace];
    [| do 3 eexists; split; [reflexivity | discriminate]].
  destruct (insert_order k o uid' c) as [c'|e];
    cbn [persisted current order_seq product_seq identity_map clock trace];
    do 3 eexists; (split; [reflexivity | intros a Ha; split; congruence]).
Qed.

Lemma insert_product_rows_sends infos :
  forall p c o q i k tr,
  exists r c' q',
    Part8.insert_product_rows infos (mkSession p c o q i k tr)
    = (r, mkSession p c' o q' i k tr) /\
    forall ids, r = Returned ids -> ids = nextvals q (List.length infos).
Proof.
  induction infos as [|info rest IH]; intros p c o q i k tr.
  - exists (Returned []), c, q. split; [reflexivity | intros ids [= <-]; reflexivity].
  - cbn [Part8.insert_product_rows List.length nextvals].
    unfold bind at 1. unfold check at 1. unfold abort.
    cbn [persisted current order_seq product_seq identity_map clock trace].
    destruct (varchar 255 (info_title info)) as [ti|e];
      [| exists (Raised e), p, q; split; [reflexivity | discriminate]].
    unfold bind at 1. unfold check at 1. unfold abort.
    cbn [persisted current order_seq product_seq identity_map clock trace].
    destruct (nullable (varchar 3000) (info_description info)) as [de|e];
      [| exists (Raised e), p, q; split; [reflexivity | discriminate]].
    unfold bind at 1. unfold nextval_products at 1. unfold abort.
    cbn [persisted current order_seq product_seq identity_map clock trace].
    destruct (q <? 2 ^ 31);
      [| exists (Raised DataError), p, q; split; [reflexivity | discriminate]].
    unfold bind at 1. unfold now at 1. cbn [clock].
    unfold bind at 1. unfold lift at 1. unfold abort. cbn [current].
    destruct (insert_product k q (Some (info_title info)) (info_description info) c)
      as [c1|e].
    + unfold set_current.
      cbn [persisted current order_seq product_seq identity_map clock trace].
      destruct (IH p c1 o (q + 1) i k tr) as (r & c' & q' & E & Hids).
      unfold bind at 1. rewrite E. destruct r as [ids|e].
      * exists (Returned (q :: ids)), c', q'. split; [reflexivity|].
        intros ids' [= <-]. f_equal. apply Hids. reflexivity.
      * exists (Raised e), c', q'. split; [reflexivity | discriminate].
    + exists (Raised e), p, (q + 1). split; [reflexivity | discriminate].
Qed.

Lemma create_new_products_sends info rest p c o q i k tr :
  exists r c' q',
    Part8.create_new_products (info :: rest) (mkSession p c o q i k tr)
    = (r, mkSession p c' o q' i k (tr ++ [InsertProducts (info :: rest)])) /\
    forall ids, r = Returned ids -> ids = nextvals q (List.length (info :: rest)).
Proof.
  unfold Part8.create_new_products. unfold bind at 1. unfold emit at 1.
  cbn [persisted current order_seq product_seq identity_map clock trace].
  destruct (insert_product_rows_sends (info :: rest) p c o q i k
              (tr ++ [InsertProducts (info :: rest)]))
    as (r & c' & q' & E & Hids).
  unfold statement. rewrite E. destruct r as [ids|e].
  - exists (Returned ids), c', q'. split; [reflexivity | exact Hids].
  - exists (Raised e), p, q'. split; [reflexivity | discriminate].
Qed.

Lemma for_each_insert_order_product_sends oid data :
  forall p c o q i k tr,
  exists r c',
    for_each data
      (fun pd => lift (insert_order_product oid (data_product_id pd) (data_quantity pd)))
      (mkSession p c o q i k tr)
    = (r, mkSession p c' o q i k tr).
Proof.
  induction data as [|pd rest IH]; intros p c o q i k tr.
  - exists (Returned tt), c. reflexivity.
  - cbn [for_each]. unfold bind at 1. unfold lift at 1. cbn [current].
    destruct (insert_order_product oid (data_product_id pd) (data_quantity pd) c)
      as [c1|e].
    + unfold set_current.
      cbn [persisted current order_seq product_seq identity_map clock trace].
      apply IH.
    + exists (Raised e), p. reflexivity.
Qed.

Lemma add_products_to_order_sends oid data p c o q i k tr :
  exists r c',
    Part8.add_products_to_order oid data (mkSession p c o q i k tr)
    = (r, mkSession p c' o q i k (tr ++ [InsertOrderProducts oid data])).
Proof.
  unfold Part8.add_products_to_order. unfold bind at 1. unfold emit at 1.
  cbn [persisted current order_seq product_seq identity_map clock trace].
  destruct data as [|pd rest].
  - exists (Raised StatementError), c. reflexivity.
  - destruct (for_each_insert_order_product_sends oid (pd :: rest) p c o q i k
                (tr ++ [InsertOrderProducts oid (pd :: rest)])) as (r & c' & E).
    unfold statement. rewrite E. destruct r as [[]|e].
    + exists (Returned tt), c'. reflexivity.
    + exists (Raised e), p. reflexivity.
Qed.

(** The statements in a trace of the driver: what is printed is dropped. *)
Ltac sent :=
  cbn [trace snd];
  repeat rewrite filter_app;
  repeat rewrite filter_map_none by reflexivity;
  cbn [filter is_statement is_insert is_select is_commit orb app map nextvals
       List.length];
  eexists; reflexivity.

Ltac try_statement lem E :=
  let r := fresh "r" in
  destruct lem as (r & ? & E);
  destruct r as [[]|?];
  [ rewrite (bind_returned _ _ _ _ _ E); cbv beta
  | rewrite (bind_raised _ _ _ _ _ E); unfold script; sent ].

(** On any store, what the driver has sent when it stops is a prefix of
    its script. *)
Lemma main_sends_prefix t srv :
  exists rest, script srv = filter is_statement (snd (Part8.main t srv)) ++ rest.
Proof.
  destruct srv as [d oseq pseq].
  unfold Part8.main, run, open_session, Part8.main_body, Part8.print.
  cbn [tables orders_order_id_seq products_product_id_seq].
  (* 1. and 2. *)
  try_statement (create_user_sends 1 "John Doe" (Some "johnny"%string) "en"
                   (Some (date 2020 1 1)) None d d oseq pseq [] t []) E1.
  match goal with
  | |- context [ bind (Part8.create_user 2 _ _ _ _ _) _
                      (mkSession ?p ?c ?o ?q ?i ?k ?tr) ] =>
      try_statement (create_user_sends 2 "Jane Doe" (Some "jane"%string) "en"
                       (Some (date 2020 1 2)) (Some 1) p c o q i k tr) E2
  end.
  (* 3. to 5. *)
  step ltac:(apply select_users_with_referrer_returns).
  step ltac:(apply emit_returns).
  step ltac:(apply for_each_emit).
  step ltac:(apply emit_returns).
  step ltac:(apply select_all_users_and_some_referrers_returns).
  step ltac:(apply emit_returns).
  step ltac:(apply for_each_emit).
  step ltac:(apply select_some_users_and_all_referrers_returns).
  step ltac:(apply emit_returns).
  step ltac:(apply emit_returns).
  step ltac:(apply for_each_emit).
  step ltac:(apply emit_returns).
  (* 6. *)
  match goal with
  | |- context [ bind (Part8.create_new_order_for_user 1) _
                      (mkSession ?p ?c ?o ?q ?i ?k ?tr) ] =>
      destruct (create_new_order_for_user_sends 1 p c o q i k tr)
        as (r & c3 & o3 & E3 & Hid)
  end.
  destruct r as [order_id|e];
    [ rewrite (bind_returned _ _ _ _ _ E3); cbv beta
    | rewrite (bind_raised _ _ _ _ _ E3); unfold script; sent ].
  destruct (Hid order_id eq_refl) as [-> ->].
  (* 7. *)
  step ltac:(apply show_users_orders_returns).
  step ltac:(apply emit_returns).
  step ltac:(apply for_each_emit).
  step ltac:(apply emit_returns).
  (* 8. *)
  match goal with
  | |- context [ bind (Part8.create_new_products _) _
                      (mkSession ?p ?c ?o ?q ?i ?k ?tr) ] =>
      destruct (create_new_products_sends
                  (mkInfo "Product 1" (Some "Description 1"%string))
                  [ mkInfo "Product 2" (Some "Description 2"%string);
                    mkInfo "Product 3" (Some "Description 3"%string) ]
                  p c o q i k tr)
        as (r & c4 & q4 & E4 & Hids)
  end.
  destruct r as [product_ids|e];
    [ rewrite (bind_returned _ _ _ _ _ E4); cbv beta
    | rewrite (bind_raised _ _ _ _ _ E4); unfold script; sent ].
  rewrite (Hids product_ids eq_refl).
  step ltac:(apply emit_returns).
  step ltac:(apply emit_returns).
  (* 9. *)
  match goal with
  | |- context [ bind (Part8.add_products_to_order ?oid ?data) _
                      (mkSession ?p ?c ?o ?q ?i ?k ?tr) ] =>
      try_statement (add_products_to_order_sends oid data p c o q i k tr) E5
  end.
  (* 10. *)
  step ltac:(apply show_all_users_products_returns).
  step ltac:(apply emit_returns).
  rewrite for_each_emit. unfold script. sent.
Qed.

(* ------------------------------------------------------------------ *)
(** * Products, orders and the driver *)
(* ------------------------------------------------------------------ *)

(** C6, as the code has it.  For every non-empty sequence of records that
    fit the products columns, with the keys still to come within Integer,
    [create_new_products] returns as many keys as there are records; the
    keys are new and distinct, and the i-th key is the key of the row that
    holds the i-th record.  When no product is attached to any order yet,
    attaching the returned keys, each with quantity 1, to a stored order of
    a stored user makes [show_all_users_products] return one row per
    record, each with that order's identifier, the record's title and
    that user's full name: three rows for three records.  The rows are
    given as a collection; the select asks for no order. *)
Theorem create_new_products_returns_keys_in_order
    (products_info : list product_info) (s : session) :
  products_info <> [] ->
  Forall fits products_info ->
  (forall x, In x (products (current s)) -> Product.product_id x < product_seq s) ->
  - 2 ^ 31 <= product_seq s ->
  product_seq s + Z.of_nat (List.length products_info) <= 2 ^ 31 ->
  exists product_ids s',
    Part8.create_new_products products_info s = (Returned product_ids, s') /\
    List.length product_ids = List.length products_info /\
    NoDup product_ids /\
    (forall id, In id product_ids -> has_product id (current s) = false) /\
    products (current s')
    = products (current s)
      ++ map (fun '(id, info) =>
                Product.mk id (info_title info) (info_description info)
                           (Some (clock s)))
             (combine product_ids products_info) /\
    (forall o u,
        order_products (current s) = [] ->
        NoDup (map Order.order_id (orders (current s))) ->
        NoDup (map User.telegram_id (users (current s))) ->
        In o (orders (current s)) -> In u (users (current s)) ->
        User.telegram_id u = Order.user_id o ->
        in_int32 (Order.order_id o) = true ->
        exists s'' rows,
          Part8.add_products_to_order (Order.order_id o)
            (map (fun product_id => mkData product_id 1) product_ids) s'
          = (Returned tt, s'') /\
          fst (Part8.show_all_users_products s'') = Returned rows /\
          Permutation rows
            (map (fun info => mkUP (Order.order_id o) (info_title info)
                                   (User.full_name u))
                 products_info)).
Proof.
  destruct s as [p c o q i k tr]. cbn [current product_seq clock].
  intros Hne Hfit Hfresh Hlo Hhi.
  eexists. eexists. split.
  { apply create_new_products_returns; assumption. }
  cbn [current].
  split; [apply nextvals_length|].
  split; [apply nextvals_NoDup|].
  split.
  { intros id Hid. apply in_nextvals in Hid. apply has_product_fresh.
    intros x Hx. specialize (Hfresh x Hx). lia. }
  split.
  { rows. f_equal. apply product_rows_combine. }
  intros ord u Hnone Hopk Hupk Hord Hu Hfk Hrange.
  eexists. eexists. split.
  { apply add_products_to_order_returns.
    - destruct products_info; [congruence | discriminate].
    - exact Hrange.
    - rewrite map_map. cbn [data_product_id]. rewrite map_id. apply nextvals_NoDup.
    - intros pd Hpd. apply in_map_iff in Hpd. destruct Hpd as (pid & <- & Hpid).
      cbn [data_product_id data_quantity]. repeat split.
      + apply in_nextvals in Hpid. apply in_int32_iff. lia.
      + unfold has_product. rows. rewrite existsb_app. apply orb_true_iff. right.
        apply existsb_exists.
        assert (Hk : In pid (map Product.product_id (product_rows k q products_info)))
          by (rewrite product_rows_keys; exact Hpid).
        apply in_map_iff in Hk. destruct Hk as (x & Hx & Hin).
        exists x. split; [exact Hin | apply Z.eqb_eq; exact Hx].
      + unfold has_order_product. rows. rewrite Hnone. reflexivity.
    - unfold has_order. rows. apply existsb_exists. exists ord.
      split; [exact Hord | apply Z.eqb_refl]. }
  split; [reflexivity|]. cbn [current].
  match goal with
  | |- Permutation ?l ?r => assert (Heq : l = r); [| rewrite Heq; apply Permutation_refl]
  end.
  unfold query_all_users_products. rows. rewrite Hnone. cbn [app].
  rewrite (join_new_products (Order.order_id ord) k products_info q (products c) Hfresh).
  rewrite (inner_join_unique _ (fun _ => ord)).
  - rewrite (inner_join_unique _ (fun _ => u)).
    + rewrite !map_map.
      rewrite <- (map_combine_nextvals
                    (fun info => mkUP (Order.order_id ord) (info_title info)
                                      (User.full_name u)) products_info q).
      apply map_ext. intros [id info]. reflexivity.
    + intros [[op pr] o'] Hin. apply in_map_iff in Hin.
      destruct Hin as (x & Hx & _). injection Hx as _ <-.
      rewrite <- (filter_unique_key User.telegram_id (users c) u Hupk Hu).
      apply filter_ext. intros y. rewrite Hfk. reflexivity.
  - intros [op pr] Hin. apply in_map_iff in Hin.
    destruct Hin as ([id info] & Hx & _). injection Hx as <- _.
    rewrite <- (filter_unique_key Order.order_id (orders c) ord Hopk Hord).
    apply filter_ext. intros y. reflexivity.
Qed.

Lemma create_new_products_returns_keys_in_order_witness :
  three_products <> [] /\
  exists product_ids s',
    Part8.create_new_products three_products
      (open_session (date 2020 1 3)
         (mkServer (mkDb [john] [Order.mk 1 1 None] [] []) 2 1))
    = (Returned product_ids, s') /\
    List.length product_ids = 3%nat.
Proof.
  split; [discriminate|].
  destruct (create_new_products_returns_keys_in_order three_products
              (open_session (date 2020 1 3)
                 (mkServer (mkDb [john] [Order.mk 1 1 None] [] []) 2 1)))
    as (ids & s' & Hrun & Hlen & _).
  - discriminate.
  - exact three_products_fit.
  - intros x [].
  - simpl. lia.
  - simpl. lia.
  - exists ids, s'. split; assumption.
Defined.

(** C6, as stated, at the empty sequence: no key is returned and nothing
    is inserted; the statement sets no column, and the title is missing. *)
Lemma create_new_products_empty_raises :
  run (Part8.create_new_products []) (date 2020 1 3) fresh_server
  = (Raised IntegrityError, mkServer empty_db 1 2, [InsertProducts []]) /\
  ~ (exists product_ids s',
        Part8.create_new_products [] (open_session (date 2020 1 3) fresh_server)
        = (Returned product_ids, s') /\
        List.length product_ids = List.length (@nil product_info)).
Proof.
  split; [reflexivity|].
  intros (ids & s' & H & _). discriminate H.
Qed.

(** The other bounds of C6 as the code has it are needed as well: a title
    longer than its column, which is refused before a key is drawn, a
    sequence that is not ahead of a stored key, and a sequence that runs
    out of Integer at the second row: its last value, [2 ^ 31 - 1], is
    handed out and none comes next. *)
Example create_new_products_long_title_raises :
  fst (run (Part8.create_new_products [mkInfo (zeros 256) None])
           (date 2020 1 3) fresh_server)
  = (Raised DataError, mkServer empty_db 1 1).
Proof. reflexivity. Qed.

Example create_new_products_taken_key_raises :
  fst (run (Part8.create_new_products three_products) (date 2020 1 3)
           (mkServer (mkDb [] [] [Product.mk 1 "Tea" None None] []) 1 1))
  = (Raised IntegrityError,
     mkServer (mkDb [] [] [Product.mk 1 "Tea" None None] []) 1 2).
Proof. reflexivity. Qed.

Example create_new_products_exhausted_sequence_raises :
  fst (run (Part8.create_new_products three_products)
           (date 2020 1 3) (mkServer empty_db 1 (2 ^ 31 - 1)))
  = (Raised DataError, mkServer empty_db 1 (2 ^ 31)).
Proof. reflexivity. Qed.

(** C7.  On the same stored rows, the asynchronous [main] fetches the rows
    that the synchronous [show_users_orders] returns: an order's identifier
    next to the full name of the user its [user_id] names.  It prints them
    name first, once its session is closed, and its commit changes no
    row. *)
Theorem async_join_yields_the_synchronous_rows (t1 t2 : datetime) (srv : server) :
  exists rows,
    run Part8.show_users_orders t1 srv = (Returned rows, srv, [SelectUsersOrders]) /\
    run Part9.main_body t2 srv = (Returned rows, srv, [SelectUsersOrders; Commit]) /\
    Part9.main t2 srv
    = (Returned tt, srv,
       [SelectUsersOrders; Commit]
       ++ map (fun row => PrintNameOrder (uo_full_name row) (uo_order_id row)) rows) /\
    (forall row, In row rows <->
       exists o u, In o (orders (tables srv)) /\ In u (users (tables srv)) /\
                   User.telegram_id u = Order.user_id o /\
                   row = mkUO (Order.order_id o) (User.full_name u)) /\
    (forall s, fst (Part9.main_body s) = fst (Part8.show_users_orders s)).
Proof.
  exists (query_users_orders (tables srv)). destruct srv as [d oseq pseq].
  repeat split; try reflexivity.
  - unfold query_users_orders. intros Hin. apply in_map_iff in Hin.
    destruct Hin as ([o u] & <- & Hin). apply in_inner_join in Hin.
    destruct Hin as (Ho & Hu & Hon). apply Z.eqb_eq in Hon.
    exists o, u. auto.
  - intros (o & u & Ho & Hu & Hfk & ->). unfold query_users_orders.
    apply in_map_iff. exists (o, u). split; [reflexivity|].
    apply in_inner_join. rewrite Hfk, Z.eqb_refl. auto.
Qed.

Lemma main_ready_fresh : main_ready fresh_server.
Proof.
  split; try reflexivity.
  - split; simpl; try constructor; intros; contradiction.
  - simpl. lia.
  - simpl. lia.
Qed.

(** C8.  The synchronous driver sends these statements, in this order:
    insert user 1 (John Doe, johnny, en, 2020-01-01, no referrer); insert
    user 2 (Jane Doe, jane, en, 2020-01-02, referrer 1); the three referrer
    joins; insert an order for user 1; the orders with user names; insert
    the products "Product 1" to "Product 3" with "Description 1" to
    "Description 3"; attach the three returned keys to the order just
    created, each with quantity 1; the order, product and user join.  On
    any store, what it has sent when it stops is a prefix of this sequence;
    on a store that has users 1 and 2 free and keys left it runs to its
    end, sends all of it, and prints every result after its select. *)
Theorem main_demonstration_sequence (t : datetime) (srv : server) :
  let sequence :=
    [ InsertUser (mkUserValues 1 (Some "John Doe"%string) (Some "johnny"%string)
                               (Some "en"%string) (Value (Some (date 2020 1 1))) None);
      InsertUser (mkUserValues 2 (Some "Jane Doe"%string) (Some "jane"%string)
                               (Some "en"%string) (Value (Some (date 2020 1 2)))
                               (Some 1));
      SelectUsersWithReferrer;
      SelectAllUsersAndSomeReferrers;
      SelectSomeUsersAndAllReferrers;
      InsertOrder 1;
      SelectUsersOrders;
      InsertProducts [ mkInfo "Product 1" (Some "Description 1"%string);
                       mkInfo "Product 2" (Some "Description 2"%string);
                       mkInfo "Product 3" (Some "Description 3"%string) ];
      InsertOrderProducts (orders_order_id_seq srv)
        [ mkData (products_product_id_seq srv) 1;
          mkData (products_product_id_seq srv + 1) 1;
          mkData (products_product_id_seq srv + 1 + 1) 1 ];
      SelectAllUsersProducts ] in
  (exists rest,
      sequence = filter is_statement (snd (Part8.main t srv)) ++ rest) /\
  (main_ready srv ->
   exists srv' tr,
     Part8.main t srv = (Returned tt, srv', tr) /\
     tr = demonstration t srv /\
     filter is_statement tr = sequence).
Proof.
  intros sequence. split; [exact (main_sends_prefix t srv)|].
  intros Hready. eexists. eexists. split; [apply main_runs; exact Hready|].
  split; [reflexivity|].
  subst sequence. unfold demonstration.
  cbn [app filter is_statement is_insert is_select is_commit orb].
  repeat (rewrite filter_app;
          rewrite filter_map_none by reflexivity;
          cbn [app filter is_statement is_insert is_select is_commit orb]).
  rewrite filter_map_none by reflexivity.
  reflexivity.
Qed.

Lemma main_demonstration_sequence_witness :
  main_ready fresh_server /\
  exists srv' tr,
    Part8.main (date 2020 1 3) fresh_server = (Returned tt, srv', tr) /\
    tr = demonstration (date 2020 1 3) fresh_server.
Proof.
  split; [exact main_ready_fresh|].
  destruct (proj2 (main_demonstration_sequence (date 2020 1 3) fresh_server)
                  main_ready_fresh)
    as (srv' & tr & Hrun & Htr & _).
  exists srv', tr. split; assumption.
Defined.

(* ------------------------------------------------------------------ *)
(** * Nothing is committed by the driver *)
(* ------------------------------------------------------------------ *)

Lemma quiet_ret {A} (a : A) : quiet (ret a).
Proof. intros s. split; reflexivity. Qed.

Lemma quiet_raise {A} e : quiet (@raise A e).
Proof. intros s. split; reflexivity. Qed.

Lemma quiet_bind {A B} (c : M A) (k : A -> M B) :
  quiet c -> (forall a, quiet (k a)) -> quiet (bind c k).
Proof.
  intros Hc Hk s. unfold bind. specialize (Hc s).
  destruct (c s) as [[a|e] s']; simpl in Hc.
  - destruct (Hk a s') as [H1 H2]. destruct Hc as [H3 H4]. split; congruence.
  - exact Hc.
Qed.

Lemma quiet_emit e : is_commit e = false -> quiet (emit e).
Proof.
  intros He s. split; [reflexivity|]. unfold count. simpl.
  rewrite filter_app, length_app. simpl. rewrite He. simpl. lia.
Qed.

Lemma quiet_get_current : quiet get_current.
Proof. intros s. split; reflexivity. Qed.

Lemma quiet_now : quiet now.
Proof. intros s. split; reflexivity. Qed.

Lemma quiet_nextval_orders : quiet nextval_orders.
Proof.
  intros s. unfold nextval_orders. destruct (order_seq s <? 2 ^ 31); split; reflexivity.
Qed.

Lemma quiet_nextval_products : quiet nextval_products.
Proof.
  intros s. unfold nextval_products.
  destruct (product_seq s <? 2 ^ 31); split; reflexivity.
Qed.

Lemma quiet_check {A} (x : outcome A) : quiet (check x).
Proof. intros s. unfold check. destruct x; split; reflexivity. Qed.

Lemma quiet_lift f : quiet (lift f).
Proof. intros s. unfold lift. destruct (f (current s)); split; reflexivity. Qed.

Lemma quiet_statement {A} (c : M A) : quiet c -> quiet (statement c).
Proof.
  intros Hc s. unfold statement. specialize (Hc s).
  destruct (c s) as [[a|e] s']; simpl in *; exact Hc.
Qed.

Lemma quiet_for_each {A} (xs : list A) body :
  (forall x, quiet (body x)) -> quiet (for_each xs body).
Proof.
  intros H. induction xs as [|x xs IH]; simpl.
  - apply quiet_ret.
  - apply quiet_bind; [apply H | intros _; exact IH].
Qed.

Lemma quiet_insert_product_rows infos : quiet (Part8.insert_product_rows infos).
Proof.
  induction infos as [|info rest IH]; simpl.
  - apply quiet_ret.
  - apply quiet_bind; [apply quiet_check | intros _].
    apply quiet_bind; [apply quiet_check | intros _].
    apply quiet_bind; [apply quiet_nextval_products | intros id].
    apply quiet_bind; [apply quiet_now | intros t].
    apply quiet_bind; [apply quiet_lift | intros _].
    apply quiet_bind; [exact IH | intros ids]. apply quiet_ret.
Qed.

Create HintDb quiet.

#[local] Hint Resolve quiet_ret quiet_raise quiet_get_current quiet_now
  quiet_check quiet_nextval_orders quiet_nextval_products quiet_lift quiet_statement
  quiet_insert_product_rows : quiet.

Ltac quiet_steps :=
  repeat match goal with
         | |- quiet (bind _ _) => apply quiet_bind; [| intros ? ]
         | |- quiet (emit _) => apply quiet_emit; reflexivity
         | |- quiet (for_each _ _) => apply quiet_for_each; intros ?
         | |- quiet (statement _) => apply quiet_statement
         | |- quiet _ => solve [ auto with quiet ]
         end.

Lemma quiet_create_user id fn un lc ca rf : quiet (Part8.create_user id fn un lc ca rf).
Proof. unfold Part8.create_user. quiet_steps. Qed.

Lemma quiet_select_users_with_referrer : quiet Part8.select_users_with_referrer.
Proof. unfold Part8.select_users_with_referrer. quiet_steps. Qed.

Lemma quiet_select_all_users_and_some_referrers :
  quiet Part8.select_all_users_and_some_referrers.
Proof. unfold Part8.select_all_users_and_some_referrers. quiet_steps. Qed.

Lemma quiet_select_some_users_and_all_referrers :
  quiet Part8.select_some_users_and_all_referrers.
Proof. unfold Part8.select_some_users_and_all_referrers. quiet_steps. Qed.

Lemma quiet_create_new_order_for_user uid : quiet (Part8.create_new_order_for_user uid).
Proof. unfold Part8.create_new_order_for_user. quiet_steps. Qed.

Lemma quiet_show_users_orders : quiet Part8.show_users_orders.
Proof. unfold Part8.show_users_orders. quiet_steps. Qed.

Lemma quiet_create_new_products infos : quiet (Part8.create_new_products infos).
Proof. unfold Part8.create_new_products. destruct infos; quiet_steps. Qed.

Lemma quiet_add_products_to_order oid data : quiet (Part8.add_products_to_order oid data).
Proof. unfold Part8.add_products_to_order. destruct data; quiet_steps. Qed.

Lemma quiet_show_all_users_products : quiet Part8.show_all_users_products.
Proof. unfold Part8.show_all_users_products. quiet_steps. Qed.

#[local] Hint Resolve quiet_create_user quiet_select_users_with_referrer
  quiet_select_all_users_and_some_referrers
  quiet_select_some_users_and_all_referrers quiet_create_new_order_for_user
  quiet_show_users_orders quiet_create_new_products quiet_add_products_to_order
  quiet_show_all_users_products : quiet.

Lemma quiet_main_body : quiet Part8.main_body.
Proof. unfold Part8.main_body, Part8.print. quiet_steps. Qed.

Lemma after_order_products_shows t srv info :
  In info three_products ->
  In (mkUP (orders_order_id_seq srv) (info_title info) "John Doe")
     (query_all_users_products (after_order_products t srv)).
Proof.
  intros Hinfo.
  unfold query_all_users_products. apply in_map_iff.
  assert (Hrow : exists id,
             In id (nextvals (products_product_id_seq srv) 3) /\
             In (Product.mk id (info_title info) (info_description info) (Some t))
                (product_rows t (products_product_id_seq srv) three_products)).
  { destruct Hinfo as [<- | [<- | [<- | []]]];
      [ exists (products_product_id_seq srv)
      | exists (products_product_id_seq srv + 1)
      | exists (products_product_id_seq srv + 1 + 1) ];
      simpl; split; repeat (first [left; reflexivity | right]). }
  destruct Hrow as (id & Hid & Hrow).
  exists (OrderProduct.mk (orders_order_id_seq srv) id 1,
          Product.mk id (info_title info) (info_description info) (Some t),
          Order.mk (orders_order_id_seq srv) 1 (Some t), john).
  split; [reflexivity|].
  apply in_inner_join. split; [| split].
  - apply in_inner_join. split; [| split].
    + apply in_inner_join. split; [| split].
      * unfold after_order_products. rows. apply in_or_app. right.
        apply in_map_iff. exists id. split; [reflexivity | exact Hid].
      * unfold after_order_products. rows. apply in_or_app. right. exact Hrow.
      * apply Z.eqb_refl.
    + unfold after_order_products. rows. apply in_or_app. right. left. reflexivity.
    + apply Z.eqb_refl.
  - unfold after_order_products. rows. apply in_or_app. right. left. reflexivity.
  - reflexivity.
Qed.

Lemma after_users_shows (srv : server) :
  main_ready srv ->
  In (mkUR (Some "Jane Doe"%string) (Some "John Doe"%string))
     (query_users_with_referrer (after_users (tables srv))) /\
  In (mkUR (Some "John Doe"%string) None)
     (query_all_users_and_some_referrers (after_users (tables srv))) /\
  In (mkUR (Some "Jane Doe"%string) (Some "John Doe"%string))
     (query_all_users_and_some_referrers (after_users (tables srv))) /\
  In (mkUR None (Some "Jane Doe"%string))
     (query_some_users_and_all_referrers (after_users (tables srv))) /\
  In (mkUR (Some "Jane Doe"%string) (Some "John Doe"%string))
     (query_some_users_and_all_referrers (after_users (tables srv))).
Proof.
  intros [Hwf _ H2 _ _].
  assert (Hjohn : In john (users (after_users (tables srv))))
    by (cbn [after_users users]; apply in_or_app; right; left; reflexivity).
  assert (Hjane : In jane (users (after_users (tables srv))))
    by (cbn [after_users users]; apply in_or_app; right; right; left; reflexivity).
  unfold query_users_with_referrer, query_all_users_and_some_referrers,
    query_some_users_and_all_referrers, users_join_referrer,
    users_outerjoin_referrer, referrer_outerjoin_users.
  repeat split.
  - apply in_map_iff. exists (jane, john). split; [reflexivity|].
    apply in_inner_join. auto.
  - apply in_map_iff. exists (john, None). split; [reflexivity|].
    apply in_left_outer_join_none. split; [exact Hjohn | reflexivity].
  - apply in_map_iff. exists (jane, Some john). split; [reflexivity|].
    apply in_left_outer_join_some. auto.
  - apply in_map_iff. exists (jane, None). split; [reflexivity|].
    apply in_left_outer_join_none. split; [exact Hjane|].
    intros u Hu. cbn [after_users users] in Hu. apply in_app_or in Hu.
    destruct Hu as [Hu | [<- | [<- | []]]]; [| reflexivity | reflexivity].
    unfold referrer_of. destruct (User.referrer_id u) as [k|] eqn:Hk; [|reflexivity].
    destruct (Z.eqb_spec (User.telegram_id jane) k) as [<-|]; [|reflexivity].
    pose proof (wf_referrer_fk _ Hwf u _ Hu Hk) as Hhas.
    cbn [jane User.telegram_id] in Hhas. congruence.
  - apply in_map_iff. exists (john, Some jane). split; [reflexivity|].
    apply in_left_outer_join_some. auto.
Qed.

Lemma after_order_shows t (srv : server) :
  In (mkUO (orders_order_id_seq srv) "John Doe")
     (query_users_orders (after_order t srv)).
Proof.
  unfold query_users_orders. apply in_map_iff.
  exists (Order.mk (orders_order_id_seq srv) 1 (Some t), john).
  split; [reflexivity|]. apply in_inner_join. cbn [after_order users orders].
  split; [apply in_or_app; right; left; reflexivity|].
  split; [apply in_or_app; right; left; reflexivity | reflexivity].
Qed.

(** C10.  The synchronous driver sends no commit: whatever the store and
    whether the run ends or raises, the committed rows of the four tables
    are afterwards what they were before.  On a ready store its five
    inserts (two users, an order, three products in one statement, three
    order-product rows in one statement) all run in its one session, and
    each select of that session returns rows just inserted: the three
    referrer selects return Jane Doe with John Doe, the second also John
    Doe with no referrer and the third also Jane Doe as a referrer of no
    one, the fourth returns the new order with John Doe, and the last the
    new order with each of the three products and John Doe.  The rows are
    as before, but not the two sequences: the order sequence stands one
    further and the product sequence three. *)
Theorem main_never_commits (t : datetime) (srv : server) :
  (forall r srv' tr,
      Part8.main t srv = (r, srv', tr) ->
      tables srv' = tables srv /\ count is_commit tr = 0%nat) /\
  (main_ready srv ->
   exists srv' tr with_referrer all_users all_referrers users_orders users_products,
     Part8.main t srv = (Returned tt, srv', tr) /\
     tables srv' = tables srv /\
     orders_order_id_seq srv' = orders_order_id_seq srv + 1 /\
     products_product_id_seq srv' = products_product_id_seq srv + 3 /\
     count is_commit tr = 0%nat /\
     count is_insert tr = 5%nat /\
     tr = report srv with_referrer all_users all_referrers users_orders
                 users_products /\
     In (mkUR (Some "Jane Doe"%string) (Some "John Doe"%string)) with_referrer /\
     In (mkUR (Some "John Doe"%string) None) all_users /\
     In (mkUR (Some "Jane Doe"%string) (Some "John Doe"%string)) all_users /\
     In (mkUR None (Some "Jane Doe"%string)) all_referrers /\
     In (mkUR (Some "Jane Doe"%string) (Some "John Doe"%string)) all_referrers /\
     In (mkUO (orders_order_id_seq srv) "John Doe") users_orders /\
     forall info, In info three_products ->
       In (mkUP (orders_order_id_seq srv) (info_title info) "John Doe")
          users_products).
Proof.
  assert (Hall : forall r srv' tr,
             Part8.main t srv = (r, srv', tr) ->
             tables srv' = tables srv /\ count is_commit tr = 0%nat).
  { intros r srv' tr Hrun. unfold Part8.main, run in Hrun.
    destruct (quiet_main_body (open_session t srv)) as [Hp Hc].
    destruct (Part8.main_body (open_session t srv)) as [r0 s].
    injection Hrun as _ <- <-. simpl in Hp, Hc. split; assumption. }
  split; [exact Hall|].
  intros Hready. pose proof (main_runs t srv Hready) as Hrun.
  destruct (Hall _ _ _ Hrun) as [Htab Hcom].
  destruct (after_users_shows srv Hready) as (H1 & H2 & H3 & H4 & H5).
  exists (mkServer (tables srv) (orders_order_id_seq srv + 1)
                   (products_product_id_seq srv + 3)),
         (demonstration t srv),
         (query_users_with_referrer (after_users (tables srv))),
         (query_all_users_and_some_referrers (after_users (tables srv))),
         (query_some_users_and_all_referrers (after_users (tables srv))),
         (query_users_orders (after_order t srv)),
         (query_all_users_products (after_order_products t srv)).
  split; [exact Hrun|].
  split; [reflexivity|]. split; [reflexivity|]. split; [reflexivity|].
  split; [exact Hcom|]. split.
  { unfold count, demonstration.
    cbn [app filter is_insert].
    repeat (rewrite filter_app;
            rewrite filter_map_none by reflexivity;
            cbn [app filter is_insert]).
    rewrite filter_map_none by reflexivity. reflexivity. }
  split; [reflexivity|].
  split; [exact H1|]. split; [exact H2|]. split; [exact H3|].
  split; [exact H4|]. split; [exact H5|].
  split; [apply after_order_shows|].
  intros info Hinfo. apply after_order_products_shows. exact Hinfo.
Qed.

Lemma main_never_commits_witness :
  main_ready fresh_server /\
  exists srv' tr,
    Part8.main (date 2020 1 3) fresh_server = (Returned tt, srv', tr) /\
    tables srv' = empty_db /\
    count is_commit tr = 0%nat.
Proof.
  split; [exact main_ready_fresh|].
  destruct (proj2 (main_never_commits (date 2020 1 3) fresh_server) main_ready_fresh)
    as (srv' & tr & r1 & r2 & r3 & r4 & r5 & Hrun & Htab & _ & _ & Hcom & _).
  exists srv', tr. repeat split; assumption.
Defined.

(** C10, as stated: the persistent state is not unchanged.  After a run on
    the empty store the tables are empty again, but the order sequence
    stands at 2 and the product sequence at 4. *)
Lemma main_spends_keys :
  exists tr,
    Part8.main (date 2020 1 3) fresh_server
    = (Returned tt, mkServer empty_db 2 4, tr) /\
    mkServer empty_db 2 4 <> fresh_server.
Proof.
  eexists. split; [exact (main_runs (date 2020 1 3) fresh_server main_ready_fresh)|].
  discriminate.
Qed.

(* ------------------------------------------------------------------ *)
(** * Deleting under the rules of models.py *)
(* ------------------------------------------------------------------ *)

Lemma mem_one k uid : mem k [uid] = (k =? uid).
Proof. unfold mem. simpl. apply orb_false_r. Qed.

Lemma mem_in k l : mem k l = true <-> In k l.
Proof.
  unfold mem. rewrite existsb_exists. split.
  - intros (x & Hx & He). apply Z.eqb_eq in He. subst. assumption.
  - intros H. exists k. split; [assumption | apply Z.eqb_refl].
Qed.

Lemma refers_to_one uid u :
  refers_to [uid] u = true <-> User.referrer_id u = Some uid.
Proof.
  unfold refers_to. destruct (User.referrer_id u) as [k|].
  - rewrite mem_one, Z.eqb_eq. split; [intros ->; reflexivity | intros [= ->]; reflexivity].
  - split; discriminate.
Qed.

Lemma delete_user_models uid d :
  has_user uid d = true ->
  delete_user models uid d
  = Returned
      (mkDb (map (clear_referrer [uid])
                 (filter (fun u => negb (User.telegram_id u =? uid)) (users d)))
            (filter (fun o => negb (Order.user_id o =? uid)) (orders d))
            (products d)
            (filter (fun op =>
                       negb (mem (OrderProduct.order_id op)
                                 (map Order.order_id
                                      (filter (fun o => Order.user_id o =? uid)
                                              (orders d)))))
                    (order_products d))).
Proof.
  intros Hhas. unfold delete_user. rewrite Hhas.
  cbn [negb models users_referrer_id orders_user_id cascade_users obind].
  unfold delete_orders, on_delete_orders.
  cbn [models order_products_order_id obind users orders products order_products].
  f_equal. f_equal.
  - f_equal. apply filter_ext. intros u. rewrite mem_one. reflexivity.
  - apply filter_ext. intros o. rewrite mem_one. reflexivity.
  - apply filter_ext. intros op. do 3 f_equal.
    apply filter_ext. intros o. apply mem_one.
Qed.

(** C9.  Under the [ondelete] rules that models.py declares, deleting a
    stored user succeeds and takes along the orders of that user and the
    order_products rows of those orders, and nothing else of the two tables;
    the other users stay, those that named the deleted user as referrer
    with [referrer_id] set to no-value and the rest as they were; products
    are untouched.  Deleting a stored product that an order_products row
    names is refused. *)
Theorem delete_follows_declared_rules (d : db) :
  (forall uid, has_user uid d = true ->
     exists d',
       delete_user models uid d = Returned d' /\
       (forall o, In o (orders d') <-> In o (orders d) /\ Order.user_id o <> uid) /\
       (forall op, In op (order_products d') <->
                   In op (order_products d) /\
                   ~ exists o, In o (orders d) /\ Order.user_id o = uid /\
                               Order.order_id o = OrderProduct.order_id op) /\
       (forall u, In u (users d') ->
                  User.telegram_id u <> uid /\ User.referrer_id u <> Some uid /\
                  exists u0, In u0 (users d) /\
                             User.telegram_id u0 = User.telegram_id u) /\
       (forall u0, In u0 (users d) -> User.telegram_id u0 <> uid ->
                   User.referrer_id u0 = Some uid ->
                   In (User.mk (User.telegram_id u0) (User.full_name u0)
                               (User.username u0) (User.language_code u0)
                               (User.created_at u0) None) (users d')) /\
       (forall u0, In u0 (users d) -> User.telegram_id u0 <> uid ->
                   User.referrer_id u0 <> Some uid -> In u0 (users d')) /\
       products d' = products d)
  /\
  (forall p op, In p (products d) -> In op (order_products d) ->
                OrderProduct.product_id op = Product.product_id p ->
                delete_product models (Product.product_id p) d = Raised IntegrityError).
Proof.
  split.
  - intros uid Hhas. eexists. split; [apply delete_user_models; exact Hhas|].
    rows. repeat split.
    + apply filter_In in H. tauto.
    + apply filter_In in H. destruct H as [_ H]. apply negb_true_iff, Z.eqb_neq in H.
      exact H.
    + intros [Ho Hne]. apply filter_In. split; [exact Ho|].
      apply negb_true_iff, Z.eqb_neq. exact Hne.
    + apply filter_In in H. tauto.
    + apply filter_In in H. destruct H as [_ H]. apply negb_true_iff in H.
      intros (o & Ho & Hu & Hid).
      assert (Hm : mem (OrderProduct.order_id op)
                       (map Order.order_id
                            (filter (fun o0 => Order.user_id o0 =? uid) (orders d)))
                   = true).
      { apply mem_in. rewrite <- Hid. apply in_map, filter_In.
        split; [exact Ho | apply Z.eqb_eq; exact Hu]. }
      congruence.
    + intros [Hop Hno]. apply filter_In. split; [exact Hop|].
      apply negb_true_iff. destruct (mem _ _) eqn:E; [|reflexivity].
      apply mem_in, in_map_iff in E. destruct E as (o & Hid & Ho).
      apply filter_In in Ho. destruct Ho as [Ho Hu]. apply Z.eqb_eq in Hu.
      exfalso. apply Hno. exists o. auto.
    + apply in_map_iff in H. destruct H as (u0 & <- & Hu0).
      apply filter_In in Hu0. destruct Hu0 as [_ Hne].
      apply negb_true_iff, Z.eqb_neq in Hne.
      unfold clear_referrer. destruct (refers_to [uid] u0); exact Hne.
    + apply in_map_iff in H. destruct H as (u0 & <- & Hu0).
      unfold clear_referrer. destruct (refers_to [uid] u0) eqn:E; simpl.
      * discriminate.
      * intros Href. apply refers_to_one in Href. congruence.
    + apply in_map_iff in H. destruct H as (u0 & <- & Hu0).
      apply filter_In in Hu0. exists u0. split; [tauto|].
      unfold clear_referrer. destruct (refers_to [uid] u0); reflexivity.
    + intros u0 Hu0 Hne Href. apply in_map_iff. exists u0. split.
      * unfold clear_referrer. apply refers_to_one in Href. rewrite Href. reflexivity.
      * apply filter_In. split; [exact Hu0 | apply negb_true_iff, Z.eqb_neq; exact Hne].
    + intros u0 Hu0 Hne Href. apply in_map_iff. exists u0. split.
      * unfold clear_referrer. destruct (refers_to [uid] u0) eqn:E; [|reflexivity].
        apply refers_to_one in E. contradiction.
      * apply filter_In. split; [exact Hu0 | apply negb_true_iff, Z.eqb_neq; exact Hne].
  - intros p op Hp Hop Hid. unfold delete_product.
    assert (Hhas : has_product (Product.product_id p) d = true).
    { unfold has_product. apply existsb_exists. exists p.
      split; [exact Hp | apply Z.eqb_refl]. }
    rewrite Hhas. simpl.
    assert (Hex : existsb (fun op0 => OrderProduct.product_id op0 =? Product.product_id p)
                          (order_products d) = true).
    { apply existsb_exists. exists op. split; [exact Hop | apply Z.eqb_eq; exact Hid]. }
    rewrite Hex. reflexivity.
Qed.

(* ------------------------------------------------------------------ *)
(** * The start handler *)
(* ------------------------------------------------------------------ *)

Lemma contains_here needle post : contains needle (needle ++ post)%string.
Proof. exists EmptyString, post. reflexivity. Qed.

Lemma contains_later needle pre hay :
  contains needle hay -> contains needle (pre ++ hay)%string.
Proof.
  intros (a & b & ->). exists (pre ++ a)%string, b.
  induction pre as [|c pre IH]; simpl; [reflexivity | rewrite IH; reflexivity].
Qed.

(** The reply names the row's full name, its handle after an at sign, its
    language code and its creation time. *)
Lemma reply_text_contains (u : User.t) :
  contains (User.full_name u) (Part10.reply_text u) /\
  contains ("@" ++ str_opt (fun s => s) (User.username u)) (Part10.reply_text u) /\
  contains (User.language_code u) (Part10.reply_text u) /\
  contains (str_opt str_datetime (User.created_at u)) (Part10.reply_text u).
Proof.
  unfold Part10.reply_text, Part10.user_info. repeat split.
  - do 5 apply contains_later. apply contains_here.
  - do 6 apply contains_later.
    exists " ("%string. eexists. reflexivity.
  - do 11 apply contains_later. apply contains_here.
  - do 15 apply contains_later. apply contains_here.
Qed.

Lemma find_absent ident us :
  existsb (fun u => User.telegram_id u =? ident) us = false ->
  find (fun u => User.telegram_id u =? ident) us = None.
Proof.
  intros H. destruct (find _ us) as [u|] eqn:E; [|reflexivity].
  apply find_some in E. destruct E as [Hin He].
  assert (existsb (fun u => User.telegram_id u =? ident) us = true)
    by (apply existsb_exists; eauto).
  congruence.
Qed.

Lemma find_appended ident us u :
  existsb (fun u => User.telegram_id u =? ident) us = false ->
  User.telegram_id u = ident ->
  find (fun u => User.telegram_id u =? ident) (us ++ [u]) = Some u.
Proof.
  intros H Hu. induction us as [|x us IH]; simpl in *.
  - rewrite Hu, Z.eqb_refl. reflexivity.
  - apply orb_false_iff in H. destruct H as [Hx Hus]. rewrite Hx. apply IH. exact Hus.
Qed.

Lemma find_present ident us :
  existsb (fun u => User.telegram_id u =? ident) us = true ->
  exists u, find (fun u => User.telegram_id u =? ident) us = Some u.
Proof.
  intros H. destruct (find _ us) as [u|] eqn:E; [eauto|].
  apply existsb_exists in H. destruct H as (x & Hx & He).
  rewrite (find_none _ _ E x Hx) in He. discriminate.
Qed.

(** First contact: select, insert, commit, select again, reply. *)
Lemma start_first_contact t message srv l :
  in_int64 (Part10.id (Part10.from_user message)) = true ->
  has_user (Part10.id (Part10.from_user message)) (tables srv) = false ->
  (characters (Part10.full_name (Part10.from_user message)) <= 255)%nat ->
  (forall h, Part10.username (Part10.from_user message) = Some h ->
             (characters h <= 255)%nat) ->
  Part10.language_code (Part10.from_user message) = Some l ->
  (characters l <= 10)%nat ->
  let sender := Part10.from_user message in
  let row := User.mk (Part10.id sender) (Part10.full_name sender)
                     (Part10.username sender) l (Some t) None in
  Part10.start t message srv
  = (Returned tt,
     mkServer (mkDb (users (tables srv) ++ [row]) (orders (tables srv))
                    (products (tables srv)) (order_products (tables srv)))
              (orders_order_id_seq srv) (products_product_id_seq srv),
     [ SelectUserById (Part10.id sender);
       InsertUser (mkUserValues (Part10.id sender) (Some (Part10.full_name sender))
                                (Part10.username sender) (Some l) Default None);
       Commit;
       SelectUserById (Part10.id sender);
       Reply (Part10.reply_text row) ]).
Proof.
  intros Hid Hnew Hfn Hun Hlc Hl sender row.
  destruct message as [[ident fn un lc]]. destruct srv as [d oseq pseq].
  cbn [Part10.from_user Part10.id Part10.full_name Part10.username
       Part10.language_code tables orders_order_id_seq products_product_id_seq] in *.
  subst lc sender row.
  cbn [Part10.from_user Part10.id Part10.full_name Part10.username Part10.language_code].
  unfold Part10.start, run, open_session, Part10.user_start.
  cbn [Part10.from_user Part10.id Part10.full_name Part10.username
       Part10.language_code tables orders_order_id_seq products_product_id_seq].
  erewrite bind_returned;
    [| unfold Part10.session_get; cbn [identity_map Part10.lookup current trace];
       rewrite Hid, (find_absent _ _ Hnew); reflexivity ].
  cbv beta iota.
  erewrite bind_returned;
    [| erewrite bind_returned;
       [| unfold Part10.create_user;
          erewrite bind_returned; [| reflexivity ];
          erewrite bind_returned; [| reflexivity ];
          unfold lift; cbn [current clock];
          rewrite (insert_user_returns t ident fn un l Default None d
                                       Hid Hfn Hun Hl I Hnew);
          reflexivity ];
       reflexivity ].
  erewrite bind_returned;
    [| unfold Part10.session_get;
       cbn [identity_map Part10.lookup current trace users server_default];
       rewrite Hid,
         (find_appended ident (users d) (User.mk ident fn un l (Some t) None)
                        Hnew eq_refl);
       reflexivity ].
  reflexivity.
Qed.

(** A sender already stored: select, reply. *)
Lemma start_known t message srv u :
  in_int64 (Part10.id (Part10.from_user message)) = true ->
  find (fun u => User.telegram_id u =? Part10.id (Part10.from_user message))
       (users (tables srv)) = Some u ->
  Part10.start t message srv
  = (Returned tt, srv,
     [ SelectUserById (Part10.id (Part10.from_user message));
       Reply (Part10.reply_text u) ]).
Proof.
  intros Hid Hfind. destruct message as [[ident fn un lc]]. destruct srv as [d oseq pseq].
  cbn [Part10.from_user Part10.id tables] in *.
  unfold Part10.start, run, open_session, Part10.user_start.
  cbn [Part10.from_user Part10.id tables orders_order_id_seq products_product_id_seq].
  erewrite bind_returned;
    [| unfold Part10.session_get; cbn [identity_map Part10.lookup current trace];
       rewrite Hid, Hfind; reflexivity ].
  cbv beta iota.
  erewrite bind_returned; [| reflexivity ].
  erewrite bind_returned;
    [| unfold Part10.session_get; cbn [identity_map Part10.lookup];
       rewrite Z.eqb_refl; reflexivity ].
  reflexivity.
Qed.

(** C2, as the code has it.  On first contact from a sender that is not
    stored, whose message carries a language code and whose values fit the
    users columns, the start handler inserts one users row, holding the
    identifier, display name, handle and language code of the message as
    they are, and commits it; its reply contains the stored full name, the
    handle after an at sign, the language code and the creation time. *)
Theorem user_start_first_contact (t : datetime) (message : Part10.Message)
    (srv : server) :
  let sender := Part10.from_user message in
  in_int64 (Part10.id sender) = true ->
  has_user (Part10.id sender) (tables srv) = false ->
  storable sender ->
  exists l row srv' text,
    Part10.language_code sender = Some l /\
    row = User.mk (Part10.id sender) (Part10.full_name sender)
                  (Part10.username sender) l (Some t) None /\
    Part10.start t message srv
    = (Returned tt, srv',
       [ SelectUserById (Part10.id sender);
         InsertUser (mkUserValues (Part10.id sender) (Some (Part10.full_name sender))
                                  (Part10.username sender)
                                  (Part10.language_code sender) Default None);
         Commit;
         SelectUserById (Part10.id sender);
         Reply text ]) /\
    users (tables srv') = users (tables srv) ++ [row] /\
    orders (tables srv') = orders (tables srv) /\
    products (tables srv') = products (tables srv) /\
    order_products (tables srv') = order_products (tables srv) /\
    contains (User.full_name row) text /\
    contains ("@" ++ str_opt (fun s => s) (User.username row)) text /\
    (forall h, Part10.username sender = Some h -> contains ("@" ++ h) text) /\
    contains (User.language_code row) text /\
    contains (str_datetime t) text.
Proof.
  intros sender Hid Hnew (Hfn & Hun & l & Hlc & Hl).
  exists l. eexists. eexists. eexists.
  split; [exact Hlc|]. split; [reflexivity|].
  split.
  { fold sender. rewrite Hlc.
    apply (start_first_contact t message srv l Hid Hnew Hfn Hun Hlc Hl). }
  rows. cbn [tables].
  repeat split; try apply reply_text_contains.
  - intros h Hh.
    pose proof (reply_text_contains
                  (User.mk (Part10.id sender) (Part10.full_name sender)
                           (Part10.username sender) l (Some t) None)) as (_ & H & _).
    cbn [User.username] in H.
    replace ("@" ++ h)%string
      with ("@" ++ str_opt (fun s => s) (Part10.username sender))%string
      by (rewrite Hh; reflexivity).
    exact H.
Qed.

Lemma ann_storable : storable (Part10.from_user ann).
Proof.
  repeat split.
  - simpl. lia.
  - intros h [= <-]. simpl. lia.
  - exists "en"%string. split; [reflexivity | simpl; lia].
Qed.

Lemma user_start_first_contact_witness :
  in_int64 42 = true /\ has_user 42 (tables fresh_server) = false /\
  storable (Part10.from_user ann) /\
  exists srv' text,
    Part10.start (date 2024 5 6) ann fresh_server
    = (Returned tt, srv',
       [ SelectUserById 42;
         InsertUser (mkUserValues 42 (Some "Ann Lee"%string) (Some "ann"%string)
                                  (Some "en"%string) Default None);
         Commit; SelectUserById 42; Reply text ]) /\
    contains "@ann" text.
Proof.
  split; [reflexivity|]. split; [reflexivity|]. split; [exact ann_storable|].
  destruct (user_start_first_contact (date 2024 5 6) ann fresh_server
              eq_refl eq_refl ann_storable)
    as (l & row & srv' & text & _ & _ & Hrun & _ & _ & _ & _ & _ & _ & Hat & _).
  exists srv', text. split; [exact Hrun|].
  apply (Hat "ann"%string). reflexivity.
Defined.

(** C2, as stated, at a first message that carries no language code: the
    insert is refused, no row is stored and no reply is sent. *)
Lemma user_start_without_language_raises :
  has_user 42 (tables fresh_server) = false /\
  Part10.start (date 2024 5 6) ann_without_language fresh_server
  = (Raised IntegrityError, fresh_server,
     [ SelectUserById 42;
       InsertUser (mkUserValues 42 (Some "Ann Lee"%string) (Some "ann"%string)
                                None Default None) ]) /\
  ~ (exists r srv' tr,
        Part10.start (date 2024 5 6) ann_without_language fresh_server = (r, srv', tr) /\
        (rows_of 42 (tables srv') <> [] \/ count is_reply tr <> 0%nat)).
Proof.
  split; [reflexivity|]. split; [reflexivity|].
  intros (r & srv' & tr & Hrun & H). injection Hrun as _ <- <-.
  destruct H as [H | H]; apply H; reflexivity.
Qed.

(** C1, as the code has it.  For a sender that is stored already, or whose
    first message carries a language code and values that fit the users
    columns, two start commands in a row both reply, and leave one users
    row for the sender.  The first inserts and commits that row when the
    sender was not stored (one insert, one commit, two selects) and only
    reads it otherwise; the second sends no insert and no commit, one
    select and the reply, and changes nothing.  Both replies are the text
    of that one row, and contain its full name, its handle after an at
    sign, its language code and its creation time. *)
Theorem user_start_twice (t1 t2 : datetime) (m1 m2 : Part10.Message) (srv : server) :
  let ident := Part10.id (Part10.from_user m1) in
  Part10.id (Part10.from_user m2) = ident ->
  in_int64 ident = true ->
  NoDup (map User.telegram_id (users (tables srv))) ->
  has_user ident (tables srv) = true \/ storable (Part10.from_user m1) ->
  exists u srv1 tr1 tr2,
    Part10.start t1 m1 srv = (Returned tt, srv1, tr1) /\
    Part10.start t2 m2 srv1 = (Returned tt, srv1, tr2) /\
    rows_of ident (tables srv1) = [u] /\
    (has_user ident (tables srv) = false ->
     users (tables srv1) = users (tables srv) ++ [u] /\
     count is_insert tr1 = 1%nat /\ count is_commit tr1 = 1%nat /\
     count is_select tr1 = 2%nat) /\
    (has_user ident (tables srv) = true ->
     srv1 = srv /\
     count is_insert tr1 = 0%nat /\ count is_commit tr1 = 0%nat /\
     count is_select tr1 = 1%nat) /\
    count is_insert tr2 = 0%nat /\ count is_commit tr2 = 0%nat /\
    count is_select tr2 = 1%nat /\
    filter is_reply tr1 = [Reply (Part10.reply_text u)] /\
    filter is_reply tr2 = [Reply (Part10.reply_text u)] /\
    contains (User.full_name u) (Part10.reply_text u) /\
    contains ("@" ++ str_opt (fun s => s) (User.username u)) (Part10.reply_text u) /\
    contains (User.language_code u) (Part10.reply_text u) /\
    contains (str_opt str_datetime (User.created_at u)) (Part10.reply_text u).
Proof.
  intros ident Hsame Hid Hpk Hcase.
  destruct (has_user ident (tables srv)) eqn:Hhas.
  - (* the sender is stored *)
    destruct (find_present ident (users (tables srv)) Hhas) as (u & Hfind).
    exists u, srv. eexists. eexists.
    split; [apply (start_known t1 m1 srv u Hid Hfind)|].
    split; [apply (start_known t2 m2 srv u); rewrite Hsame; assumption|].
    split.
    { destruct (find_some _ _ Hfind) as [Hin He]. apply Z.eqb_eq in He.
      unfold rows_of. rewrite <- He.
      apply (filter_unique_key User.telegram_id); assumption. }
    split; [discriminate|].
    split; [intros _; repeat split|].
    repeat split; apply reply_text_contains.
  - (* first contact *)
    destruct Hcase as [Hcase | (Hfn & Hun & l & Hlc & Hl)]; [discriminate|].
    pose proof (start_first_contact t1 m1 srv l Hid Hhas Hfn Hun Hlc Hl) as Hrun1.
    cbv zeta in Hrun1. fold ident in Hrun1.
    eexists. eexists. eexists. eexists.
    split; [exact Hrun1|].
    split.
    { apply start_known.
      - rewrite Hsame. exact Hid.
      - rewrite Hsame. fold ident. cbn [tables users].
        apply find_appended; [exact Hhas | reflexivity]. }
    split.
    { unfold rows_of. cbn [tables users]. rewrite filter_app.
      rewrite filter_none.
      - simpl. rewrite Z.eqb_refl. reflexivity.
      - intros z Hz. destruct (User.telegram_id z =? ident) eqn:E; [|reflexivity].
        assert (has_user ident (tables srv) = true)
          by (apply existsb_exists; eauto).
        congruence. }
    split; [intros _; repeat split|].
    split; [discriminate|].
    rewrite Hsame. fold ident.
    repeat split; apply reply_text_contains.
Qed.

Lemma user_start_twice_witness :
  in_int64 42 = true /\
  NoDup (map User.telegram_id (users (tables fresh_server))) /\
  storable (Part10.from_user ann) /\
  exists u srv1 tr1 tr2,
    Part10.start (date 2024 5 6) ann fresh_server = (Returned tt, srv1, tr1) /\
    Part10.start (date 2024 5 7) ann srv1 = (Returned tt, srv1, tr2) /\
    rows_of 42 (tables srv1) = [u] /\
    count is_insert tr2 = 0%nat.
Proof.
  split; [reflexivity|]. split; [constructor|]. split; [exact ann_storable|].
  destruct (user_start_twice (date 2024 5 6) (date 2024 5 7) ann ann fresh_server
              eq_refl eq_refl (NoDup_nil Z) (or_intror ann_storable))
    as (u & srv1 & tr1 & tr2 & H1 & H2 & H3 & _ & _ & H4 & _).
  exists u, srv1, tr1, tr2. repeat split; assumption.
Defined.

(** C1, as stated, at a sender whose messages carry no language code: both
    start commands raise, no row is inserted and no reply is sent. *)
Lemma user_start_twice_without_language_raises :
  Part10.start (date 2024 5 6) ann_without_language fresh_server
  = (Raised IntegrityError, fresh_server,
     [ SelectUserById 42;
       InsertUser (mkUserValues 42 (Some "Ann Lee"%string) (Some "ann"%string)
                                None Default None) ]) /\
  Part10.start (date 2024 5 7) ann_without_language fresh_server
  = (Raised IntegrityError, fresh_server,
     [ SelectUserById 42;
       InsertUser (mkUserValues 42 (Some "Ann Lee"%string) (Some "ann"%string)
                                None Default None) ]) /\
  ~ (exists r1 srv1 tr1 r2 srv2 tr2,
        Part10.start (date 2024 5 6) ann_without_language fresh_server = (r1, srv1, tr1) /\
        Part10.start (date 2024 5 7) ann_without_language srv1 = (r2, srv2, tr2) /\
        (rows_of 42 (tables srv2) <> [] \/ count is_reply (tr1 ++ tr2) <> 0%nat)).
Proof.
  split; [reflexivity|]. split; [reflexivity|].
  intros (r1 & srv1 & tr1 & r2 & srv2 & tr2 & Hrun1 & Hrun2 & H).
  injection Hrun1 as _ <- <-. injection Hrun2 as _ <- <-.
  destruct H as [H | H]; apply H; reflexivity.
Qed.

Lemma delete_follows_declared_rules_witness :
  has_user 1 two_users = true /\
  exists d',
    delete_user models 1 two_users = Returned d' /\
    In (User.mk 2 "Jane Doe" (Some "jane"%string) "en" (Some (date 2020 1 2)) None)
       (users d').
Proof.
  split; [reflexivity|].
  destruct (proj1 (delete_follows_declared_rules two_users) 1 eq_refl)
    as (d' & Hrun & _ & _ & _ & Hset & _).
  exists d'. split; [exact Hrun|].
  apply (Hset jane).
  - right. left. reflexivity.
  - discriminate.
  - reflexivity.
Defined.

(** The other bounds of C1 and C2 as the code has them are needed as well:
    a display name longer than its column is refused. *)
Example user_start_long_name_raises :
  fst (Part10.start (date 2024 5 6)
         (Part10.mkMessage (Part10.mkFromUser 42 (zeros 256) None (Some "en"%string)))
         fresh_server)
  = (Raised DataError, fresh_server).
Proof. reflexivity. Qed.

(** The columns count characters, not bytes: a display name of 204
    Cyrillic letters is stored as it is. *)
Example user_start_long_cyrillic_name_stored :
  String.length (copies 34 six_letters) = 408%nat /\
  characters (copies 34 six_letters) = 204%nat /\
  fst (Part10.start (date 2024 5 6) anya fresh_server)
  = (Returned tt,
     mkServer (mkDb [User.mk 43 (copies 34 six_letters) (Some "anya"%string) "ru"
                             (Some (date 2024 5 6)) None] [] [] [])
              1 1).
Proof. repeat split; vm_compute; reflexivity. Qed.

(* ------------------------------------------------------------------ *)
(** * What a row insert has checked when it returns *)
(* ------------------------------------------------------------------ *)

Lemma bigint_returned z z' : bigint z = Returned z' -> z' = z /\ in_int64 z = true.
Proof. unfold bigint. destruct (in_int64 z); [intros [= <-]; auto | discriminate]. Qed.

Lemma integer_returned z z' : integer z = Returned z' -> z' = z /\ in_int32 z = true.
Proof. unfold integer. destruct (in_int32 z); [intros [= <-]; auto | discriminate]. Qed.

Lemma require_returned b e u : require b e = Returned u -> b = true.
Proof. unfold require. destruct b; [reflexivity | discriminate]. Qed.

Lemma nullable_bigint_returned x x' :
  nullable bigint x = Returned x' -> x' = x.
Proof.
  destruct x as [z|]; simpl; [|intros [= <-]; reflexivity].
  unfold bigint. destruct (in_int64 z); [intros [= <-]; reflexivity | discriminate].
Qed.

Lemma insert_user_returned t v d d' :
  insert_user t v d = Returned d' ->
  exists fn un lc,
    d' = mkDb (users d ++ [User.mk (v_telegram_id v) fn un lc
                                   (server_default t (v_created_at v))
                                   (v_referrer_id v)])
              (orders d) (products d) (order_products d) /\
    in_int64 (v_telegram_id v) = true /\
    has_user (v_telegram_id v) d = false /\
    (forall r, v_referrer_id v = Some r ->
               has_user r d = true \/ r = v_telegram_id v).
Proof.
  unfold insert_user. intros H.
  destruct (bigint (v_telegram_id v)) as [id|] eqn:Eid; [|discriminate].
  apply bigint_returned in Eid. destruct Eid as [-> Hid]. cbn [obind] in H.
  destruct (nullable (varchar 255) (v_full_name v)) as [fn|]; [|discriminate].
  cbn [obind] in H.
  destruct (nullable (varchar 255) (v_username v)) as [un|]; [|discriminate].
  cbn [obind] in H.
  destruct (nullable (varchar 10) (v_language_code v)) as [lc|]; [|discriminate].
  cbn [obind] in H.
  destruct (nullable bigint (v_referrer_id v)) as [rf|] eqn:Erf; [|discriminate].
  apply nullable_bigint_returned in Erf. subst rf. cbn [obind] in H.
  destruct (not_null fn) as [fn'|]; [|discriminate]. cbn [obind] in H.
  destruct (not_null lc) as [lc'|]; [|discriminate]. cbn [obind] in H.
  destruct (require (negb (has_user (v_telegram_id v) d)) IntegrityError)
    as [[]|] eqn:Epk; [|discriminate].
  apply require_returned, negb_true_iff in Epk. cbn [obind] in H.
  destruct (require _ IntegrityError) as [[]|] eqn:Efk in H; [|discriminate].
  apply require_returned in Efk. cbn [obind] in H. injection H as <-.
  exists fn', un, lc'. repeat split; try assumption.
  intros r Hr. rewrite Hr in Efk. apply orb_true_iff in Efk.
  destruct Efk as [Hex | He]; [left; exact Hex | right; apply Z.eqb_eq; exact He].
Qed.

Lemma insert_order_returned t id uid d d' :
  insert_order t id uid d = Returned d' ->
  d' = mkDb (users d) (orders d ++ [Order.mk id uid (Some t)])
            (products d) (order_products d) /\
  in_int32 id = true /\ has_order id d = false /\ has_user uid d = true.
Proof.
  unfold insert_order. intros H.
  destruct (integer id) as [id'|] eqn:Eid; [|discriminate].
  apply integer_returned in Eid. destruct Eid as [-> Hid]. cbn [obind] in H.
  destruct (bigint uid) as [uid'|] eqn:Euid; [|discriminate].
  apply bigint_returned in Euid. destruct Euid as [-> _]. cbn [obind] in H.
  destruct (require (negb (has_order id d)) IntegrityError) as [[]|] eqn:Epk;
    [|discriminate].
  apply require_returned, negb_true_iff in Epk. cbn [obind] in H.
  destruct (require (has_user uid d) IntegrityError) as [[]|] eqn:Efk; [|discriminate].
  apply require_returned in Efk. cbn [obind] in H. injection H as <-.
  auto.
Qed.

Lemma insert_product_returned t id title description d d' :
  insert_product t id title description d = Returned d' ->
  exists ti de,
    d' = mkDb (users d) (orders d)
              (products d ++ [Product.mk id ti de (Some t)]) (order_products d) /\
    in_int32 id = true /\ has_product id d = false.
Proof.
  unfold insert_product. intros H.
  destruct (integer id) as [id'|] eqn:Eid; [|discriminate].
  apply integer_returned in Eid. destruct Eid as [-> Hid]. cbn [obind] in H.
  destruct (nullable (varchar 255) title) as [ti|]; [|discriminate]. cbn [obind] in H.
  destruct (nullable (varchar 3000) description) as [de|]; [|discriminate].
  cbn [obind] in H.
  destruct (not_null ti) as [ti'|]; [|discriminate]. cbn [obind] in H.
  destruct (require (negb (has_product id d)) IntegrityError) as [[]|] eqn:Epk;
    [|discriminate].
  apply require_returned, negb_true_iff in Epk. cbn [obind] in H. injection H as <-.
  exists ti', de. auto.
Qed.

Lemma insert_order_product_returned oid pid qty d d' :
  insert_order_product oid pid qty d = Returned d' ->
  d' = mkDb (users d) (orders d) (products d)
            (order_products d ++ [OrderProduct.mk oid pid qty]) /\
  has_order_product oid pid d = false /\
  has_order oid d = true /\ has_product pid d = true.
Proof.
  unfold insert_order_product. intros H.
  destruct (integer oid) as [oid'|] eqn:Eo; [|discriminate].
  apply integer_returned in Eo. destruct Eo as [-> _]. cbn [obind] in H.
  destruct (integer pid) as [pid'|] eqn:Ep; [|discriminate].
  apply integer_returned in Ep. destruct Ep as [-> _]. cbn [obind] in H.
  destruct (integer qty) as [qty'|] eqn:Eq; [|discriminate].
  apply integer_returned in Eq. destruct Eq as [-> _]. cbn [obind] in H.
  destruct (require (negb (has_order_product oid pid d)) IntegrityError)
    as [[]|] eqn:Epk; [|discriminate].
  apply require_returned, negb_true_iff in Epk. cbn [obind] in H.
  destruct (require (has_order oid d) IntegrityError) as [[]|] eqn:Efo; [|discriminate].
  apply require_returned in Efo. cbn [obind] in H.
  destruct (require (has_product pid d) IntegrityError) as [[]|] eqn:Efp; [|discriminate].
  apply require_returned in Efp. cbn [obind] in H. injection H as <-.
  auto.
Qed.

(* ------------------------------------------------------------------ *)
(** * Inserting users and orders *)
(* ------------------------------------------------------------------ *)

Lemma create_user_outcome id fn un lc ca rf p c o q i k tr :
  Part8.create_user id fn un lc ca rf (mkSession p c o q i k tr)
  = match insert_user k (mkUserValues id (Some fn) un (Some lc) (Value ca) rf) c with
    | Returned c' =>
        (Returned tt,
         mkSession p c' o q i k
           (tr ++ [InsertUser (mkUserValues id (Some fn) un (Some lc) (Value ca) rf)]))
    | Raised e =>
        (Raised e,
         mkSession p p o q i k
           (tr ++ [InsertUser (mkUserValues id (Some fn) un (Some lc) (Value ca) rf)]))
    end.
Proof.
  unfold Part8.create_user, bind, emit, now, lift, set_current.
  cbn [persisted current order_seq product_seq identity_map clock trace].
  destruct (insert_user k _ c); reflexivity.
Qed.

Lemma rows_of_appended ident d u :
  has_user ident d = false -> User.telegram_id u = ident ->
  rows_of ident (mkDb (users d ++ [u]) (orders d) (products d) (order_products d)) = [u].
Proof.
  intros Hnew Hu. unfold rows_of. cbn [users]. rewrite filter_app.
  rewrite filter_none.
  - simpl. rewrite Hu, Z.eqb_refl. reflexivity.
  - intros z Hz. destruct (User.telegram_id z =? ident) eqn:E; [|reflexivity].
    assert (has_user ident d = true) by (apply existsb_exists; eauto).
    congruence.
Qed.

(** X1.  Insert, then look up: when the identifier is a BIGINT not yet
    stored, the strings fit their columns and the referrer, if any, is a
    stored user or the new row itself, [create_user] returns, and the
    users of the session are the former ones followed by one row that
    holds the six values as given; looking the identifier up finds that
    row and no other; the other tables and the committed rows are as
    before. *)
Theorem create_user_then_lookup (s : session) (telegram_id : Z)
    (full_name : string) (username : option string) (language_code : string)
    (created_at : option datetime) (referrer_id : option Z) :
  in_int64 telegram_id = true ->
  (characters full_name <= 255)%nat ->
  (forall h, username = Some h -> (characters h <= 255)%nat) ->
  (characters language_code <= 10)%nat ->
  has_user telegram_id (current s) = false ->
  (forall r, referrer_id = Some r ->
             in_int64 r = true /\ (has_user r (current s) = true \/ r = telegram_id)) ->
  let row := User.mk telegram_id full_name username language_code
                     created_at referrer_id in
  exists s',
    Part8.create_user telegram_id full_name username language_code
                      created_at referrer_id s = (Returned tt, s') /\
    users (current s') = users (current s) ++ [row] /\
    rows_of telegram_id (current s') = [row] /\
    orders (current s') = orders (current s) /\
    products (current s') = products (current s) /\
    order_products (current s') = order_products (current s) /\
    persisted s' = persisted s.
Proof.
  intros Hid Hfn Hun Hlc Hnew Hrf row. destruct s as [p c o q i k tr].
  cbn [current persisted] in *.
  eexists. split.
  { apply create_user_returns. apply insert_user_returns; try assumption.
    destruct referrer_id as [r|]; [apply Hrf; reflexivity | exact I]. }
  cbn [current persisted users orders products order_products server_default].
  repeat split.
  apply rows_of_appended; [exact Hnew | reflexivity].
Qed.

Lemma create_user_then_lookup_witness :
  String.length six_letters = 12%nat /\ characters six_letters = 6%nat /\
  exists s',
    Part8.create_user 2 "Jane Doe" (Some "jane"%string) six_letters
      (Some (date 2020 1 2)) (Some 1)
      (open_session (date 2020 1 3) (mkServer (mkDb [john] [] [] []) 1 1))
    = (Returned tt, s') /\
    rows_of 2 (current s')
    = [User.mk 2 "Jane Doe" (Some "jane"%string) six_letters
               (Some (date 2020 1 2)) (Some 1)].
Proof.
  split; [reflexivity|]. split; [reflexivity|].
  destruct (create_user_then_lookup
              (open_session (date 2020 1 3) (mkServer (mkDb [john] [] [] []) 1 1))
              2 "Jane Doe" (Some "jane"%string) six_letters
              (Some (date 2020 1 2)) (Some 1))
    as (s' & Hrun & _ & Hrows & _).
  - reflexivity.
  - simpl. lia.
  - intros h [= <-]. simpl. lia.
  - vm_compute. lia.
  - reflexivity.
  - intros r [= <-]. split; [reflexivity | left; reflexivity].
  - exists s'. split; [exact Hrun | exact Hrows].
Defined.

Lemma insert_user_refused t id fn un lc ca rf d :
  in_int64 id = true ->
  (characters fn <= 255)%nat ->
  (forall h, un = Some h -> (characters h <= 255)%nat) ->
  (characters lc <= 10)%nat ->
  (forall r, rf = Some r -> in_int64 r = true) ->
  has_user id d = true \/
  (exists r, rf = Some r /\ has_user r d = false /\ r <> id) ->
  insert_user t (mkUserValues id (Some fn) un (Some lc) ca rf) d
  = Raised IntegrityError.
Proof.
  intros Hid Hfn Hun Hlc Hrf Hbad. unfold insert_user.
  cbn [v_telegram_id v_full_name v_username v_language_code v_referrer_id
       v_created_at nullable].
  unfold bigint at 1. rewrite Hid. cbn [obind].
  rewrite (varchar_fits 255 fn Hfn). cbn [obind].
  rewrite (nullable_varchar_fits 255 un Hun). cbn [obind].
  rewrite (varchar_fits 10 lc Hlc). cbn [obind].
  assert (Erf : nullable bigint rf = Returned rf).
  { destruct rf as [r|]; [|reflexivity]. cbn [nullable]. unfold bigint.
    rewrite (Hrf r eq_refl). reflexivity. }
  rewrite Erf. cbn [obind not_null].
  destruct (has_user id d) eqn:Htaken; [reflexivity|]. cbn [negb require obind].
  destruct Hbad as [Ht | (r & -> & Hnone & Hne)]; [discriminate Ht|].
  rewrite Hnone. apply Z.eqb_neq in Hne. rewrite Hne. reflexivity.
Qed.

(** X2.  [create_user] with values that fit their columns is refused with
    the constraint error when the identifier is already stored (primary
    key), and when the referrer names neither a stored user nor the new
    row itself (foreign key).  The refusal aborts the transaction: the
    rows the session had written and not committed are lost with it, the
    committed rows and the sequences are as they were. *)
Theorem create_user_refused (s : session) (telegram_id : Z)
    (full_name : string) (username : option string) (language_code : string)
    (created_at : option datetime) (referrer_id : option Z) :
  in_int64 telegram_id = true ->
  (characters full_name <= 255)%nat ->
  (forall h, username = Some h -> (characters h <= 255)%nat) ->
  (characters language_code <= 10)%nat ->
  (forall r, referrer_id = Some r -> in_int64 r = true) ->
  has_user telegram_id (current s) = true \/
  (exists r, referrer_id = Some r /\ has_user r (current s) = false /\
             r <> telegram_id) ->
  exists s',
    Part8.create_user telegram_id full_name username language_code
                      created_at referrer_id s = (Raised IntegrityError, s') /\
    current s' = persisted s /\ persisted s' = persisted s /\
    order_seq s' = order_seq s /\ product_seq s' = product_seq s.
Proof.
  intros Hid Hfn Hun Hlc Hrf Hbad. destruct s as [p c o q i k tr].
  cbn [current persisted order_seq product_seq] in *.
  rewrite create_user_outcome.
  rewrite (insert_user_refused k telegram_id full_name username language_code
             (Value created_at) referrer_id c Hid Hfn Hun Hlc Hrf Hbad).
  eexists. split; [reflexivity|]. repeat split.
Qed.

Lemma create_user_refused_witness :
  has_user 1 two_users = true /\
  exists s',
    Part8.create_user 1 "John Doe" (Some "johnny"%string) "en"
      (Some (date 2020 1 1)) None
      (mkSession empty_db two_users 1 1 [] (date 2020 1 3) [])
    = (Raised IntegrityError, s') /\
    current s' = empty_db.
Proof.
  split; [reflexivity|].
  destruct (create_user_refused
              (mkSession empty_db two_users 1 1 [] (date 2020 1 3) [])
              1 "John Doe" (Some "johnny"%string) "en" (Some (date 2020 1 1)) None)
    as (s' & Hrun & Hcur & _).
  - reflexivity.
  - simpl. lia.
  - intros h [= <-]. simpl. lia.
  - simpl. lia.
  - discriminate.
  - left. reflexivity.
  - exists s'. split; [exact Hrun | exact Hcur].
Defined.

Lemma create_new_order_for_user_outcome uid p c o q i k tr :
  Part8.create_new_order_for_user uid (mkSession p c o q i k tr)
  = if in_int64 uid then
      if o <? 2 ^ 31 then
        match insert_order k o uid c with
        | Returned c' =>
            (Returned o, mkSession p c' (o + 1) q i k (tr ++ [InsertOrder uid]))
        | Raised e =>
            (Raised e, mkSession p p (o + 1) q i k (tr ++ [InsertOrder uid]))
        end
      else (Raised DataError, mkSession p p o q i k (tr ++ [InsertOrder uid]))
    else (Raised DataError, mkSession p p o q i k (tr ++ [InsertOrder uid])).
Proof.
  unfold Part8.create_new_order_for_user, statement, bind, emit, now, lift,
    set_current, nextval_orders, ret, check, bigint, abort.
  cbn [persisted current order_seq product_seq identity_map clock trace].
  destruct (in_int64 uid);
    cbn [persisted current order_seq product_seq identity_map clock trace];
    [|reflexivity].
  destruct (o <? 2 ^ 31);
    cbn [persisted current order_seq product_seq identity_map clock trace];
    [|reflexivity].
  destruct (insert_order k o uid c); reflexivity.
Qed.

(** X3.  For a stored user, with the sequence ahead of every stored order
    key and within Integer, [create_new_order_for_user] returns the value
    of the sequence, which is the key of no order stored before; the orders
    of the session are the former ones followed by one order of that user
    with this key; and a second call returns the next value, a different
    key. *)
Theorem create_new_order_for_user_new_key (s : session) (user_id : Z) :
  in_int64 user_id = true ->
  has_user user_id (current s) = true ->
  (forall o, In o (orders (current s)) -> Order.order_id o < order_seq s) ->
  - 2 ^ 31 <= order_seq s -> order_seq s + 1 < 2 ^ 31 ->
  exists s' s'',
    Part8.create_new_order_for_user user_id s = (Returned (order_seq s), s') /\
    has_order (order_seq s) (current s) = false /\
    orders (current s')
    = orders (current s) ++ [Order.mk (order_seq s) user_id (Some (clock s))] /\
    users (current s') = users (current s) /\
    Part8.create_new_order_for_user user_id s' = (Returned (order_seq s + 1), s'') /\
    orders (current s'')
    = orders (current s)
      ++ [Order.mk (order_seq s) user_id (Some (clock s));
          Order.mk (order_seq s + 1) user_id (Some (clock s))].
Proof.
  intros Huid Huser Hahead Hlo Hhi. destruct s as [p c o q i k tr].
  cbn [current order_seq clock] in *.
  assert (Hfresh : has_order o c = false) by (apply has_order_fresh; exact Hahead).
  eexists. eexists. split.
  { apply create_new_order_for_user_returns. apply insert_order_returns;
      [apply in_int32_iff; lia | exact Huid | exact Hfresh | exact Huser]. }
  split; [exact Hfresh|]. cbn [current users orders].
  split; [reflexivity|]. split; [reflexivity|]. split.
  { apply create_new_order_for_user_returns. apply insert_order_returns.
    - apply in_int32_iff. lia.
    - exact Huid.
    - apply has_order_fresh. cbn [orders]. intros x Hx.
      apply in_app_or in Hx. destruct Hx as [Hx | [<- | []]].
      + specialize (Hahead x Hx). lia.
      + simpl. lia.
    - exact Huser. }
  cbn [current orders]. rewrite <- app_assoc. reflexivity.
Qed.

Lemma create_new_order_for_user_new_key_witness :
  has_user 1 (current (open_session (date 2020 1 3) (mkServer two_users 1 1))) = true /\
  exists s',
    Part8.create_new_order_for_user 1
      (open_session (date 2020 1 3) (mkServer two_users 1 1)) = (Returned 1, s') /\
    orders (current s') = [Order.mk 1 1 (Some (date 2020 1 3))].
Proof.
  split; [reflexivity|].
  destruct (create_new_order_for_user_new_key
              (open_session (date 2020 1 3) (mkServer two_users 1 1)) 1)
    as (s' & s'' & Hrun & _ & Horders & _).
  - reflexivity.
  - reflexivity.
  - intros o [].
  - simpl. lia.
  - simpl. lia.
  - exists s'. split; [exact Hrun | exact Horders].
Defined.

(** X4.  For a user that is not stored, with the sequence within Integer,
    [create_new_order_for_user] is refused, and the refusal aborts the
    transaction: the rows the session had written and not committed are
    lost, the committed rows are as they were.  When the identifier is a
    BIGINT the refusal is the constraint error (the foreign key), and the
    key that was drawn is spent, the sequence standing one further; when
    it is not, the value is refused as data before any key is drawn, and
    the sequence stays. *)
Theorem create_new_order_for_user_unknown_user (s : session) (user_id : Z) :
  has_user user_id (current s) = false ->
  - 2 ^ 31 <= order_seq s < 2 ^ 31 ->
  exists e s',
    Part8.create_new_order_for_user user_id s = (Raised e, s') /\
    current s' = persisted s /\ persisted s' = persisted s /\
    (in_int64 user_id = true ->
     e = IntegrityError /\ order_seq s' = order_seq s + 1) /\
    (in_int64 user_id = false ->
     e = DataError /\ order_seq s' = order_seq s).
Proof.
  intros Hnone Hseq. destruct s as [p c o q i k tr].
  cbn [current persisted order_seq] in *.
  rewrite create_new_order_for_user_outcome.
  destruct (in_int64 user_id) eqn:Huid.
  - assert (Hlt : (o <? 2 ^ 31) = true) by (apply Z.ltb_lt; lia).
    assert (Ho : in_int32 o = true) by (apply in_int32_iff; lia).
    assert (E : insert_order k o user_id c = Raised IntegrityError).
    { unfold insert_order, integer, bigint. rewrite Ho, Huid. cbn [obind].
      destruct (has_order o c); cbn [negb require obind]; [reflexivity|].
      rewrite Hnone. reflexivity. }
    rewrite Hlt, E. eexists. eexists. split; [reflexivity|].
    cbn [current persisted order_seq].
    split; [reflexivity|]. split; [reflexivity|].
    split; [intros _; split; reflexivity | discriminate].
  - eexists. eexists. split; [reflexivity|].
    cbn [current persisted order_seq].
    split; [reflexivity|]. split; [reflexivity|].
    split; [discriminate | intros _; split; reflexivity].
Qed.

Lemma create_new_order_for_user_unknown_user_witness :
  has_user 7 two_users = false /\ has_user (2 ^ 63) two_users = false /\
  (exists s',
     Part8.create_new_order_for_user 7
       (mkSession empty_db two_users 1 1 [] (date 2020 1 3) [])
     = (Raised IntegrityError, s') /\
     order_seq s' = 2 /\ current s' = empty_db) /\
  (exists s',
     Part8.create_new_order_for_user (2 ^ 63)
       (mkSession empty_db two_users 1 1 [] (date 2020 1 3) [])
     = (Raised DataError, s') /\
     order_seq s' = 1).
Proof.
  split; [reflexivity|]. split; [reflexivity|]. split.
  - destruct (create_new_order_for_user_unknown_user
                (mkSession empty_db two_users 1 1 [] (date 2020 1 3) []) 7 eq_refl)
      as (e & s' & Hrun & Hcur & _ & Hin & _); [simpl; lia|].
    destruct (Hin eq_refl) as [-> Hseq].
    exists s'. split; [exact Hrun|]. split; [exact Hseq | exact Hcur].
  - destruct (create_new_order_for_user_unknown_user
                (mkSession empty_db two_users 1 1 [] (date 2020 1 3) []) (2 ^ 63)
                eq_refl)
      as (e & s' & Hrun & _ & _ & _ & Hout); [simpl; lia|].
    destruct (Hout eq_refl) as [-> Hseq].
    exists s'. split; [exact Hrun | exact Hseq].
Defined.

(* ------------------------------------------------------------------ *)
(** * Inserting products and attaching them *)
(* ------------------------------------------------------------------ *)

Lemma insert_product_rows_returned infos :
  forall p c o q i k tr ids s',
    Part8.insert_product_rows infos (mkSession p c o q i k tr) = (Returned ids, s') ->
    ids = nextvals q (List.length infos) /\
    exists rows,
      s' = mkSession p (mkDb (users c) (orders c) (products c ++ rows)
                             (order_products c))
                     o (q + Z.of_nat (List.length infos)) i k tr /\
      map Product.product_id rows = ids.
Proof.
  induction infos as [|info rest IH]; intros p c o q i k tr ids s' H.
  - simpl in H. unfold ret in H. injection H as <- <-.
    split; [reflexivity|]. exists []. rewrite app_nil_r, Z.add_0_r.
    destruct c; split; reflexivity.
  - cbn [Part8.insert_product_rows] in H.
    unfold bind at 1 in H. unfold check at 1 in H.
    destruct (varchar 255 (info_title info)); [|discriminate].
    unfold bind at 1 in H. unfold check at 1 in H.
    destruct (nullable (varchar 3000) (info_description info)); [|discriminate].
    unfold bind at 1 in H. unfold nextval_products at 1 in H.
    cbn [persisted current order_seq product_seq identity_map clock trace] in H.
    destruct (q <? 2 ^ 31); [|discriminate].
    unfold bind at 1 in H. unfold now at 1 in H. cbn [clock] in H.
    unfold bind at 1 in H. unfold lift at 1 in H. cbn [current] in H.
    destruct (insert_product k q (Some (info_title info)) (info_description info) c)
      as [c1|e] eqn:E; [|discriminate].
    apply insert_product_returned in E. destruct E as (ti & de & -> & _ & _).
    unfold set_current in H.
    cbn [persisted current order_seq product_seq identity_map clock trace] in H.
    unfold bind at 1 in H.
    destruct (Part8.insert_product_rows rest _) as [[ids'|e] s1] eqn:Erest;
      [|discriminate].
    unfold ret in H. injection H as <- <-.
    apply IH in Erest. destruct Erest as (-> & rows & -> & Hkeys).
    cbn [users orders products order_products List.length nextvals].
    split; [reflexivity|].
    exists (Product.mk q ti de (Some k) :: rows). split.
    + rewrite <- app_assoc, Nat2Z.inj_succ.
      replace (q + Z.succ (Z.of_nat (List.length rest)))
        with (q + 1 + Z.of_nat (List.length rest)) by lia.
      reflexivity.
    + simpl. rewrite Hkeys. reflexivity.
Qed.

Lemma insert_product_untitled t id description d :
  exists e, insert_product t id None description d = Raised e.
Proof.
  unfold insert_product. destruct (integer id); cbn [obind nullable]; [|eauto].
  destruct (nullable (varchar 3000) description); cbn [obind not_null]; eauto.
Qed.

Lemma statement_raised {A} (c : M A) s e s' :
  statement c s = (Raised e, s') -> current s' = persisted s'.
Proof.
  unfold statement. destruct (c s) as [[a|e0] s0]; [discriminate|].
  intros [= _ <-]. reflexivity.
Qed.

(** X5.  [create_new_products] is all or nothing.  When it returns, the
    list was not empty, the keys returned are the next values of the
    sequence, one per record and in order, and the products of the session
    are the former ones followed by as many rows, which carry these keys in
    this order; no other table changes.  When it raises, none of its rows
    is kept and the transaction is aborted: the rows the session had
    written and not committed are lost with it.  Either way the committed
    rows are as they were. *)
Theorem create_new_products_all_or_nothing
    (products_info : list product_info) (s : session) :
  match Part8.create_new_products products_info s with
  | (Returned product_ids, s') =>
      products_info <> [] /\
      product_ids = nextvals (product_seq s) (List.length products_info) /\
      product_seq s' = product_seq s + Z.of_nat (List.length products_info) /\
      (exists rows,
          products (current s') = products (current s) ++ rows /\
          map Product.product_id rows = product_ids) /\
      users (current s') = users (current s) /\
      orders (current s') = orders (current s) /\
      order_products (current s') = order_products (current s) /\
      persisted s' = persisted s
  | (Raised _, s') => current s' = persisted s /\ persisted s' = persisted s
  end.
Proof.
  pose proof (quiet_create_new_products products_info s) as [Hp _].
  destruct (Part8.create_new_products products_info s) as [[ids|e] s'] eqn:Hrun;
    cbn [snd] in Hp.
  - destruct s as [p c o q i k tr].
    unfold Part8.create_new_products in Hrun. unfold bind at 1 in Hrun.
    unfold emit at 1 in Hrun.
    cbn [persisted current order_seq product_seq identity_map clock trace] in Hrun.
    destruct products_info as [|info rest].
    + exfalso. unfold statement, bind, nextval_products, now, lift in Hrun.
      cbn [persisted current order_seq product_seq identity_map clock trace] in Hrun.
      destruct (q <? 2 ^ 31); [|discriminate].
      cbn [persisted current order_seq product_seq identity_map clock trace] in Hrun.
      destruct (insert_product_untitled k q None c) as (e & He).
      rewrite He in Hrun. discriminate.
    + unfold statement in Hrun.
      destruct (Part8.insert_product_rows (info :: rest) _) as [[ids'|e] s1] eqn:E;
        [|discriminate].
      injection Hrun as <- <-.
      apply insert_product_rows_returned in E. destruct E as (-> & rows & -> & Hkeys).
      cbn [current product_seq persisted users orders products order_products].
      split; [discriminate|]. split; [reflexivity|]. split; [reflexivity|].
      split; [exists rows; split; [reflexivity | exact Hkeys]|].
      repeat split.
  - split; [|exact Hp].
    destruct s as [p c o q i k tr].
    unfold Part8.create_new_products in Hrun. unfold bind at 1 in Hrun.
    unfold emit at 1 in Hrun.
    cbn [persisted current order_seq product_seq identity_map clock trace] in Hrun.
    destruct products_info as [|info rest];
      apply statement_raised in Hrun; rewrite Hrun; exact Hp.
Qed.

Lemma for_each_insert_order_product_returned oid data :
  forall p c o q i k tr s',
    for_each data
      (fun pd => lift (insert_order_product oid (data_product_id pd) (data_quantity pd)))
      (mkSession p c o q i k tr) = (Returned tt, s') ->
    s' = mkSession p (mkDb (users c) (orders c) (products c)
                           (order_products c ++ order_product_rows oid data))
                   o q i k tr /\
    NoDup (map data_product_id data) /\
    (forall pd, In pd data ->
       has_order oid c = true /\
       has_product (data_product_id pd) c = true /\
       has_order_product oid (data_product_id pd) c = false).
Proof.
  induction data as [|pd rest IH]; intros p c o q i k tr s' H.
  - simpl in H. unfold ret in H. injection H as <-.
    unfold order_product_rows. simpl. rewrite app_nil_r.
    split; [destruct c; reflexivity|]. split; [constructor | intros pd []].
  - cbn [for_each] in H. unfold bind at 1 in H. unfold lift at 1 in H.
    cbn [current] in H.
    destruct (insert_order_product oid (data_product_id pd) (data_quantity pd) c)
      as [c1|e] eqn:E; [|discriminate].
    apply insert_order_product_returned in E.
    destruct E as (-> & Hnew & Hord & Hprod).
    unfold set_current in H.
    cbn [persisted current order_seq product_seq identity_map clock trace] in H.
    apply IH in H. destruct H as (-> & Hnd & Hall).
    cbn [users orders products order_products].
    split; [| split].
    + unfold order_product_rows. cbn [map]. rewrite <- app_assoc. reflexivity.
    + cbn [map]. constructor; [|exact Hnd].
      intros Hin. apply in_map_iff in Hin. destruct Hin as (pd' & Heq & Hpd').
      destruct (Hall pd' Hpd') as (_ & _ & Hnone).
      unfold has_order_product in Hnone. cbn [order_products] in Hnone.
      rewrite existsb_app in Hnone. apply orb_false_iff in Hnone.
      destruct Hnone as [_ Hnone]. simpl in Hnone.
      rewrite Z.eqb_refl, Heq, Z.eqb_refl in Hnone. discriminate.
    + intros pd' [<- | Hpd'].
      * auto.
      * destruct (Hall pd' Hpd') as (Ho & Hp & Hnone). split; [exact Hord|].
        split; [exact Hp|].
        unfold has_order_product in *. cbn [order_products] in Hnone.
        rewrite existsb_app in Hnone. apply orb_false_iff in Hnone. tauto.
Qed.

(** X6.  [add_products_to_order] is all or nothing.  When it returns,
    the list was not empty and named no product twice, the order and
    every product named were stored and none of them was attached to the
    order yet, and the order_products of the session are the former rows
    followed by one row per element, with the order, the product and the
    quantity given; no other table changes.  When it raises on the empty
    list, it is the statement error, nothing was sent to the server and
    the rows of the session are as they were.  When it raises on another
    list, none of its rows is kept and the transaction is aborted: the
    rows the session had written and not committed are lost with it.
    Either way the committed rows are as they were and no key is drawn. *)
Theorem add_products_to_order_all_or_nothing
    (order_id : Z) (data : list product_data) (s : session) :
  match Part8.add_products_to_order order_id data s with
  | (Returned _, s') =>
      data <> [] /\
      NoDup (map data_product_id data) /\
      (forall pd, In pd data ->
         has_order order_id (current s) = true /\
         has_product (data_product_id pd) (current s) = true /\
         has_order_product order_id (data_product_id pd) (current s) = false) /\
      order_products (current s')
      = order_products (current s) ++ order_product_rows order_id data /\
      users (current s') = users (current s) /\
      orders (current s') = orders (current s) /\
      products (current s') = products (current s) /\
      persisted s' = persisted s /\
      order_seq s' = order_seq s /\ product_seq s' = product_seq s
  | (Raised e, s') =>
      (data = [] -> e = StatementError /\ current s' = current s) /\
      (data <> [] -> current s' = persisted s) /\
      persisted s' = persisted s /\
      order_seq s' = order_seq s /\ product_seq s' = product_seq s
  end.
Proof.
  destruct s as [p c o q i k tr].
  unfold Part8.add_products_to_order. unfold bind at 1. unfold emit at 1.
  cbn [persisted current order_seq product_seq identity_map clock trace].
  destruct data as [|pd rest].
  - unfold raise. cbn [current persisted order_seq product_seq].
    split; [intros _; split; reflexivity|].
    split; [intros H; congruence|]. repeat split.
  - unfold statement.
    destruct (for_each_insert_order_product_sends order_id (pd :: rest) p c o q i k
                (tr ++ [InsertOrderProducts order_id (pd :: rest)])) as (r & c' & E).
    rewrite E. destruct r as [[]|e].
    + apply for_each_insert_order_product_returned in E.
      destruct E as (E & Hnd & Hall). injection E as ->.
      cbn [current persisted order_seq product_seq users orders products
           order_products].
      split; [discriminate|]. split; [exact Hnd|]. split; [exact Hall|].
      repeat split.
    + unfold abort. cbn [current persisted order_seq product_seq].
      split; [discriminate|]. repeat split.
Qed.

Lemma add_products_to_order_twice_raises :
  exists e s',
    Part8.add_products_to_order 1 [mkData 1 1; mkData 1 2]
      (mkSession (mkDb [john] [] [] [])
                 (mkDb [john] [Order.mk 1 1 None]
                       [Product.mk 1 "Product 1" None None] [])
                 2 2 [] (date 2020 1 3) [])
    = (Raised e, s') /\
    current s' = mkDb [john] [] [] [].
Proof.
  pose proof (add_products_to_order_all_or_nothing 1 [mkData 1 1; mkData 1 2]
                (mkSession (mkDb [john] [] [] [])
                           (mkDb [john] [Order.mk 1 1 None]
                                 [Product.mk 1 "Product 1" None None] [])
                           2 2 [] (date 2020 1 3) []))
    as H.
  destruct (Part8.add_products_to_order _ _ _) as [[[]|e] s'].
  - destruct H as (_ & Hnd & _). exfalso. inversion Hnd as [|? ? Hnotin _].
    apply Hnotin. left. reflexivity.
  - destruct H as (_ & Hcur & _). exists e, s'. split; [reflexivity|].
    apply Hcur. discriminate.
Defined.

(* ------------------------------------------------------------------ *)
(** * The constraints are kept *)
(* ------------------------------------------------------------------ *)

Lemma NoDup_snoc (l : list Z) x : NoDup l -> ~ In x l -> NoDup (l ++ [x]).
Proof.
  intros Hl Hx. apply NoDup_app.
  - exact Hl.
  - constructor; [intros [] | constructor].
  - intros a Ha [<- | []]. exact (Hx Ha).
Qed.

Lemma has_user_false d ident :
  has_user ident d = false -> ~ In ident (map User.telegram_id (users d)).
Proof.
  intros H Hin. apply in_map_iff in Hin. destruct Hin as (u & Hu & Hin).
  assert (has_user ident d = true) by (apply has_user_exists; eauto).
  congruence.
Qed.

Lemma has_order_exists id d :
  has_order id d = true <-> exists o, In o (orders d) /\ Order.order_id o = id.
Proof.
  unfold has_order. rewrite existsb_exists. split; intros (o & Ho & He); exists o.
  - apply Z.eqb_eq in He. tauto.
  - rewrite He, Z.eqb_refl. tauto.
Qed.

Lemma has_product_exists id d :
  has_product id d = true <-> exists p, In p (products d) /\ Product.product_id p = id.
Proof.
  unfold has_product. rewrite existsb_exists. split; intros (x & Hx & He); exists x.
  - apply Z.eqb_eq in He. tauto.
  - rewrite He, Z.eqb_refl. tauto.
Qed.

Lemma has_order_false d id :
  has_order id d = false -> ~ In id (map Order.order_id (orders d)).
Proof.
  intros H Hin. apply in_map_iff in Hin. destruct Hin as (o & Ho & Hin).
  assert (has_order id d = true) by (apply has_order_exists; eauto).
  congruence.
Qed.

Lemma has_product_false d id :
  has_product id d = false -> ~ In id (map Product.product_id (products d)).
Proof.
  intros H Hin. apply in_map_iff in Hin. destruct Hin as (x & Hx & Hin).
  assert (has_product id d = true) by (apply has_product_exists; eauto).
  congruence.
Qed.

(** A store stays well formed when its sequences move on. *)
Lemma well_formed_later d o q o' q' :
  well_formed (mkServer d o q) -> o <= o' -> q <= q' ->
  well_formed (mkServer d o' q').
Proof.
  intros [H1 H2 H3 H4 H5 H6 H7 H8 H9 H10] Ho Hq. split; try assumption.
  - intros x Hx. specialize (H9 x Hx). cbn in *. lia.
  - intros x Hx. specialize (H10 x Hx). cbn in *. lia.
Qed.

Lemma well_formed_insert_user t v d d' o q :
  well_formed (mkServer d o q) -> insert_user t v d = Returned d' ->
  well_formed (mkServer d' o q).
Proof.
  intros [H1 H2 H3 H4 H5 H6 H7 H8 H9 H10] H.
  apply insert_user_returned in H.
  destruct H as (fn & un & lc & -> & _ & Hnew & Hrf).
  cbn [tables orders_order_id_seq products_product_id_seq] in *.
  assert (Hmono : forall k, has_user k d = true ->
            has_user k (mkDb (users d ++ [User.mk (v_telegram_id v) fn un lc
                                            (server_default t (v_created_at v))
                                            (v_referrer_id v)])
                             (orders d) (products d) (order_products d)) = true).
  { intros k Hk. unfold has_user in *. cbn [users]. rewrite existsb_app, Hk.
    reflexivity. }
  split; cbn [tables orders_order_id_seq products_product_id_seq
              users orders products order_products]; try assumption.
  - rewrite map_app. apply NoDup_snoc; [exact H1 | apply has_user_false; exact Hnew].
  - intros u k Hu Hk. apply in_app_or in Hu. destruct Hu as [Hu | [<- | []]].
    + apply Hmono. exact (H4 u k Hu Hk).
    + cbn [User.referrer_id] in Hk. destruct (Hrf k Hk) as [Hex | ->].
      * apply Hmono. exact Hex.
      * unfold has_user. cbn [users]. rewrite existsb_app. simpl.
        rewrite Z.eqb_refl. apply orb_true_iff. right. reflexivity.
  - intros x Hx. apply Hmono. exact (H5 x Hx).
Qed.

Lemma well_formed_insert_order t uid d d' o q :
  well_formed (mkServer d o q) -> insert_order t o uid d = Returned d' ->
  well_formed (mkServer d' (o + 1) q).
Proof.
  intros [H1 H2 H3 H4 H5 H6 H7 H8 H9 H10] H.
  apply insert_order_returned in H. destruct H as (-> & _ & Hnew & Huser).
  cbn [tables orders_order_id_seq products_product_id_seq] in *.
  split; cbn [tables orders_order_id_seq products_product_id_seq
              users orders products order_products]; try assumption.
  - rewrite map_app. apply NoDup_snoc; [exact H2 | apply has_order_false; exact Hnew].
  - intros x Hx. apply in_app_or in Hx. destruct Hx as [Hx | [<- | []]].
    + exact (H5 x Hx).
    + exact Huser.
  - intros x Hx. specialize (H7 x Hx). unfold has_order in *. cbn [orders].
    rewrite existsb_app, H7. reflexivity.
  - intros x Hx. apply in_app_or in Hx. destruct Hx as [Hx | [<- | []]].
    + specialize (H9 x Hx). cbn in *. lia.
    + simpl. lia.
Qed.

Lemma well_formed_insert_product t title description d d' o q :
  well_formed (mkServer d o q) ->
  insert_product t q title description d = Returned d' ->
  well_formed (mkServer d' o (q + 1)).
Proof.
  intros [H1 H2 H3 H4 H5 H6 H7 H8 H9 H10] H.
  apply insert_product_returned in H. destruct H as (ti & de & -> & _ & Hnew).
  cbn [tables orders_order_id_seq products_product_id_seq] in *.
  split; cbn [tables orders_order_id_seq products_product_id_seq
              users orders products order_products]; try assumption.
  - rewrite map_app. apply NoDup_snoc; [exact H3 | apply has_product_false; exact Hnew].
  - intros x Hx. specialize (H8 x Hx). unfold has_product in *. cbn [products].
    rewrite existsb_app, H8. reflexivity.
  - intros x Hx. apply in_app_or in Hx. destruct Hx as [Hx | [<- | []]].
    + specialize (H10 x Hx). cbn in *. lia.
    + simpl. lia.
Qed.

Lemma well_formed_insert_order_product oid pid qty d d' o q :
  well_formed (mkServer d o q) ->
  insert_order_product oid pid qty d = Returned d' ->
  well_formed (mkServer d' o q).
Proof.
  intros [H1 H2 H3 H4 H5 H6 H7 H8 H9 H10] H.
  apply insert_order_product_returned in H.
  destruct H as (-> & Hnew & Hord & Hprod).
  cbn [tables orders_order_id_seq products_product_id_seq] in *.
  assert (Hnone : forall x, In x (order_products d) ->
            (OrderProduct.order_id x =? oid) && (OrderProduct.product_id x =? pid)
            = false).
  { intros x Hx. destruct (_ && _) eqn:E; [|reflexivity].
    assert (has_order_product oid pid d = true)
      by (apply existsb_exists; eauto).
    congruence. }
  split; cbn [tables orders_order_id_seq products_product_id_seq
              users orders products order_products]; try assumption.
  - intros x Hx. rewrite filter_app. apply in_app_or in Hx.
    destruct Hx as [Hx | [<- | []]].
    + rewrite (H6 x Hx). simpl.
      destruct ((oid =? OrderProduct.order_id x) && (pid =? OrderProduct.product_id x))
        eqn:E; [|reflexivity].
      apply andb_true_iff in E. destruct E as [E1 E2].
      apply Z.eqb_eq in E1, E2. specialize (Hnone x Hx).
      rewrite <- E1, <- E2, !Z.eqb_refl in Hnone. discriminate.
    + cbn [OrderProduct.order_id OrderProduct.product_id].
      rewrite (filter_none _ (order_products d)) by exact Hnone.
      simpl. rewrite !Z.eqb_refl. reflexivity.
  - intros x Hx. apply in_app_or in Hx. destruct Hx as [Hx | [<- | []]].
    + exact (H7 x Hx).
    + exact Hord.
  - intros x Hx. apply in_app_or in Hx. destruct Hx as [Hx | [<- | []]].
    + exact (H8 x Hx).
    + exact Hprod.
Qed.

Ltac kept := split; [assumption | split; [assumption | split; lia]].

Lemma sound_ret {A} (a : A) : sound (ret a).
Proof. intros s Hv Hs. cbn. kept. Qed.

Lemma sound_raise {A} e : sound (@raise A e).
Proof. intros s Hv Hs. cbn. kept. Qed.

Lemma sound_emit e : sound (emit e).
Proof. intros s Hv Hs. cbn. kept. Qed.

Lemma sound_now : sound now.
Proof. intros s Hv Hs. cbn. kept. Qed.

Lemma sound_get_current : sound get_current.
Proof. intros s Hv Hs. cbn. kept. Qed.

Lemma sound_commit : sound commit.
Proof. intros s Hv Hs. cbn. kept. Qed.

Lemma sound_bind {A B} (c : M A) (k : A -> M B) :
  sound c -> (forall a, sound (k a)) -> sound (bind c k).
Proof.
  intros Hc Hk s Hv Hs. unfold bind. specialize (Hc s Hv Hs).
  destruct (c s) as [[a|e] s1]; cbn [snd] in *.
  - destruct Hc as (Hv1 & Hs1 & Ho1 & Hq1).
    destruct (Hk a s1 Hv1 Hs1) as (Hv2 & Hs2 & Ho2 & Hq2). kept.
  - exact Hc.
Qed.

Lemma sound_statement {A} (c : M A) : sound c -> sound (statement c).
Proof.
  intros Hc s Hv Hs. unfold statement. specialize (Hc s Hv Hs).
  destruct (c s) as [[a|e] s1]; cbn [snd] in *; [exact Hc|].
  destruct Hc as (Hv1 & Hs1 & Ho1 & Hq1).
  split; [exact Hs1 | split; [exact Hs1 | split; assumption]].
Qed.

Lemma sound_for_each {A} (xs : list A) body :
  (forall x, sound (body x)) -> sound (for_each xs body).
Proof.
  intros H. induction xs as [|x xs IH]; simpl.
  - apply sound_ret.
  - apply sound_bind; [apply H | intros _; exact IH].
Qed.

Ltac aborted Hs :=
  unfold abort;
  cbn [snd current persisted order_seq product_seq identity_map clock trace];
  split; [exact Hs | split; [exact Hs | split; lia]].

Lemma sound_check {A} (x : outcome A) : sound (check x).
Proof. intros s Hv Hs. unfold check. destruct x; [cbn; kept | aborted Hs]. Qed.

Lemma sound_lift_insert_user t v : sound (lift (insert_user t v)).
Proof.
  intros s Hv Hs. unfold lift.
  destruct (insert_user t v (current s)) as [d'|e] eqn:E; cbn [snd set_current].
  - unfold view, stored in *. cbn [current persisted order_seq product_seq].
    split; [| split; [assumption | split; lia]].
    exact (well_formed_insert_user _ _ _ _ _ _ Hv E).
  - aborted Hs.
Qed.

Lemma sound_lift_insert_order_product oid pid qty :
  sound (lift (insert_order_product oid pid qty)).
Proof.
  intros s Hv Hs. unfold lift.
  destruct (insert_order_product oid pid qty (current s)) as [d'|e] eqn:E;
    cbn [snd set_current].
  - unfold view, stored in *. cbn [current persisted order_seq product_seq].
    split; [| split; [assumption | split; lia]].
    exact (well_formed_insert_order_product _ _ _ _ _ _ _ Hv E).
  - aborted Hs.
Qed.

Lemma sound_create_user id fn un lc ca rf : sound (Part8.create_user id fn un lc ca rf).
Proof.
  unfold Part8.create_user.
  apply sound_bind; [apply sound_emit | intros _].
  apply sound_bind; [apply sound_now | intros t]. apply sound_lift_insert_user.
Qed.

Lemma sound_create_new_order_for_user uid : sound (Part8.create_new_order_for_user uid).
Proof.
  unfold Part8.create_new_order_for_user.
  apply sound_bind; [apply sound_emit | intros _]. apply sound_statement.
  apply sound_bind; [apply sound_check | intros uid'].
  intros s Hv Hs. destruct s as [p c o q i k tr].
  unfold bind, nextval_orders, now, lift, set_current, ret.
  cbn [persisted current order_seq product_seq identity_map clock trace].
  destruct (o <? 2 ^ 31); [| aborted Hs].
  cbn [persisted current order_seq product_seq identity_map clock trace].
  unfold view, stored, abort in *. cbn [current persisted order_seq product_seq] in *.
  destruct (insert_order k o uid' c) as [c'|e] eqn:E;
    cbn [snd current persisted order_seq product_seq];
    (split; [| split; [| split; lia]]).
  - exact (well_formed_insert_order _ _ _ _ _ _ Hv E).
  - apply (well_formed_later _ _ _ _ _ Hs); lia.
  - apply (well_formed_later _ _ _ _ _ Hs); lia.
  - apply (well_formed_later _ _ _ _ _ Hs); lia.
Qed.

Lemma sound_intro {A} (c : M A) :
  (forall s r s', c s = (r, s') ->
     well_formed (view s) -> well_formed (stored s) ->
     well_formed (view s') /\ well_formed (stored s') /\
     order_seq s <= order_seq s' /\ product_seq s <= product_seq s') ->
  sound c.
Proof.
  intros H s Hv Hs. destruct (c s) as [r s'] eqn:E. exact (H s r s' E Hv Hs).
Qed.

Lemma sound_elim {A} (c : M A) s r s' :
  sound c -> c s = (r, s') ->
  well_formed (view s) -> well_formed (stored s) ->
  well_formed (view s') /\ well_formed (stored s') /\
  order_seq s <= order_seq s' /\ product_seq s <= product_seq s'.
Proof. intros H E Hv Hs. specialize (H s Hv Hs). rewrite E in H. exact H. Qed.

(** One products row with its key drawn, and what follows it. *)
Lemma sound_insert_product {A} title description (rest : Z -> M A) :
  (forall id, sound (rest id)) ->
  sound (id <- nextval_products ;;
         t <- now ;;
         lift (insert_product t id title description) ;;
         rest id).
Proof.
  intros Hrest. apply sound_intro. intros s r s' Hrun Hv Hs.
  destruct s as [p c o q i k tr].
  unfold bind at 1 in Hrun. unfold nextval_products at 1 in Hrun.
  cbn [persisted current order_seq product_seq identity_map clock trace] in Hrun.
  destruct (q <? 2 ^ 31); [| injection Hrun as _ <-; aborted Hs].
  unfold bind at 1 in Hrun. unfold now at 1 in Hrun. cbn [clock] in Hrun.
  unfold bind at 1 in Hrun. unfold lift at 1 in Hrun. cbn [current] in Hrun.
  destruct (insert_product k q title description c) as [c1|e] eqn:E.
  - unfold set_current in Hrun.
    cbn [persisted current order_seq product_seq identity_map clock trace] in Hrun.
    assert (Hv1 : well_formed (view (mkSession p c1 o (q + 1) i k tr)))
      by exact (well_formed_insert_product _ _ _ _ _ _ _ Hv E).
    assert (Hs1 : well_formed (stored (mkSession p c1 o (q + 1) i k tr)))
      by (apply (well_formed_later p o q o (q + 1) Hs); lia).
    destruct (sound_elim _ _ _ _ (Hrest q) Hrun Hv1 Hs1) as (Hv2 & Hs2 & Ho2 & Hq2).
    cbn [order_seq product_seq] in *.
    split; [exact Hv2 | split; [exact Hs2 | split; lia]].
  - injection Hrun as _ <-. unfold abort, view, stored in *.
    cbn [snd current persisted order_seq product_seq identity_map clock trace] in *.
    split; [| split; [| split; lia]];
      apply (well_formed_later p o q o (q + 1) Hs); lia.
Qed.

Lemma sound_insert_product_rows infos : sound (Part8.insert_product_rows infos).
Proof.
  induction infos as [|info rest IH].
  - apply sound_ret.
  - cbn [Part8.insert_product_rows].
    apply sound_bind; [apply sound_check | intros _].
    apply sound_bind; [apply sound_check | intros _].
    apply (sound_insert_product (Some (info_title info)) (info_description info)
             (fun id => ids <- Part8.insert_product_rows rest ;; ret (id :: ids))).
    intros id. apply sound_bind; [exact IH | intros ids; apply sound_ret].
Qed.

Lemma sound_create_new_products infos : sound (Part8.create_new_products infos).
Proof.
  unfold Part8.create_new_products.
  apply sound_bind; [apply sound_emit | intros _].
  destruct infos as [|info rest]; apply sound_statement.
  - apply (sound_insert_product None None (fun id => ret [id])).
    intros id. apply sound_ret.
  - apply sound_insert_product_rows.
Qed.

Lemma sound_add_products_to_order oid data : sound (Part8.add_products_to_order oid data).
Proof.
  unfold Part8.add_products_to_order.
  apply sound_bind; [apply sound_emit | intros _].
  destruct data as [|pd rest]; [apply sound_raise|].
  apply sound_statement. apply sound_for_each. intros x.
  apply sound_lift_insert_order_product.
Qed.

(** X7.  The four writers of the query library keep the constraints of
    models.py.  In a session whose rows, in the transaction and as
    committed, have unique keys, references that resolve and sequences
    ahead of every key, this is still so after [create_user],
    [create_new_order_for_user], [create_new_products] and
    [add_products_to_order], with any arguments, whether the call returns
    or raises. *)
Theorem writers_keep_the_constraints (s : session) :
  well_formed (view s) -> well_formed (stored s) ->
  (forall telegram_id full_name username language_code created_at referrer_id,
      let s' := snd (Part8.create_user telegram_id full_name username language_code
                                       created_at referrer_id s) in
      well_formed (view s') /\ well_formed (stored s')) /\
  (forall user_id,
      let s' := snd (Part8.create_new_order_for_user user_id s) in
      well_formed (view s') /\ well_formed (stored s')) /\
  (forall products_info,
      let s' := snd (Part8.create_new_products products_info s) in
      well_formed (view s') /\ well_formed (stored s')) /\
  (forall order_id data,
      let s' := snd (Part8.add_products_to_order order_id data s) in
      well_formed (view s') /\ well_formed (stored s')).
Proof.
  intros Hv Hs. repeat apply conj; intros.
  - destruct (sound_create_user telegram_id full_name username language_code
                created_at referrer_id s Hv Hs) as (H1 & H2 & _).
    split; assumption.
  - destruct (sound_create_new_order_for_user user_id s Hv Hs) as (H1 & H2 & _).
    split; assumption.
  - destruct (sound_create_new_products products_info s Hv Hs) as (H1 & H2 & _).
    split; assumption.
  - destruct (sound_add_products_to_order order_id data s Hv Hs) as (H1 & H2 & _).
    split; assumption.
Qed.

Lemma well_formed_fresh : well_formed fresh_server.
Proof. exact (ready_wf _ main_ready_fresh). Qed.

Lemma writers_keep_the_constraints_witness :
  well_formed (view (open_session (date 2020 1 3) fresh_server)) /\
  well_formed (view (snd (Part8.create_user 1 "John Doe" (Some "johnny"%string) "en"
                            (Some (date 2020 1 1)) None
                            (open_session (date 2020 1 3) fresh_server)))).
Proof.
  split; [exact well_formed_fresh|].
  destruct (writers_keep_the_constraints (open_session (date 2020 1 3) fresh_server)
              well_formed_fresh well_formed_fresh) as (H & _).
  exact (proj1 (H 1 "John Doe"%string (Some "johnny"%string) "en"%string
                  (Some (date 2020 1 1)) None)).
Defined.

Lemma sound_session_get ident : sound (Part10.session_get ident).
Proof.
  intros s Hv Hs. unfold Part10.session_get.
  destruct (Part10.lookup ident (identity_map s)); [cbn; kept|].
  destruct (in_int64 ident); [|cbn; kept].
  destruct (find _ (users (current s))); cbn; kept.
Qed.

Lemma sound_bot_create_user id fn un lc : sound (Part10.create_user id fn un lc).
Proof.
  unfold Part10.create_user.
  apply sound_bind; [apply sound_emit | intros _].
  apply sound_bind; [apply sound_now | intros t]. apply sound_lift_insert_user.
Qed.

Lemma sound_user_start message : sound (Part10.user_start message).
Proof.
  unfold Part10.user_start.
  apply sound_bind; [apply sound_session_get | intros user].
  apply sound_bind.
  - destruct user; [apply sound_ret|].
    apply sound_bind; [apply sound_bot_create_user | intros _]. apply sound_commit.
  - intros _. apply sound_bind; [apply sound_session_get | intros user'].
    destruct user'; [apply sound_emit | apply sound_raise].
Qed.

(** X8.  The start handler keeps the constraints of the users table: if
    the store has unique keys and references that resolve, so has the
    store it leaves, whatever the message and whether the handler replies
    or raises. *)
Theorem user_start_keeps_the_constraints (t : datetime) (message : Part10.Message)
    (srv : server) :
  well_formed srv ->
  well_formed (snd (fst (Part10.start t message srv))).
Proof.
  intros Hwf. unfold Part10.start, run.
  assert (Hv : well_formed (view (open_session t srv))) by (destruct srv; exact Hwf).
  assert (Hs : well_formed (stored (open_session t srv))) by (destruct srv; exact Hwf).
  destruct (sound_user_start message (open_session t srv) Hv Hs) as (_ & H & _).
  destruct (Part10.user_start message (open_session t srv)) as [r s'].
  exact H.
Qed.

Lemma user_start_keeps_the_constraints_witness :
  well_formed fresh_server /\
  well_formed (snd (fst (Part10.start (date 2024 5 6) ann fresh_server))).
Proof.
  split; [exact well_formed_fresh|].
  exact (user_start_keeps_the_constraints (date 2024 5 6) ann fresh_server
           well_formed_fresh).
Defined.

(* ------------------------------------------------------------------ *)
(** * How many rows the joins return *)
(* ------------------------------------------------------------------ *)


Lemma left_outer_join_one_each {A B} (on : A -> B -> bool) l r :
  (forall a, In a l -> (List.length (filter (on a) r) <= 1)%nat) ->
  map fst (left_outer_join on l r) = l.
Proof.
  unfold left_outer_join. induction l as [|a l IH]; intros H; [reflexivity|].
  cbn [flat_map]. rewrite map_app.
  rewrite IH by (intros a' Ha'; apply H; right; exact Ha').
  specialize (H a (or_introl eq_refl)).
  destruct (filter (on a) r) as [|b [|b' bs]]; simpl in *; try reflexivity. lia.
Qed.

Lemma filter_key_at_most_one {R} (key : R -> Z) (l : list R) (k : Z) :
  NoDup (map key l) ->
  (List.length (filter (fun y => (key y =? k)%Z) l) <= 1)%nat.
Proof.
  induction l as [|y l IH]; intros Hnd; simpl; [lia|].
  inversion Hnd as [|? ? Hnotin Hnd']; subst.
  destruct (key y =? k) eqn:E; [|apply IH; exact Hnd'].
  apply Z.eqb_eq in E. subst k. rewrite filter_none; [simpl; lia|].
  intros z Hz. apply Z.eqb_neq. intros Heq. apply Hnotin. rewrite <- Heq.
  apply in_map. exact Hz.
Qed.








(** X11.  [select_all_users_and_some_referrers] returns one row per
    stored user, each with its user's full name, when user keys are
    unique: a user has at most one referrer row.  The rows are counted as
    a collection; the select asks for no order. *)
Theorem select_all_users_one_row_per_user (s : session) :
  NoDup (map User.telegram_id (users (current s))) ->
  exists rows,
    fst (Part8.select_all_users_and_some_referrers s) = Returned rows /\
    Permutation (map user rows)
                (map (fun u => Some (User.full_name u)) (users (current s))) /\
    List.length rows = List.length (users (current s)).
Proof.
  intros Hpk. exists (query_all_users_and_some_referrers (current s)).
  split; [reflexivity|].
  assert (Hone : map fst (users_outerjoin_referrer (current s)) = users (current s)).
  { apply left_outer_join_one_each. intros u _. unfold referrer_of.
    destruct (User.referrer_id u) as [k|].
    - apply (filter_key_at_most_one User.telegram_id). exact Hpk.
    - rewrite filter_none by reflexivity. simpl. lia. }
  assert (Hnames : map user (query_all_users_and_some_referrers (current s))
                   = map (fun u => Some (User.full_name u)) (users (current s))).
  { unfold query_all_users_and_some_referrers. rewrite map_map.
    rewrite <- Hone at 1. rewrite map_map. apply map_ext. intros [u r]. reflexivity. }
  split; [rewrite Hnames; apply Permutation_refl|].
  rewrite <- (length_map user), Hnames, length_map. reflexivity.
Qed.

Lemma select_all_users_one_row_per_user_witness :
  NoDup (map User.telegram_id
             (users (current (open_session (date 2020 1 4)
                                (mkServer three_users 1 1))))) /\
  exists rows,
    fst (Part8.select_all_users_and_some_referrers
           (open_session (date 2020 1 4) (mkServer three_users 1 1)))
    = Returned rows /\
    Permutation (map user rows)
      [Some "John Doe"%string; Some "Jane Doe"%string; Some "Jack Doe"%string] /\
    List.length rows = 3%nat.
Proof.
  assert (Hpk : NoDup (map User.telegram_id (users three_users))).
  { repeat constructor; simpl; intuition discriminate. }
  split; [exact Hpk|].
  exact (select_all_users_one_row_per_user
           (open_session (date 2020 1 4) (mkServer three_users 1 1)) Hpk).
Defined.

(** X12.  The three referrer joins agree: every row of the inner join
    is a row of both outer joins; a row of the left join that the inner
    join does not have has its referrer absent, and a row of the
    swapped join that the inner join does not have has its user
    absent. *)
Theorem outer_joins_extend_the_inner_join (s : session) :
  exists inner left right,
    fst (Part8.select_users_with_referrer s) = Returned inner /\
    fst (Part8.select_all_users_and_some_referrers s) = Returned left /\
    fst (Part8.select_some_users_and_all_referrers s) = Returned right /\
    (forall row, In row inner -> In row left /\ In row right) /\
    (forall row, In row left -> In row inner \/ referrer row = None) /\
    (forall row, In row right -> In row inner \/ user row = None).
Proof.
  exists (query_users_with_referrer (current s)),
         (query_all_users_and_some_referrers (current s)),
         (query_some_users_and_all_referrers (current s)).
  split; [reflexivity|]. split; [reflexivity|]. split; [reflexivity|].
  unfold query_users_with_referrer, query_all_users_and_some_referrers,
    query_some_users_and_all_referrers, users_join_referrer,
    users_outerjoin_referrer, referrer_outerjoin_users.
  split; [| split].
  - intros row Hin. apply in_map_iff in Hin. destruct Hin as ([u r] & <- & Hin).
    apply in_inner_join in Hin. destruct Hin as (Hu & Hr & Hon). split.
    + apply in_map_iff. exists (u, Some r). split; [reflexivity|].
      apply in_left_outer_join_some. auto.
    + apply in_map_iff. exists (r, Some u). split; [reflexivity|].
      apply in_left_outer_join_some. auto.
  - intros row Hin. apply in_map_iff in Hin. destruct Hin as ([u [r|]] & <- & Hin).
    + left. apply in_left_outer_join_some in Hin.
      apply in_map_iff. exists (u, r). split; [reflexivity|].
      apply in_inner_join. exact Hin.
    + right. reflexivity.
  - intros row Hin. apply in_map_iff in Hin. destruct Hin as ([r [u|]] & <- & Hin).
    + left. apply in_left_outer_join_some in Hin. destruct Hin as (Hr & Hu & Hon).
      apply in_map_iff. exists (u, r). split; [reflexivity|].
      apply in_inner_join. auto.
    + right. reflexivity.
Qed.

Lemma outer_joins_extend_the_inner_join_witness :
  exists inner left right,
    fst (Part8.select_users_with_referrer
           (open_session (date 2020 1 3) (mkServer two_users 1 1))) = Returned inner /\
    fst (Part8.select_all_users_and_some_referrers
           (open_session (date 2020 1 3) (mkServer two_users 1 1))) = Returned left /\
    fst (Part8.select_some_users_and_all_referrers
           (open_session (date 2020 1 3) (mkServer two_users 1 1))) = Returned right /\
    (In (mkUR (Some "Jane Doe"%string) (Some "John Doe"%string)) inner ->
     In (mkUR (Some "Jane Doe"%string) (Some "John Doe"%string)) left).
Proof.
  destruct (outer_joins_extend_the_inner_join
              (open_session (date 2020 1 3) (mkServer two_users 1 1)))
    as (inner & left & right & H1 & H2 & H3 & Hsub & _).
  exists inner, left, right. repeat split; try assumption.
  intros Hin. exact (proj1 (Hsub _ Hin)).
Defined.

(* ------------------------------------------------------------------ *)
(** * The two scripts, run and run again *)
(* ------------------------------------------------------------------ *)

(** X13.  The synchronous driver can be run again.  On a store that is
    ready for it, with keys left for two runs, a first run returns and
    leaves a store that is ready again, since it commits nothing; a
    second run returns too, sends the same script with the next order key
    and the next three product keys, and leaves the stored rows as they
    were before the first run. *)
Theorem main_runs_again (t1 t2 : datetime) (srv : server) :
  main_ready srv ->
  orders_order_id_seq srv + 1 < 2 ^ 31 ->
  products_product_id_seq srv + 6 <= 2 ^ 31 ->
  exists srv1 tr1 srv2 tr2,
    Part8.main t1 srv = (Returned tt, srv1, tr1) /\
    main_ready srv1 /\
    Part8.main t2 srv1 = (Returned tt, srv2, tr2) /\
    tables srv2 = tables srv /\
    orders_order_id_seq srv1 = orders_order_id_seq srv + 1 /\
    products_product_id_seq srv1 = products_product_id_seq srv + 3 /\
    tr2 = demonstration t2 srv1.
Proof.
  intros Hready Ho Hp.
  assert (Hready1 : main_ready (mkServer (tables srv) (orders_order_id_seq srv + 1)
                                         (products_product_id_seq srv + 3))).
  { destruct Hready as [Hwf H1 H2 Hor Hpr]. destruct srv as [d o q].
    cbn [tables orders_order_id_seq products_product_id_seq] in *.
    split; cbn [tables orders_order_id_seq products_product_id_seq];
      try assumption; try lia.
    apply (well_formed_later _ _ _ _ _ Hwf); lia. }
  eexists. eexists. eexists. eexists.
  split; [apply main_runs; exact Hready|].
  split; [exact Hready1|].
  split; [apply main_runs; exact Hready1|].
  repeat split.
Qed.

Lemma main_runs_again_witness :
  main_ready fresh_server /\
  exists srv1 tr1 srv2 tr2,
    Part8.main (date 2020 1 3) fresh_server = (Returned tt, srv1, tr1) /\
    Part8.main (date 2020 1 4) srv1 = (Returned tt, srv2, tr2) /\
    tables srv2 = empty_db /\
    orders_order_id_seq srv1 = 2.
Proof.
  split; [exact main_ready_fresh|].
  destruct (main_runs_again (date 2020 1 3) (date 2020 1 4) fresh_server
              main_ready_fresh)
    as (srv1 & tr1 & srv2 & tr2 & H1 & _ & H2 & H3 & H4 & _).
  - simpl. lia.
  - simpl. lia.
  - exists srv1, tr1, srv2, tr2. repeat split; assumption.
Defined.



(* ------------------------------------------------------------------ *)
(** * What the start handler does, whatever the message *)
(* ------------------------------------------------------------------ *)








(* ------------------------------------------------------------------ *)
(** * Deleting keeps the constraints *)
(* ------------------------------------------------------------------ *)

Lemma NoDup_map_filter {A B} (f : A -> B) (p : A -> bool) l :
  NoDup (map f l) -> NoDup (map f (filter p l)).
Proof.
  induction l as [|x l IH]; simpl; intros H; [constructor|].
  inversion H as [|? ? Hnin Hnd]; subst.
  destruct (p x); simpl; [constructor|]; auto.
  intros Hin. apply Hnin. apply in_map_iff in Hin. destruct Hin as (y & Hy & Hyin).
  apply filter_In in Hyin. apply in_map_iff. exists y. tauto.
Qed.

Lemma filter_comm {A} (p q : A -> bool) l :
  filter p (filter q l) = filter q (filter p l).
Proof.
  induction l as [|a l IH]; simpl; [reflexivity|].
  destruct (p a) eqn:Ep, (q a) eqn:Eq; simpl; rewrite ?Ep, ?Eq, IH; reflexivity.
Qed.

Lemma clear_referrer_id gone u :
  User.telegram_id (clear_referrer gone u) = User.telegram_id u.
Proof. unfold clear_referrer. destruct (refers_to gone u); reflexivity. Qed.

Lemma has_user_after_delete uid k us os ps ops :
  has_user k (mkDb (map (clear_referrer [uid])
                        (filter (fun u => negb (User.telegram_id u =? uid)) us))
                   os ps ops)
  = existsb (fun u => User.telegram_id u =? k) us && negb (k =? uid).
Proof.
  unfold has_user. cbn [users].
  induction us as [|x us IH]; [reflexivity|]. cbn [filter existsb].
  destruct (Z.eqb_spec (User.telegram_id x) uid) as [Hx|Hx]; cbn [negb map existsb].
  - rewrite IH. destruct (Z.eqb_spec (User.telegram_id x) k) as [Hk|Hk];
      [|reflexivity].
    assert (Hku : (k =? uid) = true) by (apply Z.eqb_eq; congruence).
    rewrite Hku. cbn [negb]. rewrite andb_false_r. reflexivity.
  - rewrite IH, clear_referrer_id.
    destruct (Z.eqb_spec (User.telegram_id x) k) as [Hk|Hk]; [|reflexivity].
    assert (Hku : (k =? uid) = false) by (apply Z.eqb_neq; congruence).
    rewrite Hku. reflexivity.
Qed.

(** X16.  Deleting a user under the rules of models.py always succeeds and
    keeps every constraint: after it the user is gone, keys are still
    unique, every referrer and every order's user is still stored, and
    every order_products row still names a stored order and a stored
    product. *)
Theorem delete_user_keeps_the_constraints (srv : server) (uid : Z) :
  well_formed srv ->
  exists d',
    delete_user models uid (tables srv) = Returned d' /\
    well_formed (mkServer d' (orders_order_id_seq srv) (products_product_id_seq srv)) /\
    has_user uid d' = false.
Proof.
  destruct srv as [d o q]. cbn [tables orders_order_id_seq products_product_id_seq].
  intros Hwf. destruct (has_user uid d) eqn:Hhas.
  2:{ exists d. unfold delete_user. rewrite Hhas. cbn [negb].
      split; [reflexivity|]. split; [exact Hwf | reflexivity]. }
  rewrite (delete_user_models uid d Hhas). eexists. split; [reflexivity|].
  destruct Hwf as [Hu Ho Hp Hrf Hof Hpk Hoo Hop Hos Hps]. cbn [tables] in *.
  split.
  2:{ rewrite has_user_after_delete, Z.eqb_refl. cbn [negb].
      apply andb_false_r. }
  split; cbn [tables users orders products order_products
              orders_order_id_seq products_product_id_seq].
  - rewrite map_map.
    rewrite (map_ext _ User.telegram_id (fun u => clear_referrer_id [uid] u)).
    apply NoDup_map_filter. exact Hu.
  - apply NoDup_map_filter. exact Ho.
  - exact Hp.
  - intros u k Hin Hk. rewrite has_user_after_delete.
    apply in_map_iff in Hin. destruct Hin as (u0 & <- & Hin).
    apply filter_In in Hin. destruct Hin as [Hin _].
    unfold clear_referrer in Hk.
    destruct (refers_to [uid] u0) eqn:R; [discriminate Hk|].
    apply andb_true_iff. split; [exact (Hrf u0 k Hin Hk)|].
    apply negb_true_iff, Z.eqb_neq. intros ->.
    apply refers_to_one in Hk. congruence.
  - intros x Hin. rewrite has_user_after_delete.
    apply filter_In in Hin. destruct Hin as [Hin Hne].
    apply andb_true_iff. split; [exact (Hof x Hin) | exact Hne].
  - intros op Hin. apply filter_In in Hin. destruct Hin as [Hin Hkeep].
    rewrite filter_comm, (Hpk op Hin). cbn [filter]. rewrite Hkeep. reflexivity.
  - intros op Hin. apply filter_In in Hin. destruct Hin as [Hin Hkeep].
    apply has_order_exists. cbn [orders].
    destruct (proj1 (has_order_exists _ _) (Hoo op Hin)) as (x & Hx & Hxid).
    exists x. split; [|exact Hxid].
    apply filter_In. split; [exact Hx|].
    destruct (Order.user_id x =? uid) eqn:E; [|reflexivity].
    apply negb_true_iff in Hkeep.
    assert (Hmem : mem (OrderProduct.order_id op)
                       (map Order.order_id
                            (filter (fun o => Order.user_id o =? uid) (orders d)))
                   = true).
    { apply mem_in. rewrite <- Hxid. apply in_map. apply filter_In. tauto. }
    congruence.
  - intros op Hin. apply filter_In in Hin. destruct Hin as [Hin _].
    exact (Hop op Hin).
  - intros x Hin. apply filter_In in Hin. destruct Hin as [Hin _]. exact (Hos x Hin).
  - exact Hps.
Qed.

(** X17.  Deleting a product under the rules of models.py succeeds exactly
    when no order_products row names it.  When it succeeds the product is
    gone, the other products and the other tables are as they were, and
    every constraint still holds; when it is refused, it is for the
    constraint, and a row that names the product is at hand. *)
Theorem delete_product_only_when_unused (srv : server) (pid : Z) :
  well_formed srv ->
  match delete_product models pid (tables srv) with
  | Returned d' =>
      (forall op, In op (order_products (tables srv)) ->
                  OrderProduct.product_id op <> pid) /\
      has_product pid d' = false /\
      (forall p, In p (products d') <->
                 In p (products (tables srv)) /\ Product.product_id p <> pid) /\
      users d' = users (tables srv) /\ orders d' = orders (tables srv) /\
      order_products d' = order_products (tables srv) /\
      well_formed (mkServer d' (orders_order_id_seq srv)
                            (products_product_id_seq srv))
  | Raised e =>
      e = IntegrityError /\
      exists op, In op (order_products (tables srv)) /\
                 OrderProduct.product_id op = pid
  end.
Proof.
  destruct srv as [d o q]. cbn [tables orders_order_id_seq products_product_id_seq].
  intros Hwf. unfold delete_product.
  destruct (has_product pid d) eqn:Hhas; cbn [negb].
  2:{ split.
      { intros op Hin Hp. pose proof (wf_order_products_product_fk _ Hwf op Hin) as H.
        cbn [tables] in H. congruence. }
      split; [exact Hhas|]. split.
      { intros p. split; [|tauto]. intros Hin. split; [exact Hin|].
        intros Hp. assert (has_product pid d = true)
          by (apply has_product_exists; eauto). congruence. }
      split; [reflexivity|]. split; [reflexivity|]. split; [reflexivity|].
      exact Hwf. }
  cbn [models order_products_product_id].
  destruct (existsb (fun op => OrderProduct.product_id op =? pid) (order_products d))
    eqn:Hused; cbn [obind].
  - split; [reflexivity|]. apply existsb_exists in Hused.
    destruct Hused as (op & Hin & He). exists op. split; [exact Hin|].
    apply Z.eqb_eq. exact He.
  - assert (Hfree : forall op, In op (order_products d) ->
                               OrderProduct.product_id op <> pid).
    { intros op Hin Hp.
      assert (existsb (fun op => OrderProduct.product_id op =? pid) (order_products d)
              = true).
      { apply existsb_exists. exists op. split; [exact Hin|].
        apply Z.eqb_eq. exact Hp. }
      congruence. }
    split; [exact Hfree|]. cbn [users orders products order_products].
    assert (Hgone : has_product pid
                      (mkDb (users d) (orders d)
                            (filter (fun p => negb (Product.product_id p =? pid))
                                    (products d))
                            (order_products d)) = false).
    { apply not_true_is_false. intros E.
      apply has_product_exists in E. destruct E as (p & Hp & Hpid).
      cbn [products] in Hp. apply filter_In in Hp. destruct Hp as [_ Hp].
      apply negb_true_iff, Z.eqb_neq in Hp. contradiction. }
    split; [exact Hgone|]. split.
    { intros p. rewrite filter_In, negb_true_iff, Z.eqb_neq. reflexivity. }
    split; [reflexivity|]. split; [reflexivity|]. split; [reflexivity|].
    destruct Hwf as [Hu Ho Hp Hrf Hof Hpk Hoo Hop Hos Hps]. cbn [tables] in *.
    split; cbn [tables users orders products order_products
                orders_order_id_seq products_product_id_seq]; try assumption.
    + apply NoDup_map_filter. exact Hp.
    + intros op Hin. apply has_product_exists. cbn [products].
      destruct (proj1 (has_product_exists _ _) (Hop op Hin)) as (p & Hpin & Hpid).
      exists p. split; [|exact Hpid]. apply filter_In. split; [exact Hpin|].
      apply negb_true_iff, Z.eqb_neq. rewrite Hpid. exact (Hfree op Hin).
    + intros p Hin. apply filter_In in Hin. destruct Hin as [Hin _]. exact (Hps p Hin).
Qed.

Lemma small_shop_well_formed : well_formed small_shop.
Proof.
  split; cbn [small_shop tables users orders products order_products map
              orders_order_id_seq products_product_id_seq john jane
              User.telegram_id Order.order_id Product.product_id].
  - repeat constructor; simpl; intuition discriminate.
  - repeat constructor. intros [].
  - repeat constructor; simpl; intuition discriminate.
  - intros u k [<- | [<- | []]]; [discriminate|]. intros [= <-]. reflexivity.
  - intros o [<- | []]. reflexivity.
  - intros op [<- | []]. reflexivity.
  - intros op [<- | []]. reflexivity.
  - intros op [<- | []]. reflexivity.
  - intros o [<- | []]. simpl. lia.
  - intros p [<- | [<- | []]]; simpl; lia.
Qed.

Lemma delete_user_keeps_the_constraints_witness :
  well_formed small_shop /\
  exists d',
    delete_user models 1 (tables small_shop) = Returned d' /\
    well_formed (mkServer d' 2 3) /\
    d' = mkDb [User.mk 2 "Jane Doe" (Some "jane"%string) "en"
                       (Some (date 2020 1 2)) None]
              []
              [Product.mk 1 "Tea" None None; Product.mk 2 "Cup" None None]
              [].
Proof.
  split; [exact small_shop_well_formed|].
  destruct (delete_user_keeps_the_constraints small_shop 1 small_shop_well_formed)
    as (d' & Hrun & Hwf & _).
  exists d'. split; [exact Hrun|]. split; [exact Hwf|].
  assert (Hd : delete_user models 1 (tables small_shop)
               = Returned
                   (mkDb [User.mk 2 "Jane Doe" (Some "jane"%string) "en"
                                  (Some (date 2020 1 2)) None]
                         []
                         [Product.mk 1 "Tea" None None; Product.mk 2 "Cup" None None]
                         [])) by reflexivity.
  rewrite Hd in Hrun. injection Hrun as <-. reflexivity.
Defined.

Lemma delete_product_only_when_unused_witness :
  well_formed small_shop /\
  (exists op, In op (order_products (tables small_shop)) /\
              OrderProduct.product_id op = 1) /\
  (forall op, In op (order_products (tables small_shop)) ->
              OrderProduct.product_id op <> 2).
Proof.
  split; [exact small_shop_well_formed|].
  pose proof (delete_product_only_when_unused small_shop 1 small_shop_well_formed)
    as Hused.
  pose proof (delete_product_only_when_unused small_shop 2 small_shop_well_formed)
    as Hfree.
  assert (H1 : delete_product models 1 (tables small_shop) = Raised IntegrityError)
    by reflexivity.
  assert (H2 : delete_product models 2 (tables small_shop)
               = Returned (mkDb [john; jane] [Order.mk 1 1 None]
                                [Product.mk 1 "Tea" None None]
                                [OrderProduct.mk 1 1 2]))
    by reflexivity.
  rewrite H1 in Hused. rewrite H2 in Hfree.
  split; [exact (proj2 Hused) | exact (proj1 Hfree)].
Defined.

(* ------------------------------------------------------------------ *)
(** * The driver on a store that has its users already *)
(* ------------------------------------------------------------------ *)

Lemma insert_user_taken t id fn un lc ca rf d :
  in_int64 id = true ->
  (characters fn <= 255)%nat ->
  (forall h, un = Some h -> (characters h <= 255)%nat) ->
  (characters lc <= 10)%nat ->
  match rf with None => True | Some r => in_int64 r = true end ->
  has_user id d = true ->
  insert_user t (mkUserValues id (Some fn) un (Some lc) ca rf) d
  = Raised IntegrityError.
Proof.
  intros Hid Hfn Hun Hlc Hrf Htaken. unfold insert_user.
  cbn [v_telegram_id v_full_name v_username v_language_code v_referrer_id
       v_created_at nullable].
  unfold bigint at 1. rewrite Hid. cbn [obind].
  rewrite (varchar_fits 255 fn Hfn). cbn [obind].
  assert (Eun : nullable (varchar 255) un = Returned un).
  { destruct un as [h|]; [|reflexivity]. cbn [nullable].
    rewrite (varchar_fits 255 h (Hun h eq_refl)). reflexivity. }
  rewrite Eun. cbn [obind].
  rewrite (varchar_fits 10 lc Hlc). cbn [obind].
  assert (Erf : nullable bigint rf = Returned rf).
  { destruct rf as [r|]; [|reflexivity]. cbn [nullable]. unfold bigint.
    rewrite Hrf. reflexivity. }
  rewrite Erf. cbn [obind not_null]. rewrite Htaken. reflexivity.
Qed.

Lemma create_user_raises id fn un lc ca rf p c e o q i k tr :
  insert_user k (mkUserValues id (Some fn) un (Some lc) (Value ca) rf) c
  = Raised e ->
  Part8.create_user id fn un lc ca rf (mkSession p c o q i k tr)
  = (Raised e,
     mkSession p p o q i k
               (tr ++ [InsertUser (mkUserValues id (Some fn) un (Some lc)
                                                (Value ca) rf)])).
Proof. intros H. rewrite create_user_outcome, H. reflexivity. Qed.

(** X18.  The driver inserts its two users with fixed keys.  On a store
    that has a user 1 or a user 2 already, it raises the constraint error
    at that insert: the store is left as it was, with its sequences where
    they were, and nothing but user inserts was sent, no select and no
    commit. *)
Theorem main_stops_at_a_taken_key (t : datetime) (srv : server) :
  has_user 1 (tables srv) = true \/ has_user 2 (tables srv) = true ->
  exists tr,
    Part8.main t srv = (Raised IntegrityError, srv, tr) /\
    (1 <= count is_insert tr <= 2)%nat /\
    count is_statement tr = count is_insert tr /\
    List.length tr = count is_insert tr.
Proof.
  intros Htaken. destruct srv as [[us os ps ops] oseq pseq].
  cbn [tables] in Htaken.
  unfold Part8.main, run, open_session, Part8.main_body.
  cbn [tables orders_order_id_seq products_product_id_seq].
  destruct (has_user 1 (mkDb us os ps ops)) eqn:H1.
  - erewrite bind_raised;
      [| apply create_user_raises; apply insert_user_taken;
         [ reflexivity | simpl; lia | intros h [= <-]; simpl; lia | simpl; lia
         | exact I | exact H1 ] ].
    eexists. split; [reflexivity|]. cbn. repeat split; lia.
  - destruct Htaken as [Hone | H2]; [discriminate Hone|].
    step ltac:(apply create_user_returns; apply insert_user_returns;
               [ reflexivity | simpl; lia | intros h [= <-]; simpl; lia | simpl; lia
               | exact I | exact H1 ]).
    rows.
    erewrite bind_raised;
      [| apply create_user_raises; apply insert_user_taken;
         [ reflexivity | simpl; lia | intros h [= <-]; simpl; lia | simpl; lia
         | reflexivity | rewrite has_user_rows, H2; reflexivity ] ].
    eexists. split; [reflexivity|]. cbn. repeat split; lia.
Qed.

Lemma main_stops_at_a_taken_key_witness :
  has_user 1 (tables small_shop) = true /\
  exists tr,
    Part8.main (date 2020 1 3) small_shop = (Raised IntegrityError, small_shop, tr) /\
    List.length tr = 1%nat.
Proof.
  split; [reflexivity|].
  destruct (main_stops_at_a_taken_key (date 2020 1 3) small_shop (or_introl eq_refl))
    as (tr & Hrun & _ & _ & Hlen).
  exists tr. split; [exact Hrun|].
  assert (Hfirst : Part8.main (date 2020 1 3) small_shop
                   = (Raised IntegrityError, small_shop,
                      [InsertUser (mkUserValues 1 (Some "John Doe"%string)
                                     (Some "johnny"%string) (Some "en"%string)
                                     (Value (Some (date 2020 1 1))) None)]))
    by reflexivity.
  rewrite Hfirst in Hrun. injection Hrun as <-. reflexivity.
Defined.
